(** * tr7: a website monitor bot (b.py)

    A shallow embedding of the monitoring engine of [b.py]: the link
    extractor [extract_files], the file fetcher [download_file], the poll
    routine [check_single_website] and the commands [track] and [untrack],
    with the properties of the engine stated over it.

    Conventions.
    - A Python [str] is a [string]; a non-ASCII character is the sequence of
      its UTF-8 bytes, so [url.encode()] is the identity.
    - An unbounded Python [int] is a [Z].
    - A dictionary is a [gmap]; the JSON lists of the store are [list]s.
    - Calls that leave the process (HTTP, Telegram, the file system, the job
      scheduler) append an [Event] to a trace; what such a call answers, and
      whether it raises, is read from an environment record.
    - An exception is a result [Raise e] of the monad [M]; [try]/[except
      Exception] is [try_except].
    - The string primitives are modelled on ASCII text: case folding and
      blanks beyond ASCII are left as they are. *)

From Stdlib Require Import ZArith Ascii String List Lia Bool.
From stdpp Require Import gmap strings list pretty.

Local Open Scope string_scope.
Local Open Scope list_scope.
Local Open Scope Z_scope.

(** ** Python string primitives *)

Module Py.

(** [x or y] on strings that may be [None]: the first truthy operand, else
    the last one. *)
Definition truthy (o : option string) : bool :=
  match o with
  | Some (String _ _) => true
  | _ => false
  end.

Definition or_else (x y : option string) : option string :=
  if truthy x then x else y.

Definition lower_ascii (c : ascii) : ascii :=
  let n := nat_of_ascii c in
  if (Nat.leb 65 n && Nat.leb n 90)%bool then ascii_of_nat (n + 32) else c.

(** [s.lower()] *)
Fixpoint lower (s : string) : string :=
  match s with
  | EmptyString => EmptyString
  | String c r => String (lower_ascii c) (lower r)
  end.

(** [s.endswith(p)] *)
Fixpoint endswith (s p : string) : bool :=
  if String.eqb s p then true
  else match s with
       | EmptyString => false
       | String _ r => endswith r p
       end.

(** [c in s] for a one-character [c] *)
Fixpoint contains_char (c : ascii) (s : string) : bool :=
  match s with
  | EmptyString => false
  | String d r => (Ascii.eqb c d || contains_char c r)%bool
  end.

(** [p in s] for a substring [p] *)
Fixpoint contains (p s : string) : bool :=
  if String.prefix p s then true
  else match s with
       | EmptyString => false
       | String _ r => contains p r
       end.

(** [x in l] for a list of strings *)
Definition mem (x : string) (l : list string) : bool :=
  existsb (String.eqb x) l.

(** [s[:n]] *)
Definition take (n : nat) (s : string) : string := String.substring 0 n s.

(** The part of [s] before the first [c] and the part from that [c] on;
    [(s, "")] when there is none. *)
Fixpoint break_at (c : ascii) (s : string) : string * string :=
  match s with
  | EmptyString => (EmptyString, EmptyString)
  | String d r =>
      if Ascii.eqb c d then (EmptyString, s)
      else let '(a, b) := break_at c r in (String d a, b)
  end.

(** The part of [s] after its last [c]; [None] when [c] does not occur. *)
Fixpoint after_last (c : ascii) (s : string) : option string :=
  match s with
  | EmptyString => None
  | String d r =>
      match after_last c r with
      | Some t => Some t
      | None => if Ascii.eqb c d then Some r else None
      end
  end.

(** [os.path.basename(p)]: what follows the last slash. *)
Definition basename (p : string) : string :=
  match after_last "/" p with
  | Some t => t
  | None => p
  end.

(** The extension of a file name that holds no slash: from its last dot,
    unless only dots come before it. *)
Fixpoint strip_dots (s : string) : string :=
  match s with
  | String "." r => strip_dots r
  | _ => s
  end.

Definition ext_of_name (name : string) : string :=
  match after_last "." (strip_dots name) with
  | Some e => String "." e
  | None => EmptyString
  end.

(** [os.path.splitext(p)[1]] *)
Definition splitext_ext (p : string) : string := ext_of_name (basename p).

(** [re.sub] with the class of the nine characters a file name must not
    hold (backslash, slash, star, question mark, colon, double quote, angle
    brackets, bar), each replaced by nothing. *)
Definition forbidden_char (c : ascii) : bool :=
  existsb (Ascii.eqb c)
    ["\"%char; "/"%char; "*"%char; "?"%char; ":"%char; ascii_of_nat 34;
     "<"%char; ">"%char; "|"%char].

Fixpoint sanitize (s : string) : string :=
  match s with
  | EmptyString => EmptyString
  | String c r => if forbidden_char c then sanitize r else String c (sanitize r)
  end.

(** [str.isspace] on an ASCII character *)
Definition is_space (c : ascii) : bool :=
  let n := nat_of_ascii c in
  ((Nat.leb 9 n && Nat.leb n 13) || (Nat.leb 28 n && Nat.leb n 32))%bool.

(** [s.split()]: the maximal runs of non-blank characters. *)
Fixpoint split_go (cur : string) (s : string) : list string :=
  match s with
  | EmptyString => if String.eqb cur "" then [] else [String.rev cur]
  | String c r =>
      if is_space c
      then (if String.eqb cur "" then split_go "" r
            else String.rev cur :: split_go "" r)
      else split_go (String c cur) r
  end.

Definition split (s : string) : list string := split_go "" s.

(** [s.strip()] *)
Fixpoint lstrip (s : string) : string :=
  match s with
  | String c r => if is_space c then lstrip r else s
  | EmptyString => s
  end.

Definition strip (s : string) : string :=
  String.rev (lstrip (String.rev (lstrip s))).

(** [s.split(c)] for a one-character separator *)
Fixpoint split_on (c : ascii) (cur : string) (s : string) : list string :=
  match s with
  | EmptyString => [String.rev cur]
  | String d r =>
      if Ascii.eqb c d then String.rev cur :: split_on c "" r
      else split_on c (String d cur) r
  end.

(** [c.join(l)] *)
Fixpoint join (c : string) (l : list string) : string :=
  match l with
  | [] => ""
  | [x] => x
  | x :: r => x +:+ c +:+ join c r
  end.

(** [int(s)]: blanks around, an optional sign and ASCII decimal digits,
    where single underscores may separate digits; [None] stands for
    [ValueError]. *)
Definition digit_of (c : ascii) : option Z :=
  let n := nat_of_ascii c in
  if (Nat.leb 48 n && Nat.leb n 57)%bool then Some (Z.of_nat (n - 48)) else None.

Fixpoint int_digits (acc : Z) (after_digit : bool) (s : string) : option Z :=
  match s with
  | EmptyString => if after_digit then Some acc else None
  | String c r =>
      match digit_of c with
      | Some d => int_digits (10 * acc + d) true r
      | None =>
          if (Ascii.eqb c "_" && after_digit)%bool
          then int_digits acc false r
          else None
      end
  end.

Definition int (s : string) : option Z :=
  match strip s with
  | String "-" r => Z.opp <$> int_digits 0 false r
  | String "+" r => int_digits 0 false r
  | t => int_digits 0 false t
  end.

(** [l[i]]; [None] stands for [IndexError]. *)
Definition index {A} (l : list A) (i : nat) : option A := nth_error l i.

(** [str(n)] *)
Definition str (n : Z) : string := pretty n.

End Py.

(** ** hashlib: MD5 (RFC 1321) and SHA-256 (FIPS 180-4) on byte strings *)

Module Hashlib.

Definition bytes_of (s : string) : list Z :=
  map (fun c => Z.of_nat (nat_of_ascii c)) (list_ascii_of_string s).

Definition add32 (x y : Z) : Z := (x + y) mod 4294967296.
Definition not32 (x : Z) : Z := Z.lxor x 4294967295.
Definition rotl32 (n x : Z) : Z :=
  Z.lor (Z.shiftl x n mod 4294967296) (Z.shiftr x (32 - n)).
Definition rotr32 (n x : Z) : Z := rotl32 (32 - n) x.

(** [n] bytes of [x], least significant first. *)
Fixpoint le_bytes (n : nat) (x : Z) : list Z :=
  match n with
  | O => []
  | S k => x mod 256 :: le_bytes k (x / 256)
  end.

Definition be_bytes (n : nat) (x : Z) : list Z := rev (le_bytes n x).

Definition le_word (bs : list Z) : Z := fold_right (fun b acc => b + 256 * acc) 0 bs.
Definition be_word (bs : list Z) : Z := fold_left (fun acc b => 256 * acc + b) bs 0.

(** The first [k] groups of [n] elements of [l]. *)
Fixpoint groups {A} (n k : nat) (l : list A) : list (list A) :=
  match k with
  | O => []
  | S k' => firstn n l :: groups n k' (skipn n l)
  end.

Definition blocks64 (l : list Z) : list (list Z) :=
  groups 64 (Nat.div (length l) 64) l.

Definition words_of (word : list Z -> Z) (block : list Z) : list Z :=
  map word (groups 4 16 block).

Definition zero_pad (len : nat) : list Z :=
  repeat 0 (Z.to_nat ((55 - Z.of_nat len) mod 64)).

Definition hex_digit (n : Z) : ascii :=
  ascii_of_nat (Z.to_nat (if n <? 10 then 48 + n else 87 + n)).

Definition hex_of_bytes (bs : list Z) : string :=
  string_of_list_ascii
    (flat_map (fun b => [hex_digit (b / 16); hex_digit (b mod 16)]) bs).

(** *** MD5 *)

Definition md5_K : list Z :=
  [3614090360; 3905402710; 606105819; 3250441966; 4118548399; 1200080426;
   2821735955; 4249261313; 1770035416; 2336552879; 4294925233; 2304563134;
   1804603682; 4254626195; 2792965006; 1236535329; 4129170786; 3225465664;
   643717713; 3921069994; 3593408605; 38016083; 3634488961; 3889429448;
   568446438; 3275163606; 4107603335; 1163531501; 2850285829; 4243563512;
   1735328473; 2368359562; 4294588738; 2272392833; 1839030562; 4259657740;
   2763975236; 1272893353; 4139469664; 3200236656; 681279174; 3936430074;
   3572445317; 76029189; 3654602809; 3873151461; 530742520; 3299628645;
   4096336452; 1126891415; 2878612391; 4237533241; 1700485571; 2399980690;
   4293915773; 2240044497; 1873313359; 4264355552; 2734768916; 1309151649;
   4149444226; 3174756917; 718787259; 3951481745].

Definition md5_S : list Z :=
  [7; 12; 17; 22; 7; 12; 17; 22; 7; 12; 17; 22; 7; 12; 17; 22;
   5; 9; 14; 20; 5; 9; 14; 20; 5; 9; 14; 20; 5; 9; 14; 20;
   4; 11; 16; 23; 4; 11; 16; 23; 4; 11; 16; 23; 4; 11; 16; 23;
   6; 10; 15; 21; 6; 10; 15; 21; 6; 10; 15; 21; 6; 10; 15; 21].

Definition md5_pad (msg : list Z) : list Z :=
  msg ++ [128] ++ zero_pad (length msg)
      ++ le_bytes 8 (8 * Z.of_nat (length msg)).

Definition md5_step (M : list Z) (st : Z * Z * Z * Z) (i : nat)
  : Z * Z * Z * Z :=
  let '(a, b, c, d) := st in
  let '(f, g) :=
    if Nat.ltb i 16 then (Z.lor (Z.land b c) (Z.land (not32 b) d), i)
    else if Nat.ltb i 32
         then (Z.lor (Z.land d b) (Z.land (not32 d) c), Nat.modulo (5 * i + 1) 16)
    else if Nat.ltb i 48
         then (Z.lxor b (Z.lxor c d), Nat.modulo (3 * i + 5) 16)
    else (Z.lxor c (Z.lor b (not32 d)), Nat.modulo (7 * i) 16) in
  let f' := add32 (add32 (add32 f a) (nth i md5_K 0)) (nth g M 0) in
  (d, add32 b (rotl32 (nth i md5_S 0) f'), b, c).

Definition md5_block (st : Z * Z * Z * Z) (block : list Z) : Z * Z * Z * Z :=
  let '(a0, b0, c0, d0) := st in
  let '(a, b, c, d) :=
    fold_left (md5_step (words_of le_word block)) (seq 0 64) st in
  (add32 a0 a, add32 b0 b, add32 c0 c, add32 d0 d).

Definition md5_digest (msg : list Z) : list Z :=
  let '(a, b, c, d) :=
    fold_left md5_block (blocks64 (md5_pad msg))
      (1732584193, 4023233417, 2562383102, 271733878) in
  le_bytes 4 a ++ le_bytes 4 b ++ le_bytes 4 c ++ le_bytes 4 d.

(** [hashlib.md5(s.encode()).hexdigest()] *)
Definition md5_hexdigest (s : string) : string :=
  hex_of_bytes (md5_digest (bytes_of s)).

(** *** SHA-256 *)

Definition sha256_K : list Z :=
  [1116352408; 1899447441; 3049323471; 3921009573; 961987163; 1508970993;
   2453635748; 2870763221; 3624381080; 310598401; 607225278; 1426881987;
   1925078388; 2162078206; 2614888103; 3248222580; 3835390401; 4022224774;
   264347078; 604807628; 770255983; 1249150122; 1555081692; 1996064986;
   2554220882; 2821834349; 2952996808; 3210313671; 3336571891; 3584528711;
   113926993; 338241895; 666307205; 773529912; 1294757372; 1396182291;
   1695183700; 1986661051; 2177026350; 2456956037; 2730485921; 2820302411;
   3259730800; 3345764771; 3516065817; 3600352804; 4094571909; 275423344;
   430227734; 506948616; 659060556; 883997877; 958139571; 1322822218;
   1537002063; 1747873779; 1955562222; 2024104815; 2227730452; 2361852424;
   2428436474; 2756734187; 3204031479; 3329325298].

Definition sha256_H0 : list Z :=
  [1779033703; 3144134277; 1013904242; 2773480762; 1359893119; 2600822924;
   528734635; 1541459225].

Definition sha256_pad (msg : list Z) : list Z :=
  msg ++ [128] ++ zero_pad (length msg)
      ++ be_bytes 8 (8 * Z.of_nat (length msg)).

Definition xor3 (x y z : Z) : Z := Z.lxor x (Z.lxor y z).

(** The message schedule: sixteen words of the block, then forty-eight
    derived ones. *)
Definition sha256_extend (W : list Z) (t : nat) : list Z :=
  let w := fun k => nth (t - k) W 0 in
  let s0 := xor3 (rotr32 7 (w 15%nat)) (rotr32 18 (w 15%nat)) (Z.shiftr (w 15%nat) 3) in
  let s1 := xor3 (rotr32 17 (w 2%nat)) (rotr32 19 (w 2%nat)) (Z.shiftr (w 2%nat) 10) in
  W ++ [add32 (add32 (add32 (w 16%nat) s0) (w 7%nat)) s1].

Definition sha256_schedule (block : list Z) : list Z :=
  fold_left sha256_extend (seq 16 48) (words_of be_word block).

Definition sha256_round (W : list Z) (st : list Z) (t : nat) : list Z :=
  match st with
  | [a; b; c; d; e; f; g; h] =>
      let S1 := xor3 (rotr32 6 e) (rotr32 11 e) (rotr32 25 e) in
      let ch := Z.lxor (Z.land e f) (Z.land (not32 e) g) in
      let t1 := add32 (add32 (add32 (add32 h S1) ch) (nth t sha256_K 0)) (nth t W 0) in
      let S0 := xor3 (rotr32 2 a) (rotr32 13 a) (rotr32 22 a) in
      let maj := xor3 (Z.land a b) (Z.land a c) (Z.land b c) in
      [add32 t1 (add32 S0 maj); a; b; c; add32 d t1; e; f; g]
  | _ => st
  end.

Definition sha256_block (st : list Z) (block : list Z) : list Z :=
  let st' := fold_left (sha256_round (sha256_schedule block)) (seq 0 64) st in
  map (fun p => add32 (fst p) (snd p)) (combine st st').

Definition sha256_digest (msg : list Z) : list Z :=
  flat_map (be_bytes 4) (fold_left sha256_block (blocks64 (sha256_pad msg)) sha256_H0).

(** [hashlib.sha256(content).hexdigest()] *)
Definition sha256_hexdigest (content : string) : string :=
  hex_of_bytes (sha256_digest (bytes_of content)).

End Hashlib.

(** ** urllib.parse: a port of [urlsplit], [urlparse], [urlunparse] and
    [urljoin] of CPython 3, without the host validation that makes them
    raise [ValueError] on a malformed bracketed host.  The engine below is
    parametric in these two functions; the port instantiates it. *)

Module Urllib.

Definition uses_relative : list string :=
  [""; "ftp"; "http"; "gopher"; "nntp"; "imap"; "wais"; "file"; "https";
   "shttp"; "mms"; "prospero"; "rtsp"; "rtspu"; "sftp"; "svn"; "svn+ssh";
   "ws"; "wss"].

Definition uses_netloc : list string :=
  [""; "ftp"; "http"; "gopher"; "nntp"; "telnet"; "imap"; "wais"; "file";
   "mms"; "https"; "shttp"; "snews"; "prospero"; "rtsp"; "rtspu"; "rsync";
   "svn"; "svn+ssh"; "sftp"; "nfs"; "git"; "git+ssh"; "ws"; "wss"].

Definition uses_params : list string :=
  [""; "ftp"; "hdl"; "prospero"; "http"; "imap"; "https"; "shttp"; "rtsp";
   "rtspu"; "sip"; "sips"; "mms"; "sftp"; "tel"].

Definition is_alpha (c : ascii) : bool :=
  let n := nat_of_ascii (Py.lower_ascii c) in
  (Nat.leb 97 n && Nat.leb n 122)%bool.

Definition scheme_char (c : ascii) : bool :=
  (is_alpha c || (Nat.leb 48 (nat_of_ascii c) && Nat.leb (nat_of_ascii c) 57)
   || Ascii.eqb c "+" || Ascii.eqb c "-" || Ascii.eqb c ".")%bool.

Record SplitResult := {
  scheme : string; netloc : string; path : string;
  params : string; query : string; fragment : string
}.

(** The netloc ends at the first of slash, question mark and hash. *)
Fixpoint splitnetloc (s : string) : string * string :=
  match s with
  | EmptyString => ("", "")
  | String c r =>
      if (Ascii.eqb c "/" || Ascii.eqb c "?" || Ascii.eqb c "#")%bool
      then ("", s)
      else let '(a, b) := splitnetloc r in (String c a, b)
  end.

Definition tail (s : string) : string :=
  match s with
  | String _ r => r
  | EmptyString => ""
  end.

(** [_splitparams]: the parameters follow the first semicolon of the last
    path segment. *)
Definition splitparams (url : string) : string * string :=
  match Py.after_last "/" url with
  | Some last =>
      let '(seg, rest) := Py.break_at ";" last in
      let dir := String.substring 0 (String.length url - String.length last) url in
      (dir +:+ seg, tail rest)
  | None => let '(seg, rest) := Py.break_at ";" url in (seg, tail rest)
  end.

(** [urlparse(url, scheme=default)] *)
Definition urlparse (url default : string) : SplitResult :=
  let '(front, back) := Py.break_at ":" url in
  let '(sch, url1) :=
    match front, back with
    | String c _, String _ rest =>
        if (is_alpha c && forallb scheme_char (list_ascii_of_string front))%bool
        then (Py.lower front, rest) else (default, url)
    | _, _ => (default, url)
    end in
  let '(nl, url2) :=
    if String.prefix "//" url1 then splitnetloc (tail (tail url1))
    else ("", url1) in
  let '(url3, frag) := Py.break_at "#" url2 in
  let '(url4, qry) := Py.break_at "?" url3 in
  let '(pth, prm) :=
    if (Py.mem sch uses_params && Py.contains_char ";" url4)%bool
    then splitparams url4 else (url4, "") in
  {| scheme := sch; netloc := nl; path := pth; params := prm;
     query := tail qry; fragment := tail frag |}.

(** [urlparse(url).path] *)
Definition urlparse_path (url : string) : string := path (urlparse url "").

Definition nonempty (s : string) : bool := negb (String.eqb s "").

(** [urlunparse] *)
Definition urlunparse (r : SplitResult) : string :=
  let url := if nonempty (params r) then path r +:+ ";" +:+ params r else path r in
  let url :=
    if (nonempty (netloc r)
        || (nonempty (scheme r) && Py.mem (scheme r) uses_netloc
            && negb (String.prefix "//" url)))%bool
    then "//" +:+ netloc r
         +:+ (if (nonempty url && negb (String.prefix "/" url))%bool
              then "/" +:+ url else url)
    else url in
  let url := if nonempty (scheme r) then scheme r +:+ ":" +:+ url else url in
  let url := if nonempty (query r) then url +:+ "?" +:+ query r else url in
  if nonempty (fragment r) then url +:+ "#" +:+ fragment r else url.

(** The dot segments of a path resolved, last to first in [acc]. *)
Fixpoint resolve (acc : list string) (segments : list string) : list string :=
  match segments with
  | [] => rev acc
  | seg :: r =>
      if String.eqb seg ".." then resolve (List.tail acc) r
      else if String.eqb seg "." then resolve acc r
      else resolve (seg :: acc) r
  end.

(** [segments[1:-1] = filter(None, segments[1:-1])] *)
Definition drop_inner_empty (segments : list string) : list string :=
  match segments with
  | first :: rest =>
      match rev rest with
      | final :: inner =>
          first :: filter (fun x => nonempty x) (rev inner) ++ [final]
      | [] => segments
      end
  | [] => []
  end.

(** [urljoin(base, url)] *)
Definition urljoin (base url : string) : string :=
  if negb (nonempty base) then url
  else if negb (nonempty url) then base
  else
    let b := urlparse base "" in
    let u := urlparse url (scheme b) in
    if (negb (String.eqb (scheme u) (scheme b))
        || negb (Py.mem (scheme u) uses_relative))%bool then url
    else if (Py.mem (scheme u) uses_netloc && nonempty (netloc u))%bool
    then urlunparse u
    else
      let nl := if Py.mem (scheme u) uses_netloc then netloc b else netloc u in
      if (negb (nonempty (path u)) && negb (nonempty (params u)))%bool
      then urlunparse {| scheme := scheme u; netloc := nl; path := path b;
                         params := params b;
                         query := if nonempty (query u) then query u else query b;
                         fragment := fragment u |}
      else
        let base_parts := Py.split_on "/" "" (path b) in
        let base_parts :=
          if nonempty (List.last base_parts "") then removelast base_parts
          else base_parts in
        let segments :=
          if String.prefix "/" (path u) then Py.split_on "/" "" (path u)
          else drop_inner_empty (base_parts ++ Py.split_on "/" "" (path u)) in
        let resolved := resolve [] segments in
        let resolved :=
          if (String.eqb (List.last segments "") "."
              || String.eqb (List.last segments "") "..")%bool
          then resolved ++ [""] else resolved in
        let joined := Py.join "/" resolved in
        urlunparse {| scheme := scheme u; netloc := nl;
                      path := if nonempty joined then joined else "/";
                      params := params u; query := query u;
                      fragment := fragment u |}.

End Urllib.

(** ** Exceptions and the effect monad *)

(** The exceptions the engine itself can meet, and [OtherError] for those
    the outside raises.  All are instances of [Exception], which is what the
    handlers of the code catch; what is not, as the cancellation of the task
    or an interrupt, is not among them. *)
Inductive Exn :=
| ValueError (literal : string)
| IndexError
| HTTPError (status : Z)
| JobLookupError (job_id : string)
| OtherError (what : string).

Inductive Res (A : Type) :=
| Ok (a : A)
| Raise (e : Exn).
Arguments Ok {A} a.
Arguments Raise {A} e.

(** [None] of a partial primitive becomes the exception it stands for. *)
Definition or_raise {A} (e : Exn) (o : option A) : Res A :=
  match o with
  | Some a => Ok a
  | None => Raise e
  end.

(** An oracle's answer for a call that returns nothing. *)
Definition outcome (err : option Exn) : Res unit :=
  match err with
  | None => Ok tt
  | Some e => Raise e
  end.

(** ** Data model *)

(** One entry of [user_data[user]['tracked_urls']].  Only ['files'] is read
    with a default ([tracked.get('files', [])]), so only it may be absent. *)
Record Tracked := {
  tracked_hash : string;
  tracked_interval : Z;
  tracked_night_mode : bool;
  tracked_files : option (list string)
}.

(** [user_data]: user string to that user's ['tracked_urls'] dictionary. *)
Abbreviation UserData := (gmap string (gmap string Tracked)).

#[local] Set Warnings "-register-all".

Inductive Trigger :=
| IntervalTrigger (minutes : Z)
| CronTrigger (hour : string)
| AndTrigger (triggers : list Trigger).

(** A job of the scheduler: its trigger and the arguments [url] and
    [user_id] its callback [check_single_website] is called with. *)
Record Job := {
  job_trigger : Trigger;
  job_url : string;
  job_user_id : Z
}.

(** An element of the parsed page, with its name as the parser gives it (in
    lower case) and the four attributes read. *)
Record Tag := {
  tag_name : string;
  tag_href : option string;
  tag_src : option string;
  tag_alt : option string;
  tag_title : option string
}.

(** The page as the parser hands it over: its elements in document order. *)
Abbreviation Html := (list Tag).

(** An extracted file, [{'name': .., 'url': .., 'type': ..}]. *)
Record File := {
  file_name : string;
  file_url : string;
  file_type : string
}.

(** The answer of [requests.get]. *)
Record Response := {
  status_code : Z;
  content : string;
  text : Html
}.

(** The answer of [session.get] in [download_file]: status, the two headers
    read, and what [response.read()] yields (here only its length). *)
Record FileResponse := {
  file_status : Z;
  header_content_length : option string;
  header_content_type : option string;
  file_body : Res Z
}.

Record Message := {
  chat_id : Z;
  message_text : string
}.

Inductive Event :=
| HttpGet (url : string)
| SaveJson (data : UserData)
| SessionGet (url : string)
| WriteFile (filename : string)
| RemoveFile (filename : string)
| SendDocument (chat : Z) (filename caption : string)
| SendMessage (chat : Z) (text : string)
| ReplyText (text : string)
| ReplyError (e : Exn)
| LogError (e : Exn).

(** What the outside answers during one call of the engine. *)
Record Env := {
  requests_get : string -> Res Response;
  save_json_error : option Exn;
  session_get : string -> Res FileResponse;
  (** opening [filename] and writing [n] bytes: the size [os.path.getsize]
      then reports, the file still open *)
  write_file : string -> Z -> Res Z;
  os_remove_error : string -> option Exn;
  send_document_error : Z -> string -> string -> option Exn;
  send_message_error : Z -> string -> option Exn;
  reply_text_error : Event -> option Exn;
  interval_trigger_error : Z -> option Exn;
  add_job_error : string -> option Exn;
  remove_job_error : string -> option Exn
}.

(** The process state: the global [user_data], the scheduler's job table,
    and the calls made so far, oldest first. *)
Record World := {
  user_data : UserData;
  jobs : gmap string Job;
  trace : list Event
}.

Definition set_user_data (d : UserData) (w : World) : World :=
  {| user_data := d; jobs := jobs w; trace := trace w |}.
Definition set_jobs (j : gmap string Job) (w : World) : World :=
  {| user_data := user_data w; jobs := j; trace := trace w |}.
Definition add_events (evs : list Event) (w : World) : World :=
  {| user_data := user_data w; jobs := jobs w; trace := trace w ++ evs |}.

Definition M (A : Type) : Type := World -> Res A * World.

Definition ret {A} (a : A) : M A := fun w => (Ok a, w).
Definition raise {A} (e : Exn) : M A := fun w => (Raise e, w).
Definition bind {A B} (m : M A) (k : A -> M B) : M B :=
  fun w => match m w with
           | (Ok a, w') => k a w'
           | (Raise e, w') => (Raise e, w')
           end.
Definition try_except {A} (m : M A) (handler : Exn -> M A) : M A :=
  fun w => match m w with
           | (Ok a, w') => (Ok a, w')
           | (Raise e, w') => handler e w'
           end.
Definition lift {A} (r : Res A) : M A := fun w => (r, w).
Definition emit (e : Event) : M unit := fun w => (Ok tt, add_events [e] w).
Definition get_user_data : M UserData := fun w => (Ok (user_data w), w).
Definition put_user_data (d : UserData) : M unit :=
  fun w => (Ok tt, set_user_data d w).
Definition get_jobs : M (gmap string Job) := fun w => (Ok (jobs w), w).
Definition put_jobs (j : gmap string Job) : M unit := fun w => (Ok tt, set_jobs j w).

Notation "x <- m ;; k" := (bind m (fun x => k))
  (at level 100, m at next level, right associativity).
Notation "m ;;; k" := (bind m (fun _ => k))
  (at level 100, right associativity).

(** A call to the outside: recorded, then answered by the oracle. *)
Definition call {A} (e : Event) (answer : Res A) : M A := emit e ;;; lift answer.

(** ** Configuration *)

Definition MAX_FILE_SIZE : Z := 45 * 1024 * 1024.

Definition DOCUMENT_EXTS : list string :=
  [".pdf"; ".doc"; ".docx"; ".xls"; ".xlsx"; ".ppt"; ".pptx"; ".txt"].
Definition IMAGE_EXTS : list string :=
  [".jpg"; ".jpeg"; ".png"; ".gif"; ".webp"; ".bmp"].
Definition AUDIO_EXTS : list string := [".mp3"; ".wav"; ".ogg"].
Definition VIDEO_EXTS : list string := [".mp4"; ".mov"; ".avi"; ".mkv"].
Definition ALLOWED_EXTS : list string :=
  DOCUMENT_EXTS ++ IMAGE_EXTS ++ AUDIO_EXTS ++ VIDEO_EXTS.

(** The two functions of [urllib.parse] the engine calls; either may raise
    [ValueError]. *)
Class UrlLib := {
  urljoin : string -> string -> Res string;
  urlparse_path : string -> Res string
}.

(** The port above as an instance. *)
Definition cpython : UrlLib := {|
  urljoin := fun base url => Ok (Urllib.urljoin base url);
  urlparse_path := fun url => Ok (Urllib.urlparse_path url)
|}.

(** ** The engine *)

Section Engine.

Context {lib : UrlLib}.

(** *** HTML parsing *)

(** [soup.find_all(names)] *)
Definition find_all (names : list string) (html : Html) : list Tag :=
  filter (fun tag => Py.mem (tag_name tag) names) html.

(** [x or default] where [default] is a string. *)
Definition or_str (x : option string) (default : string) : string :=
  match x with
  | Some (String c r) => String c r
  | _ => default
  end.

(** [any(url.lower().endswith(ext) for ext in ALLOWED_EXTS)] *)
Definition allowed (url : string) : bool :=
  existsb (fun ext => Py.endswith (Py.lower url) ext) ALLOWED_EXTS.

(** The ['type'] of a file, from [os.path.splitext(url)[1].lower()]. *)
Definition type_of_url (url : string) : string :=
  let ext := Py.lower (Py.splitext_ext url) in
  if Py.mem ext IMAGE_EXTS then "image"
  else if Py.mem ext AUDIO_EXTS then "audio"
  else if Py.mem ext VIDEO_EXTS then "video"
  else "document".

(** The dictionary appended for a kept tag. *)
Definition file_of (tag : Tag) (url : string) : File :=
  {| file_name := or_str (Py.or_else (tag_alt tag) (tag_title tag)) (Py.basename url);
     file_url := url;
     file_type := type_of_url url |}.

(** The loop of [extract_files] over the tags found. *)
Fixpoint extract_tags (tags : list Tag) (base_url : string) : Res (list File) :=
  match tags with
  | [] => Ok []
  | tag :: rest =>
      let ref := Py.or_else (tag_href tag) (tag_src tag) in
      if negb (Py.truthy ref) then extract_tags rest base_url
      else
        match urljoin base_url (default "" ref) with
        | Raise e => Raise e
        | Ok url =>
            if negb (allowed url) then extract_tags rest base_url
            else match extract_tags rest base_url with
                 | Ok files => Ok (file_of tag url :: files)
                 | Raise e => Raise e
                 end
        end
  end.

Definition extract_files (html : Html) (base_url : string) : Res (list File) :=
  extract_tags (find_all ["a"; "img"; "audio"; "video"; "source"] html) base_url.

(** *** File handling *)

(** The extension taken when the path of the URL has none. *)
Definition default_ext (content_type : string) : string :=
  if Py.contains "image" content_type then ".jpg"
  else if Py.contains "audio" content_type then ".mp3"
  else if Py.contains "video" content_type then ".mp4"
  else ".bin".

(** [int(response.headers.get('Content-Length', 0))] *)
Definition content_length_of (response : FileResponse) : Res Z :=
  match header_content_length response with
  | Some v => or_raise (ValueError v) (Py.int v)
  | None => Ok 0
  end.

(** The name the file is written under, from the path of the URL, the
    content type and the name asked for. *)
Definition filename_of (path : string) (response : FileResponse)
    (custom_name : option string) : string :=
  let ext := Py.lower (Py.splitext_ext path) in
  let content_type := default "" (header_content_type response) in
  let ext := if String.eqb ext "" then default_ext content_type else ext in
  Py.sanitize (or_str custom_name (Py.basename path) +:+ ext).

(** The body of the [try] of [download_file]. *)
Definition download_body (env : Env) (url : string) (custom_name : option string)
  : M (option string) :=
  response <- call (SessionGet url) (session_get env url) ;;
  if negb (file_status response =? 200) then ret None
  else
    content_length <- lift (content_length_of response) ;;
    if content_length >? MAX_FILE_SIZE then ret None
    else
      path <- lift (urlparse_path url) ;;
      let filename := filename_of path response custom_name in
      emit (WriteFile filename) ;;;
      body <- lift (file_body response) ;;
      size <- lift (write_file env filename body) ;;
      if size >? MAX_FILE_SIZE
      then call (RemoveFile filename) (outcome (os_remove_error env filename)) ;;;
           ret None
      else ret (Some filename).

Definition download_file (env : Env) (url : string) (custom_name : option string)
  : M (option string) :=
  try_except (download_body env url custom_name)
    (fun e => emit (LogError e) ;;; ret None).

(** *** Website monitoring *)

(** [save_json(user_data, USER_DATA_FILE)] *)
Definition save_json (env : Env) : M unit :=
  data <- get_user_data ;;
  call (SaveJson data) (outcome (save_json_error env)).

(** [f"{file['name']} ({file['type']})"] *)
Definition caption_of (file : File) : string :=
  file_name file +:+ " (" +:+ file_type file +:+ ")".

(** One round of the loop over [new_files]; [summary] holds the captions
    sent so far, oldest first. *)
Definition send_file (env : Env) (user_id : Z) (previous_files : list string)
    (summary : list string) (file : File) : M (list string) :=
  if negb (Py.mem (file_url file) previous_files)
  then
    filename <- download_file env (file_url file) (Some (file_name file)) ;;
    if Py.truthy filename
    then
      let filename := default "" filename in
      call (SendDocument user_id filename (caption_of file))
           (outcome (send_document_error env user_id filename (caption_of file))) ;;;
      call (RemoveFile filename) (outcome (os_remove_error env filename)) ;;;
      ret (summary ++ [caption_of file])
    else ret summary
  else ret summary.

Fixpoint send_files (env : Env) (user_id : Z) (previous_files : list string)
    (summary : list string) (new_files : list File) : M (list string) :=
  match new_files with
  | [] => ret summary
  | file :: rest =>
      summary' <- send_file env user_id previous_files summary file ;;
      send_files env user_id previous_files summary' rest
  end.

(** [response.raise_for_status()]: an [HTTPError] on a 4xx or 5xx status. *)
Definition raise_for_status (response : Response) : Res unit :=
  if (400 <=? status_code response) && (status_code response <? 600)
  then Raise (HTTPError (status_code response))
  else Ok tt.

(** [user_data[user_str]['tracked_urls'][url]], when both keys are there. *)
Definition lookup_tracked (data : UserData) (user_str url : string) : option Tracked :=
  data !! user_str ≫= fun tracked_urls => tracked_urls !! url.

(** [user_data.setdefault(user_str, {}).setdefault('tracked_urls', {})[url] = t];
    on an entry that is there, the assignment to its keys in place. *)
Definition store_tracked (data : UserData) (user_str url : string) (t : Tracked)
  : UserData :=
  <[user_str := <[url := t]> (default ∅ (data !! user_str))]> data.

(** The body of the [try] of [check_single_website]. *)
Definition check_body (env : Env) (url : string) (user_id : Z) : M unit :=
  response <- call (HttpGet url) (requests_get env url) ;;
  lift (raise_for_status response) ;;;
  let current_hash := Hashlib.sha256_hexdigest (content response) in
  let user_str := Py.str user_id in
  data <- get_user_data ;;
  match lookup_tracked data user_str url with
  | None => ret tt
  | Some tracked =>
      if String.eqb current_hash (tracked_hash tracked) then ret tt
      else
        new_files <- lift (extract_files (text response) url) ;;
        let previous_files := default [] (tracked_files tracked) in
        put_user_data
          (store_tracked data user_str url
             {| tracked_hash := current_hash;
                tracked_interval := tracked_interval tracked;
                tracked_night_mode := tracked_night_mode tracked;
                tracked_files := Some (map file_url new_files) |}) ;;;
        save_json env ;;;
        summary <- send_files env user_id previous_files [] new_files ;;
        match summary with
        | [] => ret tt
        | _ =>
            let summary_text := "New files:" +:+ String "010" (Py.join (String "010" "") summary) in
            let message := "Website updated: " +:+ url +:+ String "010" summary_text in
            call (SendMessage user_id message)
                 (outcome (send_message_error env user_id message))
        end
  end.

Definition check_single_website (env : Env) (url : string) (user_id : Z) : M unit :=
  try_except (check_body env url user_id) (fun e => emit (LogError e)).

(** *** Bot commands *)

(** [message.reply_text(text)] *)
Definition reply_text (env : Env) (text : string) : M unit :=
  call (ReplyText text) (outcome (reply_text_error env (ReplyText text))).

(** [message.reply_text(f"Error: {e}")] *)
Definition reply_error (env : Env) (e : Exn) : M unit :=
  call (ReplyError e) (outcome (reply_text_error env (ReplyError e))).

(** The identifier [track] and [untrack] give the job of a target. *)
Definition job_id_of (chat : Z) (url : string) : string :=
  Py.str chat +:+ "_" +:+ Py.take 6 (Hashlib.md5_hexdigest url).

(** [scheduler.add_job(.., id=job_id, replace_existing=True)] *)
Definition add_job (env : Env) (job_id : string) (job : Job) : M unit :=
  lift (outcome (add_job_error env job_id)) ;;;
  table <- get_jobs ;;
  put_jobs (<[job_id := job]> table).

(** [scheduler.remove_job(job_id)] *)
Definition remove_job (env : Env) (job_id : string) : M unit :=
  lift (outcome (remove_job_error env job_id)) ;;;
  table <- get_jobs ;;
  match table !! job_id with
  | None => raise (JobLookupError job_id)
  | Some _ => put_jobs (delete job_id table)
  end.

(** The body of the [try] of [track]. *)
Definition track_body (env : Env) (message : Message) : M unit :=
  let args := Py.split (message_text message) in
  url <- lift (or_raise IndexError (Py.index args 1)) ;;
  interval <-
    lift (match Py.index args 2 with
          | Some a => or_raise (ValueError a) (Py.int a)
          | None => Raise IndexError
          end) ;;
  let night_mode := Py.mem "night" (skipn 3 args) in
  lift (outcome (interval_trigger_error env interval)) ;;;
  let trigger := IntervalTrigger interval in
  let trigger :=
    if night_mode then AndTrigger [trigger; CronTrigger "6-22"] else trigger in
  let job_id := job_id_of (chat_id message) url in
  add_job env job_id
    {| job_trigger := trigger; job_url := url; job_user_id := chat_id message |} ;;;
  data <- get_user_data ;;
  put_user_data
    (store_tracked data (Py.str (chat_id message)) url
       {| tracked_hash := ""; tracked_interval := interval;
          tracked_night_mode := night_mode; tracked_files := Some [] |}) ;;;
  save_json env ;;;
  reply_text env
    ("Now tracking " +:+ url +:+ " every " +:+ Py.str interval +:+ " minutes").

Definition track (env : Env) (message : Message) : M unit :=
  try_except (track_body env message) (reply_error env).

(** The body of the [try] of [untrack]. *)
Definition untrack_body (env : Env) (message : Message) : M unit :=
  let args := Py.split (message_text message) in
  match Py.index args 1 with
  | None => reply_text env "Usage: /untrack <url>"
  | Some url =>
      let user_str := Py.str (chat_id message) in
      data <- get_user_data ;;
      match lookup_tracked data user_str url with
      | None => reply_text env ("Not tracking " +:+ url)
      | Some _ =>
          remove_job env (job_id_of (chat_id message) url) ;;;
          put_user_data
            (<[user_str := delete url (default ∅ (data !! user_str))]> data) ;;;
          save_json env ;;;
          reply_text env ("Stopped tracking " +:+ url)
      end
  end.

Definition untrack (env : Env) (message : Message) : M unit :=
  try_except (untrack_body env message) (reply_error env).

End Engine.

(** ** The one-shot command *)

Section OneShot.

Context {lib : UrlLib}.

(** [f"{file['name']} ({file['type']}): {file['url']}"] *)
Definition listing_line (file : File) : string :=
  file_name file +:+ " (" +:+ file_type file +:+ "): " +:+ file_url file.

(** The body of the [try] of [documents]. *)
Definition documents_body (env : Env) (message : Message) : M unit :=
  let args := Py.split (message_text message) in
  match Py.index args 1 with
  | None => reply_text env "Usage: /documents <url>"
  | Some url =>
      response <- call (HttpGet url) (requests_get env url) ;;
      lift (raise_for_status response) ;;;
      files <- lift (extract_files (text response) url) ;;
      match files with
      | [] => reply_text env "No files found on this website."
      | _ =>
          reply_text env
            ("Files found:" +:+ String "010"
               (Py.join (String "010" "") (map listing_line files)))
      end
  end.

Definition documents (env : Env) (message : Message) : M unit :=
  try_except (documents_body env message) (reply_error env).

End OneShot.

(** ** Authorization and the owner's commands

    The three lists of the access policy are what [load_json] read: any JSON
    value, a list when the code wrote the file itself. *)

Module Admin.

Inductive Json :=
| JNull
| JBool (b : bool)
| JInt (n : Z)
| JFloat (literal : string)
| JStr (s : string)
| JArr (items : list Json)
| JObj (members : list (string * Json)).

(** What goes wrong inside the handlers: [message.from_user] is [None], the
    value has no [append] or [remove], the value does not support [in], and
    whatever the outside raises. *)
Inductive Error :=
| NoSender
| NoSuchMethod
| NotIterable
| Outside (e : Exn).

Inductive Result (A : Type) :=
| Done (a : A)
| Failed (e : Error).
Arguments Done {A} a.
Arguments Failed {A} e.

Definition CHANNELS_FILE : string := "authorized_channels.json".
Definition SUDO_USERS_FILE : string := "sudo_users.json".
Definition SUPERGROUPS_FILE : string := "authorized_supergroups.json".
Definition OWNER_ID : Z := 6556141430.

(** What a file holds when the process starts. *)
Inductive FileState :=
| Missing
| Corrupt
| Holds (v : Json).

(** [load_json(file)]: [FileNotFoundError] and [JSONDecodeError] give the
    default, a list for the channel and supergroup files and a dictionary
    otherwise. *)
Definition load_json (fs : string -> FileState) (file : string) : Json :=
  match fs file with
  | Holds v => v
  | _ => if (Py.contains "channel" file || Py.contains "supergroup" file)%bool
         then JArr [] else JObj []
  end.

(** [x == v] for a string [x] *)
Definition is_str (x : string) (v : Json) : bool :=
  match v with
  | JStr s => String.eqb x s
  | _ => false
  end.

(** [x in v] for a string [x] *)
Definition contains (v : Json) (x : string) : Result bool :=
  match v with
  | JArr items => Done (existsb (is_str x) items)
  | JObj members => Done (existsb (fun m => String.eqb x (fst m)) members)
  | JStr s => Done (Py.contains x s)
  | _ => Failed NotIterable
  end.

(** [v.append(x)] *)
Definition append (v : Json) (x : string) : Result Json :=
  match v with
  | JArr items => Done (JArr (items ++ [JStr x]))
  | _ => Failed NoSuchMethod
  end.

(** The list without its first item equal to [x]. *)
Fixpoint remove_first (x : string) (items : list Json) : list Json :=
  match items with
  | [] => []
  | v :: rest => if is_str x v then rest else v :: remove_first x rest
  end.

(** [v.remove(x)], called when [x in v] holds *)
Definition remove (v : Json) (x : string) : Result Json :=
  match v with
  | JArr items => Done (JArr (remove_first x items))
  | _ => Failed NoSuchMethod
  end.

Inductive ChatType := PRIVATE | BOT | GROUP | SUPERGROUP | CHANNEL.

(** A message as the filter and the handlers read it; a post in a channel
    has no [from_user]. *)
Record Update := {
  chat_type : ChatType;
  chat : Z;
  from_user : option Z;
  text_of : string
}.

Inductive Call :=
| Reply (text : string)
| ReplyError (e : Error)
| Save (file : string) (value : Json).

(** Whether the outside fails a save or a reply. *)
Record Outside_world := {
  save_error : string -> option Exn;
  reply_error : Call -> option Exn
}.

(** The three global lists and the calls made so far, oldest first. *)
Record State := {
  authorized_channels : Json;
  sudo_users : Json;
  authorized_supergroups : Json;
  calls : list Call
}.

(** The globals when the module is loaded. *)
Definition boot (fs : string -> FileState) : State :=
  {| authorized_channels := load_json fs CHANNELS_FILE;
     sudo_users := load_json fs SUDO_USERS_FILE;
     authorized_supergroups := load_json fs SUPERGROUPS_FILE;
     calls := [] |}.

(** [is_authorized(_, __, message)] *)
Definition is_authorized (s : State) (u : Update) : Result bool :=
  match chat_type u with
  | PRIVATE =>
      match from_user u with
      | None => Failed NoSender
      | Some id =>
          match contains (sudo_users s) (Py.str id) with
          | Done true => Done true
          | Done false => Done (id =? OWNER_ID)
          | Failed e => Failed e
          end
      end
  | CHANNEL => contains (authorized_channels s) (Py.str (chat u))
  | SUPERGROUP => contains (authorized_supergroups s) (Py.str (chat u))
  | _ => Done false
  end.

(** The six commands differ in the list they change and in their texts. *)
Inductive Kind := Channels | Supergroups | Sudo.

Definition get (k : Kind) (s : State) : Json :=
  match k with
  | Channels => authorized_channels s
  | Supergroups => authorized_supergroups s
  | Sudo => sudo_users s
  end.

Definition set (k : Kind) (v : Json) (s : State) : State :=
  match k with
  | Channels =>
      {| authorized_channels := v; sudo_users := sudo_users s;
         authorized_supergroups := authorized_supergroups s; calls := calls s |}
  | Supergroups =>
      {| authorized_channels := authorized_channels s; sudo_users := sudo_users s;
         authorized_supergroups := v; calls := calls s |}
  | Sudo =>
      {| authorized_channels := authorized_channels s; sudo_users := v;
         authorized_supergroups := authorized_supergroups s; calls := calls s |}
  end.

Definition file_of_kind (k : Kind) : string :=
  match k with
  | Channels => CHANNELS_FILE
  | Supergroups => SUPERGROUPS_FILE
  | Sudo => SUDO_USERS_FILE
  end.

Definition usage (command : string) (k : Kind) : string :=
  "Usage: /" +:+ command
  +:+ match k with
      | Channels => "channel <channel_id>"
      | Supergroups => "supergroup <group_id>"
      | Sudo => "sudo <user_id>"
      end.

Definition already_text (k : Kind) : string :=
  match k with
  | Channels => "Channel is already authorized."
  | Supergroups => "Supergroup is already authorized."
  | Sudo => "User is already a sudo user."
  end.

Definition absent_text (k : Kind) : string :=
  match k with
  | Channels => "Channel is not authorized."
  | Supergroups => "Supergroup is not authorized."
  | Sudo => "User is not a sudo user."
  end.

Definition added_text (k : Kind) (id : string) : string :=
  match k with
  | Channels => "Added channel " +:+ id +:+ " to authorized channels."
  | Supergroups => "Added supergroup " +:+ id +:+ " to authorized supergroups."
  | Sudo => "Added user " +:+ id +:+ " to sudo users."
  end.

Definition removed_text (k : Kind) (id : string) : string :=
  match k with
  | Channels => "Removed channel " +:+ id +:+ " from authorized channels."
  | Supergroups => "Removed supergroup " +:+ id +:+ " from authorized supergroups."
  | Sudo => "Removed user " +:+ id +:+ " from sudo users."
  end.

Definition Act (A : Type) : Type := State -> Result A * State.

Definition ret {A} (a : A) : Act A := fun s => (Done a, s).
Definition bind {A B} (m : Act A) (k : A -> Act B) : Act B :=
  fun s => match m s with
           | (Done a, s') => k a s'
           | (Failed e, s') => (Failed e, s')
           end.
Definition try_except {A} (m : Act A) (handler : Error -> Act A) : Act A :=
  fun s => match m s with
           | (Done a, s') => (Done a, s')
           | (Failed e, s') => handler e s'
           end.
Definition lift {A} (r : Result A) : Act A := fun s => (r, s).
Definition read : Act State := fun s => (Done s, s).
Definition write (k : Kind) (v : Json) : Act unit := fun s => (Done tt, set k v s).

Definition record (c : Call) (s : State) : State :=
  {| authorized_channels := authorized_channels s; sudo_users := sudo_users s;
     authorized_supergroups := authorized_supergroups s;
     calls := calls s ++ [c] |}.

(** A call to the outside: recorded, then failed or not. *)
Definition call (c : Call) (err : option Exn) : Act unit :=
  fun s => (match err with
            | None => Done tt
            | Some e => Failed (Outside e)
            end, record c s).

Notation "x <~ m ;; k" := (bind m (fun x => k))
  (at level 100, m at next level, right associativity).
Notation "m ~~> k" := (bind m (fun _ => k))
  (at level 100, right associativity).

Definition reply (out : Outside_world) (text : string) : Act unit :=
  call (Reply text) (reply_error out (Reply text)).

(** [message.reply_text(f"Error: {e}")] *)
Definition reply_failure (out : Outside_world) (e : Error) : Act unit :=
  call (ReplyError e) (reply_error out (ReplyError e)).

(** [save_json(data, file)] *)
Definition save_json (out : Outside_world) (file : string) (value : Json) : Act unit :=
  call (Save file value) (save_error out file).

(** [message.from_user.id] *)
Definition sender (u : Update) : Result Z :=
  match from_user u with
  | Some id => Done id
  | None => Failed NoSender
  end.

(** The body of the [try] of [addchannel], [addsupergroup] and [addsudo]. *)
Definition add_body (k : Kind) (out : Outside_world) (u : Update) : Act unit :=
  id <~ lift (sender u) ;;
  if negb (id =? OWNER_ID) then reply out "Only the owner can use this command."
  else
    match Py.index (Py.split (text_of u)) 1 with
    | None => reply out (usage "add" k)
    | Some x =>
        s <~ read ;;
        present <~ lift (contains (get k s) x) ;;
        if present then reply out (already_text k)
        else
          v <~ lift (append (get k s) x) ;;
          write k v ~~>
          save_json out (file_of_kind k) v ~~>
          reply out (added_text k x)
    end.

(** The body of the [try] of [removechannel], [removesupergroup] and
    [removesudo]. *)
Definition remove_body (k : Kind) (out : Outside_world) (u : Update) : Act unit :=
  id <~ lift (sender u) ;;
  if negb (id =? OWNER_ID) then reply out "Only the owner can use this command."
  else
    match Py.index (Py.split (text_of u)) 1 with
    | None => reply out (usage "remove" k)
    | Some x =>
        s <~ read ;;
        present <~ lift (contains (get k s) x) ;;
        if negb present then reply out (absent_text k)
        else
          v <~ lift (remove (get k s) x) ;;
          write k v ~~>
          save_json out (file_of_kind k) v ~~>
          reply out (removed_text k x)
    end.

Definition add (k : Kind) (out : Outside_world) (u : Update) : Act unit :=
  try_except (add_body k out u) (reply_failure out).

Definition remove_entry (k : Kind) (out : Outside_world) (u : Update) : Act unit :=
  try_except (remove_body k out u) (reply_failure out).

Definition addchannel := add Channels.
Definition removechannel := remove_entry Channels.
Definition addsupergroup := add Supergroups.
Definition removesupergroup := remove_entry Supergroups.
Definition addsudo := add Sudo.
Definition removesudo := remove_entry Sudo.

End Admin.

(** * Statements

    Notions the properties are phrased with. *)

Definition empty_world : World := {| user_data := ∅; jobs := ∅; trace := [] |}.

Section Notions.

Context {lib : UrlLib}.

(** What [download_file] answers and the calls it makes; neither depends on
    the state it is run in ([download_file_run]). *)
Definition download_result (env : Env) (url : string) (name : option string)
  : option string :=
  match fst (download_file env url name empty_world) with
  | Ok r => r
  | Raise _ => None
  end.

Definition download_events (env : Env) (url : string) (name : option string)
  : list Event :=
  trace (snd (download_file env url name empty_world)).

(** What the Content-Length header declares: the integer it reads as, and 0
    when the response has no such header. *)
Definition declares (response : FileResponse) (n : Z) : Prop :=
  match header_content_length response with
  | Some v => Py.int v = Some n
  | None => n = 0
  end.

(** The run of [download_file] gets as far as writing [filename] and reading
    back [size]. *)
Definition written (env : Env) (url : string) (name : option string)
    (filename : string) (size : Z) : Prop :=
  ∃ response n path body,
    session_get env url = Ok response ∧ file_status response = 200 ∧
    declares response n ∧ n <= MAX_FILE_SIZE ∧
    urlparse_path url = Ok path ∧
    filename = filename_of path response name ∧
    file_body response = Ok body ∧
    write_file env filename body = Ok size.

(** An exception [e] arises inside [download_file]: the request raises; or,
    on a 200 response, the Content-Length header is not an integer; or, the
    declared length being within the bound, the URL does not parse, reading
    the body raises, opening or writing the file raises, or the file is over
    the bound and removing it raises. *)
Definition download_raises (env : Env) (url : string) (name : option string)
    (e : Exn) : Prop :=
  session_get env url = Raise e
  ∨ ∃ response,
      session_get env url = Ok response ∧ file_status response = 200 ∧
      ((∃ v, header_content_length response = Some v ∧ Py.int v = None ∧
             e = ValueError v)
       ∨ ∃ n,
           declares response n ∧ n <= MAX_FILE_SIZE ∧
           (urlparse_path url = Raise e
            ∨ ∃ path,
                urlparse_path url = Ok path ∧
                (file_body response = Raise e
                 ∨ ∃ body,
                     file_body response = Ok body ∧
                     (write_file env (filename_of path response name) body = Raise e
                      ∨ ∃ size,
                          write_file env (filename_of path response name) body
                          = Ok size ∧
                          size > MAX_FILE_SIZE ∧
                          os_remove_error env (filename_of path response name)
                          = Some e)))).

(** The download of [url] fails or the file is over the size bound: an
    exception arises, the status is not 200, the declared length is over the
    bound, or the file written is. *)
Definition undeliverable (env : Env) (url : string) (name : option string) : Prop :=
  (∃ e, download_raises env url name e)
  ∨ (∃ response, session_get env url = Ok response ∧ file_status response ≠ 200)
  ∨ (∃ response n, session_get env url = Ok response ∧
       declares response n ∧ n > MAX_FILE_SIZE)
  ∨ (∃ filename size, written env url name filename size ∧ size > MAX_FILE_SIZE).

(** The page fetch of a cycle fails with [e]: [requests.get] raises [e], as
    on a network error or a timeout, or the response has a 4xx or 5xx status
    and [e] is the [HTTPError] of that status. *)
Definition fetch_fails (env : Env) (url : string) (e : Exn) : Prop :=
  requests_get env url = Raise e
  ∨ ∃ response, requests_get env url = Ok response ∧
                400 <= status_code response < 600 ∧
                e = HTTPError (status_code response).

(** A status that is neither a success (2xx) nor an error status (4xx,
    5xx): an informational or redirection status, or one from 600 on. *)
Definition other_status (status : Z) : Prop :=
  ¬ (200 <= status < 300) ∧ ¬ (400 <= status < 600).

(** The cycle fetches the page of a tracked target, finds its hash different
    from the stored one and extracts [new_files] from it. *)
Definition observes_change (env : Env) (url : string) (user_id : Z) (w : World)
    (response : Response) (tracked : Tracked) (new_files : list File) : Prop :=
  requests_get env url = Ok response ∧
  raise_for_status response = Ok tt ∧
  lookup_tracked (user_data w) (Py.str user_id) url = Some tracked ∧
  Hashlib.sha256_hexdigest (content response) ≠ tracked_hash tracked ∧
  extract_files (text response) url = Ok new_files.

(** The entry a cycle that observes a change stores for the target. *)
Definition updated (response : Response) (tracked : Tracked)
    (new_files : list File) : Tracked :=
  {| tracked_hash := Hashlib.sha256_hexdigest (content response);
     tracked_interval := tracked_interval tracked;
     tracked_night_mode := tracked_night_mode tracked;
     tracked_files := Some (map file_url new_files) |}.

(** The list of seen file URLs a store holds for a target, and the fingerprint
    it holds. *)
Definition seen_in (data : UserData) (user_id : Z) (url : string) : list string :=
  match lookup_tracked data (Py.str user_id) url with
  | Some tracked => default [] (tracked_files tracked)
  | None => []
  end.

Definition seen (w : World) (user_id : Z) (url : string) : list string :=
  seen_in (user_data w) user_id url.

Definition fingerprint (w : World) (user_id : Z) (url : string) : option string :=
  tracked_hash <$> lookup_tracked (user_data w) (Py.str user_id) url.

(** The state a cycle ends in. *)
Definition after_cycle (env : Env) (url : string) (user_id : Z) (w : World) : World :=
  snd (check_single_website env url user_id w).

(** The documents a trace shows as sent. *)
Definition documents_sent (evs : list Event) : list (string * string) :=
  omap (fun e => match e with
                 | SendDocument _ filename caption => Some (filename, caption)
                 | _ => None
                 end) evs.

(** The calls one cycle adds to the trace. *)
Definition cycle_events (env : Env) (url : string) (user_id : Z) (w : World)
  : list Event :=
  drop (length (trace w)) (trace (after_cycle env url user_id w)).

(** [e] belongs to the delivery loop of a cycle for [user_id] over
    [new_files] with [previous_files] seen before: a download of a file not
    seen before, or the sending of a file whose download succeeded. *)
Definition delivery_event (env : Env) (user_id : Z) (previous_files : list string)
    (new_files : list File) (e : Event) : Prop :=
  match e with
  | SessionGet u =>
      (u ∉ previous_files) ∧ (∃ f, f ∈ new_files ∧ file_url f = u)
  | SendDocument chat filename caption =>
      chat = user_id ∧
      (∃ f, f ∈ new_files ∧ (file_url f ∉ previous_files) ∧
            download_result env (file_url f) (Some (file_name f)) = Some filename ∧
            caption = caption_of f)
  | WriteFile _ | RemoveFile _ | LogError _ => True
  | SendMessage chat _ => chat = user_id
  | HttpGet _ | SaveJson _ | ReplyText _ | ReplyError _ => False
  end.

(** What happens to the engine: a command of a chat or a firing job. *)
Inductive Command :=
| Track (env : Env) (message : Message)
| Untrack (env : Env) (message : Message)
| Poll (env : Env) (url : string) (user_id : Z).

Definition step (w : World) (c : Command) : World :=
  match c with
  | Track env message => snd (track env message w)
  | Untrack env message => snd (untrack env message w)
  | Poll env url user_id => snd (check_single_website env url user_id w)
  end.

Definition run (cs : list Command) (w : World) : World := fold_left step cs w.

(** Every tracked target has its job under its identifier, and every job is
    the job of a tracked target. *)
Definition one_job_per_target (w : World) : Prop :=
  (∀ chat url t,
     lookup_tracked (user_data w) (Py.str chat) url = Some t →
     ∃ job, jobs w !! job_id_of chat url = Some job ∧
            job_url job = url ∧ job_user_id job = chat)
  ∧ (∀ id job,
       jobs w !! id = Some job →
       id = job_id_of (job_user_id job) (job_url job) ∧
       is_Some (lookup_tracked (user_data w) (Py.str (job_user_id job))
                  (job_url job))).

(** [url] shares its job identifier with another target of [chat]. *)
Definition collides (w : World) (chat : Z) (url : string) : Prop :=
  ∃ url' t, url' ≠ url ∧
            lookup_tracked (user_data w) (Py.str chat) url' = Some t ∧
            job_id_of chat url' = job_id_of chat url.

(** No track request of the run names a URL that collides when it arrives. *)
Fixpoint collision_free (cs : list Command) (w : World) : Prop :=
  match cs with
  | [] => True
  | c :: rest =>
      match c with
      | Track _ message =>
          ∀ url, Py.index (Py.split (message_text message)) 1 = Some url →
                 ¬ collides w (chat_id message) url
      | _ => True
      end ∧ collision_free rest (step w c)
  end.

(** The job and the entry an accepted track request stores. *)
Definition job_of (chat : Z) (url : string) (interval : Z) (night_mode : bool) : Job :=
  {| job_trigger := if night_mode
                    then AndTrigger [IntervalTrigger interval; CronTrigger "6-22"]
                    else IntervalTrigger interval;
     job_url := url; job_user_id := chat |}.

Definition fresh_target (interval : Z) (night_mode : bool) : Tracked :=
  {| tracked_hash := ""; tracked_interval := interval;
     tracked_night_mode := night_mode; tracked_files := Some [] |}.

(** The request of [message] reads as [url], [interval] and [night_mode]. *)
Definition parses (message : Message) (url : string) (interval : Z)
    (night_mode : bool) : Prop :=
  let args := Py.split (message_text message) in
  Py.index args 1 = Some url ∧
  (∃ a, Py.index args 2 = Some a ∧ Py.int a = Some interval) ∧
  night_mode = Py.mem "night" (skipn 3 args).

(** Nothing outside fails while the request is served. *)
Definition served (env : Env) (message : Message) (url : string) (interval : Z) : Prop :=
  interval_trigger_error env interval = None ∧
  add_job_error env (job_id_of (chat_id message) url) = None ∧
  save_json_error env = None ∧
  reply_text_error env
    (ReplyText ("Now tracking " +:+ url +:+ " every " +:+ Py.str interval
                +:+ " minutes")) = None.

(** The state an accepted request leaves. *)
Definition tracked_world (message : Message) (url : string) (interval : Z)
    (night_mode : bool) (w : World) : World :=
  set_user_data
    (store_tracked (user_data w) (Py.str (chat_id message)) url
       (fresh_target interval night_mode))
    (set_jobs
       (<[job_id_of (chat_id message) url :=
            job_of (chat_id message) url interval night_mode]> (jobs w)) w).

(** [tag] is one of the elements scanned and refers to [url]: its [href],
    or else its [src], is a non-empty reference that [urljoin] resolves
    against [base_url] to [url]. *)
Definition refers_to (base_url : string) (tag : Tag) (url : string) : Prop :=
  tag_name tag ∈ ["a"; "img"; "audio"; "video"; "source"] ∧
  ∃ ref, Py.or_else (tag_href tag) (tag_src tag) = Some ref ∧ ref ≠ "" ∧
         urljoin base_url ref = Ok url.

(** [url], lowercased, ends with an extension of the allow-list. *)
Definition has_allowed_suffix (url : string) : Prop :=
  ∃ ext, ext ∈ ALLOWED_EXTS ∧ Py.endswith (Py.lower url) ext = true.

(** The display name in the specification's words: the [alt] attribute, or else the
    [title] attribute, or else what follows the last slash of the URL. *)
Definition display_name (tag : Tag) (url : string) : string :=
  match tag_alt tag with
  | Some (String c r) => String c r
  | _ => match tag_title tag with
         | Some (String c r) => String c r
         | _ => Py.basename url
         end
  end.

(** The extension of the path of a URL and the last segment of that path,
    as [download_file] computes them from [urlparse(url).path]. *)
Definition path_extension (url : string) : Res string :=
  match urlparse_path url with
  | Ok path => Ok (Py.lower (Py.splitext_ext path))
  | Raise e => Raise e
  end.

Definition last_path_segment (url : string) : Res string :=
  match urlparse_path url with
  | Ok path => Ok (Py.basename path)
  | Raise e => Raise e
  end.

(** The data of the last [save_json] call of a trace, [data] when there is
    none: what the file holds when that call did not fail. *)
Fixpoint last_saved (data : UserData) (evs : list Event) : UserData :=
  match evs with
  | [] => data
  | SaveJson d :: rest => last_saved d rest
  | _ :: rest => last_saved data rest
  end.

(** What [load_json(USER_DATA_FILE)] reads at the start of the process; [{}]
    when nothing was ever saved. *)
Definition persisted (w : World) : UserData := last_saved ∅ (trace w).

(** Modelled from the spec: the restart of the process, which is not code
    of [b.py].  The scheduler state is reloaded from durable storage: the
    job store configured in [jobstores] holds after the restart the jobs it
    held before it; [user_data] is read back from its file. *)
Definition restart (w : World) : World := set_user_data (persisted w) w.

(** A track request together with what it reads as and the outside that
    serves it. *)
Record Registration := {
  reg_env : Env;
  reg_message : Message;
  reg_url : string;
  reg_interval : Z;
  reg_night_mode : bool
}.

Definition registered (r : Registration) : Prop :=
  parses (reg_message r) (reg_url r) (reg_interval r) (reg_night_mode r) ∧
  served (reg_env r) (reg_message r) (reg_url r) (reg_interval r).

Definition reg_job_id (r : Registration) : string :=
  job_id_of (chat_id (reg_message r)) (reg_url r).

Definition registering (rs : list Registration) : list Command :=
  map (fun r => Track (reg_env r) (reg_message r)) rs.

(** After the restart the job of [r] is there with the interval and the
    night mode of the request, and so is its entry. *)
Definition rearmed (w : World) (r : Registration) : Prop :=
  let chat := chat_id (reg_message r) in
  jobs w !! reg_job_id r
  = Some (job_of chat (reg_url r) (reg_interval r) (reg_night_mode r)) ∧
  lookup_tracked (user_data w) (Py.str chat) (reg_url r)
  = Some (fresh_target (reg_interval r) (reg_night_mode r)).

End Notions.

(** ** Notions for the further properties *)

(** The text of the summary message of a cycle for [url] that sent the
    documents of [captions]. *)
Definition summary_message (url : string) (captions : list string) : string :=
  "Website updated: " +:+ url
  +:+ String "010" ("New files:" +:+ String "010" (Py.join (String "010" "") captions)).

Definition is_message (e : Event) : Prop :=
  match e with
  | SendMessage _ _ => True
  | _ => False
  end.

(** [e] is the page fetch or a log entry: no store write, no download, no
    message of any kind. *)
Definition is_quiet (e : Event) : Prop :=
  match e with
  | HttpGet _ | LogError _ => True
  | _ => False
  end.

(** [e] is a page fetch or a reply to the chat. *)
Definition is_fetch_or_reply (e : Event) : Prop :=
  match e with
  | HttpGet _ | ReplyText _ | ReplyError _ => True
  | _ => False
  end.

Section Rounds.

Context {lib : UrlLib}.

(** The round of the loop of a cycle for the file [g] ends without an
    exception: [g] was seen before, or its download gives no file, or the
    file is sent and then removed. *)
Definition passes (env : Env) (user_id : Z) (previous_files : list string)
    (g : File) : Prop :=
  file_url g ∈ previous_files
  ∨ download_result env (file_url g) (Some (file_name g)) = None
  ∨ ∃ filename,
      download_result env (file_url g) (Some (file_name g)) = Some filename ∧
      send_document_error env user_id filename (caption_of g) = None ∧
      os_remove_error env filename = None.

(** The calls of such a round. *)
Definition round_events (env : Env) (user_id : Z) (previous_files : list string)
    (g : File) : list Event :=
  if decide (file_url g ∈ previous_files) then []
  else
    download_events env (file_url g) (Some (file_name g))
    ++ match download_result env (file_url g) (Some (file_name g)) with
       | Some filename =>
           [SendDocument user_id filename (caption_of g); RemoveFile filename]
       | None => []
       end.

End Rounds.

(** ** Notions for the access policy *)

(** The list that [is_authorized] consults for a message, and the
    identifier it looks up there. *)
Definition subject_of (v : Admin.Update) : option (Admin.Kind * Z) :=
  match Admin.chat_type v with
  | Admin.PRIVATE => pair Admin.Sudo <$> Admin.from_user v
  | Admin.CHANNEL => Some (Admin.Channels, Admin.chat v)
  | Admin.SUPERGROUP => Some (Admin.Supergroups, Admin.chat v)
  | _ => None
  end.

(** How often the string [x] is an item of [items]. *)
Definition occurrences (x : string) (items : list Admin.Json) : nat :=
  length (List.filter (Admin.is_str x) items).

#[global] Instance kind_eq_dec : EqDecision Admin.Kind.
Proof. solve_decision. Defined.

(** A list in which no string occurs twice. *)
Definition duplicate_free (v : Admin.Json) : Prop :=
  ∃ items, v = Admin.JArr items ∧ ∀ x, (occurrences x items ≤ 1)%nat.

Definition is_save (c : Admin.Call) : Prop :=
  match c with
  | Admin.Save _ _ => True
  | _ => False
  end.

(** One of the six owner's commands, with the message that carries it and
    the outside it meets. *)
Record Request := {
  adding : bool;
  kind : Admin.Kind;
  outside : Admin.Outside_world;
  update : Admin.Update
}.

Definition serve (r : Request) : Admin.Act unit :=
  if adding r then Admin.add (kind r) (outside r) (update r)
  else Admin.remove_entry (kind r) (outside r) (update r).

(** The three lists after the requests [rs], served oldest first. *)
Definition serve_all (rs : list Request) (s : Admin.State) : Admin.State :=
  fold_left (fun s r => snd (serve r s)) rs s.

(** ** Concrete environments for the examples *)

Definition link (href : string) : Tag :=
  {| tag_name := "a"; tag_href := Some href; tag_src := None;
     tag_alt := None; tag_title := None |}.

Definition page (body : string) (tags : Html) : Response :=
  {| status_code := 200; content := body; text := tags |}.

Definition file_of_size (declared : option string) (n : Z) : FileResponse :=
  {| file_status := 200; header_content_length := declared;
     header_content_type := Some "application/pdf"; file_body := Ok n |}.

Fixpoint assoc {A} (k : string) (l : list (string * A)) : option A :=
  match l with
  | [] => None
  | (k', v) :: r => if String.eqb k k' then Some v else assoc k r
  end.

(** An outside where the listed pages and files exist, every other URL
    refuses the connection, and nothing else fails. *)
Definition serving (pages : list (string * Response))
    (files : list (string * FileResponse)) : Env :=
  {| requests_get := fun u => or_raise (OtherError "connection refused") (assoc u pages);
     save_json_error := None;
     session_get := fun u => or_raise (OtherError "connection refused") (assoc u files);
     write_file := fun _ n => Ok n;
     os_remove_error := fun _ => None;
     send_document_error := fun _ _ _ => None;
     send_message_error := fun _ _ => None;
     reply_text_error := fun _ => None;
     interval_trigger_error := fun _ => None;
     add_job_error := fun _ => None;
     remove_job_error := fun _ => None |}.

(** The same outside, where Telegram refuses every document. *)
Definition refusing_documents (env : Env) : Env :=
  {| requests_get := requests_get env;
     save_json_error := save_json_error env;
     session_get := session_get env;
     write_file := write_file env;
     os_remove_error := os_remove_error env;
     send_document_error := fun _ _ _ => Some (OtherError "FloodWait");
     send_message_error := send_message_error env;
     reply_text_error := reply_text_error env;
     interval_trigger_error := interval_trigger_error env;
     add_job_error := add_job_error env;
     remove_job_error := remove_job_error env |}.

(** The same outside, where no file can be removed. *)
Definition refusing_removal (env : Env) : Env :=
  {| requests_get := requests_get env;
     save_json_error := save_json_error env;
     session_get := session_get env;
     write_file := write_file env;
     os_remove_error := fun _ => Some (OtherError "permission denied");
     send_document_error := send_document_error env;
     send_message_error := send_message_error env;
     reply_text_error := reply_text_error env;
     interval_trigger_error := interval_trigger_error env;
     add_job_error := add_job_error env;
     remove_job_error := remove_job_error env |}.

(** A store with one target of user 42. *)
Definition tracking (url : string) (t : Tracked) : World :=
  {| user_data := {[ Py.str 42 := {[ url := t ]} ]}; jobs := ∅; trace := [] |}.

Definition never_polled : Tracked :=
  {| tracked_hash := ""; tracked_interval := 30; tracked_night_mode := false;
     tracked_files := Some [] |}.

Definition polled (body : string) (files : list string) : Tracked :=
  {| tracked_hash := Hashlib.sha256_hexdigest body; tracked_interval := 30;
     tracked_night_mode := false; tracked_files := Some files |}.

Definition request (chat : Z) (text : string) : Message :=
  {| chat_id := chat; message_text := text |}.

(** Nothing is reachable and nothing fails. *)
Definition quiet : Env := serving [] [].

(** *** The inputs of the examples *)

Definition site : string := "http://h/".
Definition D1 : string := "http://h/D1.pdf".
Definition D2 : string := "http://h/D2.pdf".
Definition D3 : string := "http://h/D3.pdf".

Definition pdf (url : string) : File :=
  {| file_name := Py.basename url; file_url := url; file_type := "document" |}.

(** The page links [D1], the download works, Telegram refuses the file. *)
Definition env_c1 : Env :=
  refusing_documents
    (serving [(site, page "B1" [link D1])] [(D1, file_of_size None 10)]).

(** The page, changed to [B2], links [D2] and no longer [D1]. *)
Definition env_c2 : Env :=
  serving [(site, page "B2" [link D2])] [(D2, file_of_size None 10)].

(** The page links [D3], a file that declares 50 MB. *)
Definition env_c3 : Env :=
  serving [(site, page "B3" [link D3])]
    [(D3, file_of_size (Some "52428800") 52428800)].

(** The page still reads [B1]. *)
Definition env_c4 : Env :=
  serving [(site, page "B1" [link D1])] [(D1, file_of_size None 10)].

(** [D3] is served with status 200 and its body cannot be read to the end. *)
Definition env_broken : Env :=
  serving [(site, page "B3" [link D3])]
    [(D3, {| file_status := 200; header_content_length := None;
             header_content_type := Some "application/pdf";
             file_body := Raise (OtherError "connection reset") |})].

(** An answer with a status of its own. *)
Definition answer (status : Z) (body : string) (tags : Html) : Response :=
  {| status_code := status; content := body; text := tags |}.

(** The server answers 304 with a page that links [D1]. *)
Definition env_c8 : Env :=
  serving [(site, answer 304 "B1" [link D1])] [(D1, file_of_size None 10)].

(** The server answers 404. *)
Definition env_gone : Env := serving [(site, answer 404 "Not Found" [])] [].

(** [D3] declares no length, is written with 50 MB, and cannot be removed. *)
Definition env_c10 : Env :=
  refusing_removal (serving [] [(D3, file_of_size None 52428800)]).

(** A link with a query string whose end looks like a file. *)
Definition download_link : string := "http://h/download.php?file=report.pdf".

(** Two URLs whose MD5 digests both start with 4028fc. *)
Definition page3152 : string := "http://example.com/page3152.html".
Definition page4055 : string := "http://example.com/page4055.html".

(** Two requests of one chat for the URLs above, and two requests that do
    not collide. *)
Definition registration (chat : Z) (url : string) (interval : Z) (night : bool)
  : Registration :=
  {| reg_env := quiet;
     reg_message := request chat ("/track " +:+ url +:+ " " +:+ Py.str interval
                                  +:+ (if night then " night" else ""));
     reg_url := url; reg_interval := interval; reg_night_mode := night |}.

Definition colliding : list Registration :=
  [registration 42 page3152 30 false; registration 42 page4055 30 false].

Definition distinct : list Registration :=
  [registration 42 site 30 false; registration 7 site 5 true].

(** *** The inputs of the further examples *)

(** The same outside, where the store cannot be written. *)
Definition failing_save (env : Env) : Env :=
  {| requests_get := requests_get env;
     save_json_error := Some (OtherError "disk full");
     session_get := session_get env;
     write_file := write_file env;
     os_remove_error := os_remove_error env;
     send_document_error := send_document_error env;
     send_message_error := send_message_error env;
     reply_text_error := reply_text_error env;
     interval_trigger_error := interval_trigger_error env;
     add_job_error := add_job_error env;
     remove_job_error := remove_job_error env |}.

(** [D1] is served with a Content-Length that is no number. *)
Definition env_bad_length : Env :=
  serving [] [(D1, file_of_size (Some "ten") 10)].

(** The page links [D1], [D2] and [D3]; Telegram takes [D1] and refuses
    every other document. *)
Definition env_second_refused : Env :=
  let env := serving [(site, page "B1" [link D1; link D2; link D3])]
               [(D1, file_of_size None 10); (D2, file_of_size None 10);
                (D3, file_of_size None 10)] in
  {| requests_get := requests_get env;
     save_json_error := save_json_error env;
     session_get := session_get env;
     write_file := write_file env;
     os_remove_error := os_remove_error env;
     send_document_error :=
       fun _ filename _ => if String.eqb filename "D1.pdf.pdf" then None
                           else Some (OtherError "FloodWait");
     send_message_error := send_message_error env;
     reply_text_error := reply_text_error env;
     interval_trigger_error := interval_trigger_error env;
     add_job_error := add_job_error env;
     remove_job_error := remove_job_error env |}.

(** Messages as the access policy reads them: the owner and a stranger in
    private, and a post in a channel. *)
Definition owner_says (text : string) : Admin.Update :=
  {| Admin.chat_type := Admin.PRIVATE; Admin.chat := Admin.OWNER_ID;
     Admin.from_user := Some Admin.OWNER_ID; Admin.text_of := text |}.

Definition stranger_says (text : string) : Admin.Update :=
  {| Admin.chat_type := Admin.PRIVATE; Admin.chat := 7;
     Admin.from_user := Some 7; Admin.text_of := text |}.

Definition channel_post (channel : Z) (text : string) : Admin.Update :=
  {| Admin.chat_type := Admin.CHANNEL; Admin.chat := channel;
     Admin.from_user := None; Admin.text_of := text |}.

(** An outside where saving and replying never fail. *)
Definition reliable : Admin.Outside_world :=
  {| Admin.save_error := fun _ => None; Admin.reply_error := fun _ => None |}.

(** A first start: none of the files exists. *)
Definition no_files : string -> Admin.FileState := fun _ => Admin.Missing.

(** A start from a channel file that holds [channels], written by hand. *)
Definition channels_file (channels : list string) : string -> Admin.FileState :=
  fun file => if String.eqb file Admin.CHANNELS_FILE
              then Admin.Holds (Admin.JArr (map Admin.JStr channels))
              else Admin.Missing.

Definition owner_request (adding : bool) (kind : Admin.Kind) (text : string)
  : Request :=
  {| adding := adding; kind := kind; outside := reliable;
     update := owner_says text |}.

(** * Properties *)

(** ** Preliminaries *)

Lemma gtb_gt (n m : Z) : n > m → (n >? m) = true.
Proof. intros. destruct (Z.gtb_spec n m); [done | lia]. Qed.

Lemma gtb_le (n m : Z) : n <= m → (n >? m) = false.
Proof. intros. destruct (Z.gtb_spec n m); [lia | done]. Qed.

Lemma add_events_nil (w : World) : add_events [] w = w.
Proof. destruct w; unfold add_events; simpl. by rewrite app_nil_r. Qed.

Lemma add_events_app (e1 e2 : list Event) (w : World) :
  add_events e2 (add_events e1 w) = add_events (e1 ++ e2) w.
Proof. unfold add_events; simpl. by rewrite app_assoc. Qed.

Lemma set_user_data_add_events d evs w :
  set_user_data d (add_events evs w) = add_events evs (set_user_data d w).
Proof. reflexivity. Qed.

Lemma set_jobs_add_events j evs w :
  set_jobs j (add_events evs w) = add_events evs (set_jobs j w).
Proof. reflexivity. Qed.

Ltac norm_world :=
  repeat first [ rewrite set_user_data_add_events
               | rewrite set_jobs_add_events
               | rewrite add_events_app ]; simpl.

Lemma set_user_data_id (w : World) : set_user_data (user_data w) w = w.
Proof. by destruct w. Qed.

Lemma mem_elem_of (x : string) (l : list string) : Py.mem x l = true ↔ x ∈ l.
Proof.
  unfold Py.mem. rewrite existsb_exists. split.
  - intros (y & Hin & Heq). apply String.eqb_eq in Heq. subst.
    by apply list_elem_of_In.
  - intros Hin. exists x. split; [by apply list_elem_of_In | apply String.eqb_refl].
Qed.

Lemma mem_not_elem_of (x : string) (l : list string) : Py.mem x l = false ↔ x ∉ l.
Proof.
  rewrite <- mem_elem_of. destruct (Py.mem x l); split; congruence.
Qed.

Section Facts.

Context {lib : UrlLib}.

Ltac step_M :=
  unfold download_file, download_body, try_except, bind, call, emit, lift, ret,
    raise, outcome in *; simpl in *.

(** ** download_file *)

Lemma download_file_run env url name w :
  download_file env url name w
  = (Ok (download_result env url name),
     add_events (download_events env url name) w).
Proof.
  unfold download_result, download_events. step_M.
  repeat (case_match; simpl in *; simplify_eq);
    rewrite ?add_events_app; try reflexivity.
Qed.
Lemma declares_length response n :
  declares response n ↔ content_length_of response = Ok n.
Proof.
  unfold declares, content_length_of.
  destruct (header_content_length response) as [v|]; simpl.
  - destruct (Py.int v); simpl; split; congruence.
  - split; congruence.
Qed.

Lemma download_file_not_200 env url name response :
  session_get env url = Ok response → file_status response ≠ 200 →
  download_result env url name = None
  ∧ download_events env url name = [SessionGet url].
Proof.
  intros Hget Hst. unfold download_result, download_events. step_M.
  rewrite Hget. simpl. apply Z.eqb_neq in Hst. by rewrite Hst.
Qed.

Lemma download_file_declared_too_large env url name response n :
  session_get env url = Ok response → declares response n →
  n > MAX_FILE_SIZE →
  download_result env url name = None
  ∧ download_events env url name = [SessionGet url].
Proof.
  intros Hget Hlen Hn. apply declares_length in Hlen.
  unfold download_result, download_events. step_M. rewrite Hget. simpl.
  destruct (file_status response =? 200); simpl; [| done].
  rewrite Hlen. simpl.
  by rewrite (gtb_gt n MAX_FILE_SIZE).
Qed.

Lemma download_file_written env url name filename size :
  written env url name filename size →
  download_result env url name
  = (if size >? MAX_FILE_SIZE then None else Some filename)
  ∧ download_events env url name
    = [SessionGet url; WriteFile filename]
        ++ (if size >? MAX_FILE_SIZE
            then RemoveFile filename
                 :: match os_remove_error env filename with
                    | Some e => [LogError e]
                    | None => []
                    end
            else []).
Proof.
  intros (response & n & path & body & Hget & Hst & Hlen & Hn & Hpath & -> & Hbody & Hw).
  apply declares_length in Hlen.
  unfold download_result, download_events. step_M. rewrite Hget. simpl.
  apply Z.eqb_eq in Hst. rewrite Hst. simpl. rewrite Hlen. simpl.
  rewrite (gtb_le n MAX_FILE_SIZE) by done.
  rewrite Hpath. simpl. rewrite Hbody. simpl. rewrite Hw. simpl.
  destruct (size >? MAX_FILE_SIZE); simpl; [| done].
  by destruct (os_remove_error env _).
Qed.

Lemma download_file_exception env url name w e w' :
  download_body env url name w = (Raise e, w') →
  ∃ evs, download_file env url name w = (Ok None, add_events (evs ++ [LogError e]) w).
Proof.
  intros Hbody.
  assert (∃ evs, w' = add_events evs w) as [evs ->].
  { revert Hbody. step_M. intros Hbody.
    repeat (case_match; simpl in *; simplify_eq);
      rewrite ?add_events_app; eauto. }
  exists evs. unfold download_file, try_except. rewrite Hbody.
  unfold bind, emit, ret. simpl. by rewrite add_events_app.
Qed.

(** [download_raises] names the exceptions of the body of [download_file],
    all of them and no other. *)
Lemma download_raises_run env url name w e :
  download_raises env url name e →
  ∃ w', download_body env url name w = (Raise e, w').
Proof.
  intros [Hget | (response & Hget & Hst & Hrest)]; step_M; rewrite Hget; simpl;
    [eauto |].
  apply Z.eqb_eq in Hst. rewrite Hst. simpl.
  destruct Hrest as [(v & Hv & Hint & ->) | (n & Hlen & Hn & Hrest)].
  { unfold content_length_of. rewrite Hv, Hint. simpl. eauto. }
  apply declares_length in Hlen. rewrite Hlen. simpl.
  rewrite (gtb_le n MAX_FILE_SIZE) by done.
  destruct Hrest as [Hpath | (path & Hpath & Hrest)]; rewrite Hpath; simpl;
    [eauto |].
  destruct Hrest as [Hbody | (body & Hbody & Hrest)]; rewrite Hbody; simpl;
    [eauto |].
  destruct Hrest as [Hw | (size & Hw & Hsize & Hrm)]; rewrite Hw; simpl;
    [eauto |].
  rewrite (gtb_gt size MAX_FILE_SIZE) by done. simpl. rewrite Hrm. simpl. eauto.
Qed.

(** What follows a 200 response whose declared length [n] is within the
    bound. *)
Lemma download_body_after_length env url name w response n :
  session_get env url = Ok response → file_status response = 200 →
  declares response n → n <= MAX_FILE_SIZE →
  (∃ e w', download_raises env url name e ∧
           download_body env url name w = (Raise e, w'))
  ∨ (∃ filename size, written env url name filename size ∧
       (size > MAX_FILE_SIZE → os_remove_error env filename = None)).
Proof.
  intros Hget Hst Hlen Hn.
  assert (∀ e, download_raises env url name e →
               ∃ e w', download_raises env url name e ∧
                       download_body env url name w = (Raise e, w')) as Hraise.
  { intros e He. destruct (download_raises_run env url name w e He) as [w' Hrun].
    eauto. }
  unfold written.
  destruct (urlparse_path url) as [path|e] eqn:Hpath.
  2: { left. apply (Hraise e). right. exists response.
       split; [done |]. split; [done |]. right. exists n.
       split; [done |]. split; [done |]. by left. }
  destruct (file_body response) as [body|e] eqn:Hbody.
  2: { left. apply (Hraise e). right. exists response.
       split; [done |]. split; [done |]. right. exists n.
       split; [done |]. split; [done |]. right. exists path.
       split; [done |]. by left. }
  destruct (write_file env (filename_of path response name) body)
    as [size|e] eqn:Hw.
  2: { left. apply (Hraise e). right. exists response.
       split; [done |]. split; [done |]. right. exists n.
       split; [done |]. split; [done |]. right. exists path.
       split; [done |]. right. exists body. split; [done |]. by left. }
  destruct (decide (size > MAX_FILE_SIZE)) as [Hsize|Hsize].
  - destruct (os_remove_error env (filename_of path response name))
      as [e|] eqn:Hrm.
    + left. apply (Hraise e). right. exists response.
      split; [done |]. split; [done |]. right. exists n.
      split; [done |]. split; [done |]. right. exists path.
      split; [done |]. right. exists body. split; [done |]. right.
      by exists size.
    + right. exists (filename_of path response name), size.
      split; [| done]. by exists response, n, path, body.
  - right. exists (filename_of path response name), size.
    split; [| intros; lia]. by exists response, n, path, body.
Qed.

Lemma download_body_cases env url name w :
  (∃ e w', download_raises env url name e ∧
           download_body env url name w = (Raise e, w'))
  ∨ (∃ response, session_get env url = Ok response ∧ file_status response ≠ 200)
  ∨ (∃ response n, session_get env url = Ok response ∧
                   file_status response = 200 ∧
                   declares response n ∧ n > MAX_FILE_SIZE)
  ∨ (∃ filename size, written env url name filename size ∧
       (size > MAX_FILE_SIZE → os_remove_error env filename = None)).
Proof.
  assert (∀ e, download_raises env url name e →
               ∃ e w', download_raises env url name e ∧
                       download_body env url name w = (Raise e, w')) as Hraise.
  { intros e He. destruct (download_raises_run env url name w e He) as [w' Hrun].
    eauto. }
  destruct (session_get env url) as [response|e] eqn:Hget.
  2: { left. apply (Hraise e). by left. }
  destruct (decide (file_status response = 200)) as [Hst|Hst].
  2: { right; left. by exists response. }
  assert ((∃ v, header_content_length response = Some v ∧ Py.int v = None)
          ∨ ∃ n, declares response n) as [(v & Hv & Hint) | [n Hlen]].
  { unfold declares. destruct (header_content_length response) as [v|];
      [| right; by exists 0].
    destruct (Py.int v) as [n|] eqn:Hint; [right; by exists n | left; by exists v]. }
  - left. apply (Hraise (ValueError v)). right. exists response.
    split; [done |]. split; [done |]. left. by exists v.
  - destruct (decide (n > MAX_FILE_SIZE)) as [Hn|Hn].
    { right; right; left. by exists response, n. }
    assert (n <= MAX_FILE_SIZE) as Hle by lia.
    destruct (download_body_after_length env url name w response n
                Hget Hst Hlen Hle) as [Hr | Hw];
      [by left | by right; right; right].
Qed.

Lemma download_raises_logged env url name e :
  download_raises env url name e →
  download_result env url name = None
  ∧ ∃ before, download_events env url name = before ++ [LogError e].
Proof.
  intros He.
  destruct (download_raises_run env url name empty_world e He) as [w' Hrun].
  destruct (download_file_exception _ _ _ _ _ _ Hrun) as [evs Hfile].
  unfold download_result, download_events. rewrite Hfile. simpl. eauto.
Qed.

Lemma undeliverable_no_result env url name :
  undeliverable env url name ↔ download_result env url name = None.
Proof.
  split.
  - intros [[e He] | [(r & Hr & Hs) | [(r & n & Hr & Hl & Hn) | (fn & size & Hw & Hs)]]].
    + by apply (download_raises_logged env url name e).
    + by apply (download_file_not_200 env url name r).
    + by apply (download_file_declared_too_large env url name r n).
    + destruct (download_file_written _ _ _ _ _ Hw) as [-> _]. by rewrite gtb_gt.
  - intros Hnone.
    destruct (download_body_cases env url name empty_world)
      as [(e & w' & He & _) | [Hst | [(r & n & Hr & _ & Hl & Hn) | (fn & size & Hw & _)]]].
    + left. eauto.
    + right; left. done.
    + right; right; left. eauto.
    + right; right; right. exists fn, size. split; [done |].
      destruct (download_file_written _ _ _ _ _ Hw) as [Hres _].
      rewrite Hnone in Hres. destruct (Z.gtb_spec size MAX_FILE_SIZE); [lia | done].
Qed.

(** C10, as the code has it.  No exception leaves [download_file].  It
    answers [None] when the status is not 200, when the Content-Length
    header reads as an integer over the 45 MB cap, when the file written
    exceeds the cap, and when an exception arises, which is logged last;
    otherwise, and so in no other case than these four, it answers the name
    of the file it wrote.  On a file over the cap [os.remove] is called
    before the answer; when that call raises, the file is not removed and
    the error is logged. *)
Theorem download_file_outcomes (env : Env) (url : string) (name : option string)
    (w : World) :
  ∃ r evs,
    download_file env url name w = (Ok r, add_events evs w) ∧
    (∀ response, session_get env url = Ok response →
       file_status response ≠ 200 → r = None ∧ evs = [SessionGet url]) ∧
    (∀ response v n, session_get env url = Ok response →
       header_content_length response = Some v → Py.int v = Some n →
       n > MAX_FILE_SIZE →
       r = None ∧ evs = [SessionGet url]) ∧
    (∀ filename size, written env url name filename size →
       size > MAX_FILE_SIZE →
       r = None ∧
       evs = [SessionGet url; WriteFile filename; RemoveFile filename]
               ++ match os_remove_error env filename with
                  | Some e => [LogError e]
                  | None => []
                  end) ∧
    (∀ e, download_raises env url name e →
       r = None ∧ ∃ before, evs = before ++ [LogError e]) ∧
    (∀ filename size, written env url name filename size →
       size <= MAX_FILE_SIZE →
       r = Some filename ∧ evs = [SessionGet url; WriteFile filename]) ∧
    ((∃ e, download_raises env url name e)
     ∨ (∃ response, session_get env url = Ok response ∧ file_status response ≠ 200)
     ∨ (∃ response n, session_get env url = Ok response ∧
                      file_status response = 200 ∧
                      declares response n ∧ n > MAX_FILE_SIZE)
     ∨ (∃ filename size, written env url name filename size)).
Proof.
  exists (download_result env url name), (download_events env url name).
  split; [apply download_file_run |].
  split; [| split; [| split; [| split; [| split]]]].
  - eauto using download_file_not_200.
  - intros response v n Hget Hv Hint Hn.
    apply (download_file_declared_too_large env url name response n);
      try done.
    unfold declares. by rewrite Hv.
  - intros filename size Hw Hsize.
    destruct (download_file_written _ _ _ _ _ Hw) as [-> ->].
    by rewrite gtb_gt.
  - apply download_raises_logged.
  - intros filename size Hw Hsize.
    destruct (download_file_written _ _ _ _ _ Hw) as [-> ->].
    by rewrite gtb_le.
  - destruct (download_body_cases env url name w)
      as [(e & w' & He & _) | [Hst | [Hlen | (fn & size & Hw & _)]]]; eauto 10.
Qed.

Lemma download_events_shape env url name :
  Forall (fun e => match e with
                   | SessionGet u => u = url
                   | WriteFile _ | RemoveFile _ | LogError _ => True
                   | _ => False
                   end) (download_events env url name).
Proof.
  unfold download_events. step_M.
  repeat (case_match; simpl in *; simplify_eq); repeat constructor.
Qed.

(** ** The delivery loop *)

Lemma delivery_event_mono env uid prev (fs fs' : list File) e :
  (∀ f, f ∈ fs → f ∈ fs') →
  delivery_event env uid prev fs e → delivery_event env uid prev fs' e.
Proof.
  intros Hsub. destruct e; simpl; try done.
  - intros [? (f & ? & ?)]. eauto.
  - intros [? (f & ? & ? & ? & ?)]. split; [done |]. exists f. eauto.
Qed.

Lemma send_file_run env uid prev summary f w :
  ∃ r evs,
    send_file env uid prev summary f w = (r, add_events evs w) ∧
    Forall (delivery_event env uid prev [f]) evs.
Proof.
  unfold send_file.
  destruct (Py.mem (file_url f) prev) eqn:Hmem; simpl.
  { exists (Ok summary), []. by rewrite add_events_nil. }
  apply mem_not_elem_of in Hmem.
  assert (Forall (delivery_event env uid prev [f])
            (download_events env (file_url f) (Some (file_name f)))) as Hdl.
  { eapply Forall_impl; [apply download_events_shape |].
    intros [] He; simpl in *; try done. subst. split; [done |].
    exists f. split; [by left | done]. }
  unfold bind at 1. rewrite download_file_run.
  destruct (download_result env (file_url f) (Some (file_name f))) as [fn|] eqn:Hres;
    simpl; [destruct fn as [|c fn]; simpl |].
  - eauto.
  - assert (delivery_event env uid prev [f]
              (SendDocument uid (String c fn) (caption_of f))) as Hsend.
    { split; [done |]. exists f. split; [by left | done]. }
    unfold bind, call, emit, lift, ret, outcome. simpl.
    destruct (send_document_error env uid _ _); simpl;
      [| destruct (os_remove_error env _); simpl];
      rewrite ?add_events_app; do 2 eexists; (split; [reflexivity |]);
      repeat (apply Forall_app; split); auto; repeat constructor; auto.
  - eauto.
Qed.

Lemma send_files_run env uid prev fs : ∀ summary w,
  ∃ r evs,
    send_files env uid prev summary fs w = (r, add_events evs w) ∧
    Forall (delivery_event env uid prev fs) evs.
Proof.
  induction fs as [|f fs IH]; intros summary w; simpl.
  { exists (Ok summary), []. by rewrite add_events_nil. }
  destruct (send_file_run env uid prev summary f w) as (r & evs & Hrun & Hevs).
  assert (Forall (delivery_event env uid prev (f :: fs)) evs) as Hevs'.
  { eapply Forall_impl; [exact Hevs |]. intros e. apply delivery_event_mono.
    intros g Hg. apply list_elem_of_singleton in Hg. subst. by left. }
  unfold bind. rewrite Hrun. destruct r as [summary'|e]; [| eauto].
  destruct (IH summary' (add_events evs w)) as (r' & evs' & Hrun' & Hevs'').
  rewrite Hrun', add_events_app. do 2 eexists. split; [reflexivity |].
  apply Forall_app. split; [done |].
  eapply Forall_impl; [exact Hevs'' |]. intros e. apply delivery_event_mono.
  intros g Hg. by right.
Qed.

(** ** check_single_website, path by path *)

Ltac step_check :=
  unfold check_single_website, check_body, try_except, bind, call, emit, lift,
    ret, raise, get_user_data, put_user_data, save_json, outcome; simpl.

Lemma error_status_raises (response : Response) :
  400 <= status_code response < 600
  ↔ raise_for_status response = Raise (HTTPError (status_code response)).
Proof.
  unfold raise_for_status.
  destruct (Z.leb_spec 400 (status_code response));
    destruct (Z.ltb_spec (status_code response) 600); simpl;
    split; first [done | lia].
Qed.

Lemma other_status_passes (response : Response) :
  ¬ (400 <= status_code response < 600) ↔ raise_for_status response = Ok tt.
Proof.
  unfold raise_for_status.
  destruct (Z.leb_spec 400 (status_code response));
    destruct (Z.ltb_spec (status_code response) 600); simpl;
    split; first [done | lia].
Qed.

Lemma check_fetch_fails env url uid w e :
  fetch_fails env url e →
  check_single_website env url uid w
  = (Ok tt, add_events [HttpGet url; LogError e] w).
Proof.
  intros [Hget | (response & Hget & Hst & ->)]; step_check; rewrite Hget; simpl.
  - by rewrite add_events_app.
  - apply error_status_raises in Hst. rewrite Hst. by rewrite add_events_app.
Qed.

Lemma check_not_tracked env url uid w response :
  requests_get env url = Ok response → raise_for_status response = Ok tt →
  lookup_tracked (user_data w) (Py.str uid) url = None →
  check_single_website env url uid w = (Ok tt, add_events [HttpGet url] w).
Proof.
  intros Hget Hst Hlook. step_check. rewrite Hget; simpl. rewrite Hst; simpl.
  by rewrite Hlook.
Qed.

Lemma check_unchanged env url uid w response tracked :
  requests_get env url = Ok response → raise_for_status response = Ok tt →
  lookup_tracked (user_data w) (Py.str uid) url = Some tracked →
  Hashlib.sha256_hexdigest (content response) = tracked_hash tracked →
  check_single_website env url uid w = (Ok tt, add_events [HttpGet url] w).
Proof.
  intros Hget Hst Hlook Hhash. step_check. rewrite Hget; simpl. rewrite Hst; simpl.
  rewrite Hlook. by rewrite Hhash, String.eqb_refl.
Qed.

Lemma check_extract_fails env url uid w response tracked e :
  requests_get env url = Ok response → raise_for_status response = Ok tt →
  lookup_tracked (user_data w) (Py.str uid) url = Some tracked →
  Hashlib.sha256_hexdigest (content response) ≠ tracked_hash tracked →
  extract_files (text response) url = Raise e →
  check_single_website env url uid w
  = (Ok tt, add_events [HttpGet url; LogError e] w).
Proof.
  intros Hget Hst Hlook Hhash Hex. step_check. rewrite Hget; simpl. rewrite Hst; simpl.
  rewrite Hlook. apply String.eqb_neq in Hhash. rewrite Hhash. rewrite Hex. simpl.
  by rewrite add_events_app.
Qed.

Lemma check_changed env url uid w response tracked new_files :
  observes_change env url uid w response tracked new_files →
  let data := store_tracked (user_data w) (Py.str uid) url
                (updated response tracked new_files) in
  ∃ rest,
    check_single_website env url uid w
    = (Ok tt, add_events (HttpGet url :: SaveJson data :: rest)
                (set_user_data data w)) ∧
    Forall (delivery_event env uid (default [] (tracked_files tracked)) new_files)
      rest.
Proof.
  intros (Hget & Hst & Hlook & Hhash & Hex) data. step_check.
  rewrite Hget; simpl. rewrite Hst; simpl. rewrite Hlook.
  apply String.eqb_neq in Hhash. rewrite Hhash. rewrite Hex. simpl.
  fold (updated response tracked new_files). fold data.
  destruct (save_json_error env) as [e|]; simpl.
  { exists [LogError e]. norm_world. split; [done |].
    by repeat constructor. }
  match goal with
  | |- context [send_files ?a ?b ?c ?d ?e ?w0] =>
      destruct (send_files_run a b c e d w0) as (r & evs & Hrun & Hevs);
      rewrite Hrun
  end.
  destruct r as [summary|e]; simpl.
  - destruct summary as [|s summary].
    + exists evs. norm_world. done.
    + simpl. destruct (send_message_error env uid _) as [e|]; simpl;
        norm_world; eexists; (split; [reflexivity |]);
        repeat (apply Forall_app; split); auto; by repeat constructor.
  - exists (evs ++ [LogError e]). norm_world. split; [done |].
    apply Forall_app. split; [done | by repeat constructor].
Qed.

End Facts.

Section Cycle.

Context {lib : UrlLib}.

(** ** The store *)

Lemma lookup_tracked_store data user_str url t :
  lookup_tracked (store_tracked data user_str url t) user_str url = Some t.
Proof.
  unfold lookup_tracked, store_tracked. rewrite lookup_insert_eq. simpl.
  apply lookup_insert_eq.
Qed.

Lemma lookup_tracked_store_ne data user_str url t user_str' url' :
  (user_str', url') ≠ (user_str, url) →
  lookup_tracked (store_tracked data user_str url t) user_str' url'
  = lookup_tracked data user_str' url'.
Proof.
  intros Hne. unfold lookup_tracked, store_tracked.
  destruct (decide (user_str = user_str')) as [<-|Hu].
  - rewrite lookup_insert_eq. simpl.
    rewrite lookup_insert_ne by congruence.
    destruct (data !! user_str); simpl; [done | apply lookup_empty].
  - by rewrite lookup_insert_ne.
Qed.

(** ** The calls of a cycle *)

Lemma cycle_events_of env url uid w r evs d :
  check_single_website env url uid w = (r, add_events evs (set_user_data d w)) →
  cycle_events env url uid w = evs.
Proof.
  intros Hrun. unfold cycle_events, after_cycle. rewrite Hrun. simpl.
  by rewrite drop_app_length.
Qed.

Lemma cycle_events_of_same env url uid w r evs :
  check_single_website env url uid w = (r, add_events evs w) →
  cycle_events env url uid w = evs.
Proof.
  intros Hrun. unfold cycle_events, after_cycle. rewrite Hrun. simpl.
  by rewrite drop_app_length.
Qed.

(** Every cycle takes one of five paths. *)
Lemma check_paths env url uid w :
  (∃ e, check_single_website env url uid w
        = (Ok tt, add_events [HttpGet url; LogError e] w))
  ∨ check_single_website env url uid w = (Ok tt, add_events [HttpGet url] w)
  ∨ ∃ response tracked new_files,
      observes_change env url uid w response tracked new_files.
Proof.
  destruct (requests_get env url) as [response|e] eqn:Hget.
  2: { left. exists e. apply check_fetch_fails. by left. }
  destruct (raise_for_status response) as [[]|e] eqn:Hst.
  2: { left. exists e. apply check_fetch_fails. right. exists response.
       split; [done |]. unfold raise_for_status in Hst.
       destruct (Z.leb_spec 400 (status_code response));
         destruct (Z.ltb_spec (status_code response) 600); simpl in Hst;
         simplify_eq. split; [lia | done]. }
  destruct (lookup_tracked (user_data w) (Py.str uid) url) as [tracked|] eqn:Hlook.
  2: { right; left. eauto using check_not_tracked. }
  destruct (decide (Hashlib.sha256_hexdigest (content response)
                    = tracked_hash tracked)) as [Hhash|Hhash].
  { right; left. eauto using check_unchanged. }
  destruct (extract_files (text response) url) as [new_files|e] eqn:Hex.
  2: { left. exists e. eauto using check_extract_fails. }
  right; right. exists response, tracked, new_files. by repeat split.
Qed.

Lemma observes_change_unique env url uid w r t fs r' t' fs' :
  observes_change env url uid w r t fs →
  observes_change env url uid w r' t' fs' →
  r' = r ∧ t' = t ∧ fs' = fs.
Proof.
  intros (Hget & _ & Hlook & _ & Hex) (Hget' & _ & Hlook' & _ & Hex').
  assert (r' = r) as -> by congruence.
  assert (t' = t) as -> by congruence.
  assert (fs' = fs) as -> by congruence. done.
Qed.

(** A cycle downloads no file whose URL is stored as seen. *)
Lemma cycle_downloads_unseen env url uid w u :
  SessionGet u ∈ cycle_events env url uid w → u ∉ seen w uid url.
Proof.
  destruct (check_paths env url uid w)
    as [[e Hrun] | [Hrun | (response & tracked & new_files & Hch)]].
  - rewrite (cycle_events_of_same _ _ _ _ _ _ Hrun). intros Hin.
    repeat (apply elem_of_cons in Hin as [? | Hin]; [done |]).
    by apply not_elem_of_nil in Hin.
  - rewrite (cycle_events_of_same _ _ _ _ _ _ Hrun). intros Hin.
    repeat (apply elem_of_cons in Hin as [? | Hin]; [done |]).
    by apply not_elem_of_nil in Hin.
  - destruct (check_changed _ _ _ _ _ _ _ Hch) as (rest & Hrun & Hrest).
    rewrite (cycle_events_of _ _ _ _ _ _ _ Hrun).
    intros Hin. apply elem_of_cons in Hin as [? | Hin]; [done |].
    apply elem_of_cons in Hin as [? | Hin]; [done |].
    rewrite Forall_forall in Hrest. apply Hrest in Hin as [Hnot _].
    unfold seen, seen_in. destruct Hch as (_ & _ & -> & _). done.
Qed.

End Cycle.

Section CycleClaims.

Context {lib : UrlLib}.

(** C4. When the hash of the fetched content equals the stored fingerprint the
    cycle does nothing: apart from the page fetch it makes no call (no
    download, no notification, no store write) and leaves the state as it
    was, whatever the page links.  Hence a cycle run a second time on the
    same page, whatever the first one did, writes nothing to the store,
    fetches and sends no file and leaves the seen list as the first one
    left it. *)
Theorem unchanged_cycle_is_noop (env : Env) (url : string) (user_id : Z)
    (w : World) (response : Response) :
  requests_get env url = Ok response →
  raise_for_status response = Ok tt →
  (∀ tracked,
     lookup_tracked (user_data w) (Py.str user_id) url = Some tracked →
     Hashlib.sha256_hexdigest (content response) = tracked_hash tracked →
     check_single_website env url user_id w = (Ok tt, add_events [HttpGet url] w))
  ∧ ∀ env',
      requests_get env' url = Ok response →
      let w1 := after_cycle env url user_id w in
      let w2 := after_cycle env' url user_id w1 in
      user_data w2 = user_data w1 ∧ jobs w2 = jobs w1 ∧
      seen w2 user_id url = seen w1 user_id url ∧
      Forall (fun e => match e with
                       | HttpGet _ | LogError _ => True
                       | _ => False
                       end) (cycle_events env' url user_id w1).
Proof.
  intros Hget Hst. split.
  { intros tracked Hlook Hhash. by apply (check_unchanged _ _ _ _ response tracked). }
  intros env' Hget' w1 w2.
  assert (user_data w2 = user_data w1 ∧ jobs w2 = jobs w1 ∧
          Forall (fun e => match e with
                           | HttpGet _ | LogError _ => True
                           | _ => False
                           end) (cycle_events env' url user_id w1)) as (Hd & Hj & Hev).
  2: { unfold seen. rewrite Hd. done. }
  assert (∀ w0 evs, check_single_website env' url user_id w0 = (Ok tt, add_events evs w0) →
            Forall (fun e => match e with
                             | HttpGet _ | LogError _ => True
                             | _ => False
                             end) evs →
            user_data (after_cycle env' url user_id w0) = user_data w0 ∧
            jobs (after_cycle env' url user_id w0) = jobs w0 ∧
            Forall (fun e => match e with
                             | HttpGet _ | LogError _ => True
                             | _ => False
                             end) (cycle_events env' url user_id w0)) as Hquiet.
  { intros w0 evs Hrun Hevs.
    rewrite (cycle_events_of_same _ _ _ _ _ _ Hrun).
    unfold after_cycle. rewrite Hrun. done. }
  subst w2.
  destruct (lookup_tracked (user_data w) (Py.str user_id) url) as [tracked|] eqn:Hlook.
  2: { assert (w1 = add_events [HttpGet url] w) as Hw1.
       { subst w1. unfold after_cycle.
         by rewrite (check_not_tracked _ _ _ _ _ Hget Hst Hlook). }
       apply (Hquiet w1 [HttpGet url]); [| by repeat constructor].
       apply (check_not_tracked _ _ _ _ response); try done. by rewrite Hw1. }
  destruct (decide (Hashlib.sha256_hexdigest (content response)
                    = tracked_hash tracked)) as [Hhash|Hhash].
  { assert (w1 = add_events [HttpGet url] w) as Hw1.
    { subst w1. unfold after_cycle.
      by rewrite (check_unchanged _ _ _ _ _ _ Hget Hst Hlook Hhash). }
    apply (Hquiet w1 [HttpGet url]); [| by repeat constructor].
    apply (check_unchanged _ _ _ _ response tracked); try done. by rewrite Hw1. }
  destruct (extract_files (text response) url) as [new_files|e] eqn:Hex.
  2: { assert (w1 = add_events [HttpGet url; LogError e] w) as Hw1.
       { subst w1. unfold after_cycle.
         by rewrite (check_extract_fails _ _ _ _ _ _ _ Hget Hst Hlook Hhash Hex). }
       apply (Hquiet w1 [HttpGet url; LogError e]); [| by repeat constructor].
       apply (check_extract_fails _ _ _ _ response tracked); try done.
       by rewrite Hw1. }
  assert (observes_change env url user_id w response tracked new_files) as Hch
    by done.
  destruct (check_changed _ _ _ _ _ _ _ Hch) as (rest & Hrun & _).
  apply (Hquiet w1 [HttpGet url]); [| by repeat constructor].
  apply (check_unchanged _ _ _ _ response (updated response tracked new_files));
    try done.
  subst w1. unfold after_cycle. rewrite Hrun. simpl. apply lookup_tracked_store.
Qed.

(** C8, as the code has it.  A fetch failure, which is the request raising
    (a network error, a timeout) or a response with a 4xx or 5xx status,
    makes the cycle log the error and return: the state is as before and no
    call but the fetch is made.  A response with any other status, success
    or not, is not a failure: when its hash differs from the stored one the
    cycle stores and saves the new hash and file list.  Whatever happens,
    [check_single_website] returns without raising. *)
Theorem fetch_failure_is_contained (env : Env) (url : string) (user_id : Z)
    (w : World) :
  (∀ e, fetch_fails env url e →
        check_single_website env url user_id w
        = (Ok tt, add_events [HttpGet url; LogError e] w))
  ∧ (∀ response tracked new_files,
       requests_get env url = Ok response →
       ¬ (400 <= status_code response < 600) →
       lookup_tracked (user_data w) (Py.str user_id) url = Some tracked →
       Hashlib.sha256_hexdigest (content response) ≠ tracked_hash tracked →
       extract_files (text response) url = Ok new_files →
       let data := store_tracked (user_data w) (Py.str user_id) url
                     (updated response tracked new_files) in
       ∃ rest,
         check_single_website env url user_id w
         = (Ok tt, add_events (HttpGet url :: SaveJson data :: rest)
                     (set_user_data data w)))
  ∧ fst (check_single_website env url user_id w) = Ok tt.
Proof.
  split; [intros e; apply check_fetch_fails |]. split.
  - intros response tracked new_files Hget Hst Hlook Hhash Hex data.
    apply other_status_passes in Hst.
    destruct (check_changed env url user_id w response tracked new_files)
      as (rest & Hrun & _); [done |].
    by exists rest.
  - unfold check_single_website, try_except.
    by destruct (check_body env url user_id w) as [[[]|e] w'].
Qed.

(** C1, as the code has it.  In a cycle that observes a change the new
    fingerprint and the URLs of all extracted files are stored and persisted
    first, before any file is fetched or sent (persist, then fetch, then
    notify); nothing is persisted after it, so the list persisted in the
    cycle is the list of the URLs of all extracted files, delivered or
    not. *)
Theorem persist_precedes_delivery (env : Env) (url : string) (user_id : Z)
    (w : World) (response : Response) (tracked : Tracked) (new_files : list File) :
  observes_change env url user_id w response tracked new_files →
  ∃ data rest,
    check_single_website env url user_id w
    = (Ok tt, add_events (HttpGet url :: SaveJson data :: rest)
                (set_user_data data w)) ∧
    lookup_tracked data (Py.str user_id) url
    = Some (updated response tracked new_files) ∧
    seen_in data user_id url = map file_url new_files ∧
    Forall (fun e => match e with
                     | SaveJson _ | HttpGet _ => False
                     | _ => True
                     end) rest.
Proof.
  intros Hch.
  destruct (check_changed _ _ _ _ _ _ _ Hch) as (rest & Hrun & Hrest).
  eexists _, rest. split; [exact Hrun |].
  split; [apply lookup_tracked_store |].
  split; [unfold seen_in; by rewrite lookup_tracked_store |].
  eapply Forall_impl; [exact Hrest |]. by intros [].
Qed.

(** C2, as the code has it.  A cycle that observes no change leaves the
    store as it is; a cycle that observes one replaces the seen list of its
    target by the URLs extracted from the new page and leaves the lists of
    all other targets alone.  So a URL seen before the cycle is still seen
    after it exactly when no change was observed or the new page links it. *)
Theorem seen_after_cycle (env : Env) (url : string) (user_id : Z) (w : World) :
  let w' := after_cycle env url user_id w in
  (∀ response tracked new_files,
     observes_change env url user_id w response tracked new_files →
     seen w' user_id url = map file_url new_files ∧
     (∀ u, u ∈ seen w user_id url →
           u ∈ seen w' user_id url ↔ u ∈ map file_url new_files) ∧
     ∀ user_str' url', (user_str', url') ≠ (Py.str user_id, url) →
       lookup_tracked (user_data w') user_str' url'
       = lookup_tracked (user_data w) user_str' url')
  ∧ ((¬ ∃ response tracked new_files,
          observes_change env url user_id w response tracked new_files) →
     user_data w' = user_data w).
Proof.
  intros w'. split.
  - intros response tracked new_files Hch.
    destruct (check_changed _ _ _ _ _ _ _ Hch) as (rest & Hrun & _).
    subst w'. unfold after_cycle. rewrite Hrun. simpl.
    assert (seen_in (store_tracked (user_data w) (Py.str user_id) url
                       (updated response tracked new_files)) user_id url
            = map file_url new_files) as Hseen.
    { unfold seen_in. by rewrite lookup_tracked_store. }
    unfold seen. simpl. rewrite Hseen.
    split; [done |]. split; [done |].
    intros user_str' url' Hne. by apply lookup_tracked_store_ne.
  - intros Hno. subst w'. unfold after_cycle.
    destruct (check_paths env url user_id w) as [[e Hrun] | [Hrun | Hch]].
    + by rewrite Hrun.
    + by rewrite Hrun.
    + by destruct Hno.
Qed.

(** C3, as the code has it.  In a cycle that observes a change, a file that
    is over the size bound or whose download fails is not sent (every
    document sent is the download of another file), and the fingerprint is
    set to the hash of the new page; but its URL is stored and persisted as
    seen with all the others, so the next cycle does not fetch it. *)
Theorem undeliverable_file_is_recorded (env : Env) (url : string) (user_id : Z)
    (w : World) (response : Response) (tracked : Tracked)
    (new_files : list File) (f : File) :
  observes_change env url user_id w response tracked new_files →
  f ∈ new_files →
  undeliverable env (file_url f) (Some (file_name f)) →
  let w' := after_cycle env url user_id w in
  (∀ chat filename caption,
     SendDocument chat filename caption ∈ cycle_events env url user_id w →
     ∃ g, g ∈ new_files ∧
          (file_url g, file_name g) ≠ (file_url f, file_name f) ∧
          download_result env (file_url g) (Some (file_name g)) = Some filename ∧
          caption = caption_of g)
  ∧ fingerprint w' user_id url = Some (Hashlib.sha256_hexdigest (content response))
  ∧ file_url f ∈ seen w' user_id url
  ∧ (∃ data, SaveJson data ∈ cycle_events env url user_id w ∧
             file_url f ∈ seen_in data user_id url)
  ∧ ∀ env', SessionGet (file_url f) ∉ cycle_events env' url user_id w'.
Proof.
  intros Hch Hf Hund w'.
  destruct (check_changed _ _ _ _ _ _ _ Hch) as (rest & Hrun & Hrest).
  pose proof (proj1 (undeliverable_no_result _ _ _) Hund) as Hnone.
  assert (seen w' user_id url = map file_url new_files) as Hseen.
  { subst w'. unfold after_cycle, seen, seen_in. rewrite Hrun. simpl.
    by rewrite lookup_tracked_store. }
  assert (file_url f ∈ map file_url new_files) as Hin.
  { apply list_elem_of_fmap. eauto. }
  rewrite (cycle_events_of _ _ _ _ _ _ _ Hrun).
  split; [| split; [| split; [| split]]].
  - intros chat filename caption Hsent.
    apply elem_of_cons in Hsent as [? | Hsent]; [done |].
    apply elem_of_cons in Hsent as [? | Hsent]; [done |].
    rewrite Forall_forall in Hrest.
    apply Hrest in Hsent as [_ (g & Hg & _ & Hres & Hcap)].
    exists g. repeat split; try done. intros Heq.
    injection Heq as Hurl Hname. rewrite Hurl, Hname in Hres. congruence.
  - subst w'. unfold after_cycle, fingerprint. rewrite Hrun. simpl.
    by rewrite lookup_tracked_store.
  - by rewrite Hseen.
  - eexists. split; [right; left |].
    unfold seen_in. by rewrite lookup_tracked_store.
  - intros env' Hget. apply cycle_downloads_unseen in Hget.
    by rewrite Hseen in Hget.
Qed.

End CycleClaims.

(** ** Job identifiers *)

Lemma string_length_app (a b : string) :
  String.length (a +:+ b) = (String.length a + String.length b)%nat.
Proof.
  induction a as [|c a IH]; [done |].
  change (String c a +:+ b) with (String c (a +:+ b)). simpl. by rewrite IH.
Qed.

Lemma string_app_inj (a a' b b' : string) :
  String.length b = String.length b' →
  a +:+ b = a' +:+ b' → a = a' ∧ b = b'.
Proof.
  revert a'. induction a as [|c a IH]; intros [|c' a'] Hlen Heq; simpl in *.
  - done.
  - apply (f_equal String.length) in Heq.
    rewrite !string_length_app in Heq. simpl in Heq. lia.
  - apply (f_equal String.length) in Heq.
    rewrite !string_length_app in Heq. simpl in Heq. lia.
  - change (String c a +:+ b) with (String c (a +:+ b)) in Heq.
    change (String c' a' +:+ b') with (String c' (a' +:+ b')) in Heq.
    injection Heq as -> Heq. destruct (IH a' Hlen Heq) as [-> ->]. done.
Qed.

Lemma md5_digest_length (msg : list Z) : length (Hashlib.md5_digest msg) = 16%nat.
Proof.
  unfold Hashlib.md5_digest.
  by destruct (fold_left Hashlib.md5_block _ _) as [[[a b] c] d].
Qed.

Lemma take_length (n : nat) (s : string) :
  String.length (Py.take n s) = Nat.min n (String.length s).
Proof.
  unfold Py.take. revert s. induction n as [|n IH]; intros [|c s]; simpl; try done.
  by rewrite IH.
Qed.

Lemma hex_of_bytes_length (bs : list Z) :
  String.length (Hashlib.hex_of_bytes bs) = (2 * length bs)%nat.
Proof.
  unfold Hashlib.hex_of_bytes. induction bs as [|b bs IH]; simpl; [done |].
  rewrite IH. lia.
Qed.

Lemma take6_hex_length (bs : list Z) :
  length bs = 16%nat →
  String.length (Py.take 6 (Hashlib.hex_of_bytes bs)) = 6%nat.
Proof. intros Hlen. by rewrite take_length, hex_of_bytes_length, Hlen. Qed.

Lemma job_id_inj (chat chat' : Z) (url url' : string) :
  job_id_of chat url = job_id_of chat' url' → chat = chat'.
Proof.
  unfold job_id_of. intros Heq.
  apply string_app_inj in Heq as [Heq _].
  - unfold Py.str in Heq. by apply (inj pretty) in Heq.
  - rewrite !string_length_app. unfold Hashlib.md5_hexdigest.
    by rewrite !take6_hex_length by apply md5_digest_length.
Qed.

Lemma str_inj (chat chat' : Z) : Py.str chat = Py.str chat' → chat = chat'.
Proof. unfold Py.str. apply (inj pretty). Qed.

Section Commands.

Context {lib : UrlLib}.

Ltac step_cmd :=
  unfold track, untrack, track_body, untrack_body, save_json, reply_text,
    reply_error, add_job, remove_job, call, try_except, bind, emit, lift, ret, raise,
    get_user_data, put_user_data, get_jobs, put_jobs, outcome, or_raise in *;
  simpl in *.

(** ** track *)

Lemma track_body_accepted env message w w' :
  track_body env message w = (Ok tt, w') ↔
  ∃ url interval night_mode,
    parses message url interval night_mode ∧
    served env message url interval ∧
    w' = add_events
           [SaveJson (user_data (tracked_world message url interval night_mode w));
            ReplyText ("Now tracking " +:+ url +:+ " every "
                       +:+ Py.str interval +:+ " minutes")]
           (tracked_world message url interval night_mode w).
Proof.
  unfold parses, served, tracked_world, job_of, fresh_target. split.
  - step_cmd. intros Hrun.
    repeat (case_match; simpl in *; simplify_eq).
    all: do 3 eexists; split; [eauto |]; split; [eauto |]; norm_world.
    all: match goal with H : Py.mem _ _ = _ |- _ => by rewrite H end.
  - intros (url & interval & night & (Hurl & (a & Ha & Hint) & ->)
            & (Htrig & Hadd & Hsave & Hreply) & ->).
    step_cmd. rewrite Hurl, Ha, Hint. simpl. rewrite Htrig. simpl.
    rewrite Hadd. simpl. rewrite Hsave. simpl. rewrite Hreply. simpl.
    norm_world. by destruct (Py.mem "night" _).
Qed.

(** [track] leaves the state as it was or as an accepted request leaves it. *)
Lemma track_state env message w :
  let w' := snd (track env message w) in
  (user_data w' = user_data w ∧ jobs w' = jobs w)
  ∨ ∃ url interval night_mode,
      Py.index (Py.split (message_text message)) 1 = Some url ∧
      user_data w' = user_data (tracked_world message url interval night_mode w) ∧
      jobs w' = jobs (tracked_world message url interval night_mode w).
Proof.
  unfold tracked_world, job_of, fresh_target. step_cmd.
  repeat (case_match; simpl in *; simplify_eq); auto.
  all: right; do 3 eexists; split; [eauto |]; simpl.
  all: split; reflexivity.
Qed.

(** ** untrack *)

Lemma untrack_state env message w :
  let w' := snd (untrack env message w) in
  let user_str := Py.str (chat_id message) in
  (user_data w' = user_data w ∧ jobs w' = jobs w)
  ∨ ∃ url t job,
      lookup_tracked (user_data w) user_str url = Some t ∧
      jobs w !! job_id_of (chat_id message) url = Some job ∧
      user_data w'
      = <[user_str := delete url (default ∅ (user_data w !! user_str))]>
          (user_data w) ∧
      jobs w' = delete (job_id_of (chat_id message) url) (jobs w).
Proof.
  step_cmd.
  repeat (case_match; simpl in *; simplify_eq); auto.
  all: right; do 3 eexists; eauto.
Qed.

Lemma lookup_tracked_delete data user_str url user_str' url' :
  lookup_tracked
    (<[user_str := delete url (default ∅ (data !! user_str))]> data)
    user_str' url'
  = if decide ((user_str', url') = (user_str, url)) then None
    else lookup_tracked data user_str' url'.
Proof.
  unfold lookup_tracked. case_decide as Heq.
  - injection Heq as -> ->. rewrite lookup_insert_eq. simpl.
    apply lookup_delete_eq.
  - destruct (decide (user_str = user_str')) as [<-|Hu].
    + rewrite lookup_insert_eq. simpl. rewrite lookup_delete_ne by congruence.
      destruct (data !! user_str); simpl; [done | apply lookup_empty].
    + by rewrite lookup_insert_ne.
Qed.

(** ** One job per target *)

Lemma empty_world_one_job : one_job_per_target empty_world.
Proof.
  split.
  - intros chat url t. unfold lookup_tracked. simpl. by rewrite lookup_empty.
  - intros id job. simpl. by rewrite lookup_empty.
Qed.

Lemma one_job_same_state w w' :
  user_data w' = user_data w → jobs w' = jobs w →
  one_job_per_target w → one_job_per_target w'.
Proof. unfold one_job_per_target. by intros -> ->. Qed.

Lemma track_keeps_one_job env message w :
  (∀ url, Py.index (Py.split (message_text message)) 1 = Some url →
          ¬ collides w (chat_id message) url) →
  one_job_per_target w → one_job_per_target (snd (track env message w)).
Proof.
  intros Hfree [Htargets Hjobs].
  destruct (track_state env message w)
    as [[Hd Hj] | (url & interval & night & Hurl & Hd & Hj)].
  { by apply (one_job_same_state w). }
  specialize (Hfree url Hurl).
  set (chat := chat_id message) in *.
  unfold one_job_per_target. rewrite Hd, Hj. simpl. split.
  - intros chat' url' t Hlook.
    destruct (decide ((Py.str chat', url') = (Py.str chat, url))) as [Heq|Hne].
    + injection Heq as Hc ->. apply str_inj in Hc as ->.
      rewrite lookup_insert_eq. by eexists.
    + rewrite lookup_tracked_store_ne in Hlook by done.
      destruct (Htargets _ _ _ Hlook) as (job & Hjob & Hu & Hc).
      exists job. split; [| done].
      rewrite lookup_insert_ne; [done |]. intros Hid.
      assert (chat = chat') as <- by (by apply job_id_inj in Hid).
      apply Hfree. exists url', t. split; [congruence | done].
  - intros id job Hjob.
    destruct (decide (id = job_id_of chat url)) as [->|Hid].
    + rewrite lookup_insert_eq in Hjob. injection Hjob as <-. simpl.
      split; [done |]. rewrite lookup_tracked_store. by eexists.
    + rewrite lookup_insert_ne in Hjob by done.
      destruct (Hjobs _ _ Hjob) as [Heq Htracked]. split; [done |].
      destruct (decide ((Py.str (job_user_id job), job_url job)
                        = (Py.str chat, url))) as [Hsame|Hne].
      * injection Hsame as -> ->. rewrite lookup_tracked_store. by eexists.
      * by rewrite lookup_tracked_store_ne.
Qed.

Lemma untrack_keeps_one_job env message w :
  one_job_per_target w → one_job_per_target (snd (untrack env message w)).
Proof.
  intros [Htargets Hjobs].
  destruct (untrack_state env message w)
    as [[Hd Hj] | (url & t & job & Hlook & Hjob & Hd & Hj)].
  { by apply (one_job_same_state w). }
  set (chat := chat_id message) in *.
  destruct (Htargets _ _ _ Hlook) as (job0 & Hjob0 & Hu0 & Hc0).
  unfold one_job_per_target. rewrite Hd, Hj. split.
  - intros chat' url' t' Hlook'. rewrite lookup_tracked_delete in Hlook'.
    case_decide as Hne; [done |].
    destruct (Htargets _ _ _ Hlook') as (job' & Hjob' & Hu' & Hc').
    exists job'. split; [| done].
    rewrite lookup_delete_ne; [done |]. intros Hid.
    rewrite <- Hid in Hjob'. rewrite Hjob0 in Hjob'. injection Hjob' as <-.
    apply Hne. congruence.
  - intros id job' Hjob'.
    destruct (decide (id = job_id_of chat url)) as [->|Hid].
    { by rewrite lookup_delete_eq in Hjob'. }
    rewrite lookup_delete_ne in Hjob' by done.
    destruct (Hjobs _ _ Hjob') as [Heq Htracked]. split; [done |].
    rewrite lookup_tracked_delete. case_decide as Hsame; [| done].
    injection Hsame as Hc Hu. apply str_inj in Hc. congruence.
Qed.

Lemma poll_keeps_one_job env url uid w :
  one_job_per_target w →
  one_job_per_target (snd (check_single_website env url uid w)).
Proof.
  intros [Htargets Hjobs].
  destruct (check_paths env url uid w)
    as [[e Hrun] | [Hrun | (response & tracked & new_files & Hch)]];
    try (rewrite Hrun; by split).
  destruct (check_changed _ _ _ _ _ _ _ Hch) as (rest & Hrun & _).
  rewrite Hrun. destruct Hch as (_ & _ & Hlook & _).
  assert (∀ us u, is_Some (lookup_tracked
                             (store_tracked (user_data w) (Py.str uid) url
                                (updated response tracked new_files)) us u)
                  ↔ is_Some (lookup_tracked (user_data w) us u)) as Hsame.
  { intros us u. destruct (decide ((us, u) = (Py.str uid, url))) as [Heq|Hne].
    - injection Heq as -> ->. rewrite lookup_tracked_store, Hlook.
      split; by eexists.
    - by rewrite lookup_tracked_store_ne. }
  split; simpl.
  - intros chat url' t Hlook'.
    assert (is_Some (lookup_tracked (user_data w) (Py.str chat) url')) as [t' Ht'].
    { apply Hsame. by eexists. }
    eauto.
  - intros id job Hjob. destruct (Hjobs _ _ Hjob) as [Heq Htracked].
    split; [done |]. by apply Hsame.
Qed.

End Commands.

Section Extraction.

Context {lib : UrlLib}.

(** ** extract_files *)

Lemma truthy_spec (o : option string) :
  Py.truthy o = true ↔ ∃ s, o = Some s ∧ s ≠ "".
Proof.
  destruct o as [[|c s]|]; simpl; split; try done.
  - intros (s & Heq & Hne). by simplify_eq.
  - intros _. by eexists.
  - intros (s & Heq & _). done.
Qed.

Lemma allowed_spec (url : string) : allowed url = true ↔ has_allowed_suffix url.
Proof.
  unfold allowed, has_allowed_suffix. rewrite existsb_exists.
  split; intros (ext & Hin & Hend); exists ext; split; try done;
    by apply list_elem_of_In.
Qed.

Lemma file_of_name (tag : Tag) (url : string) :
  file_name (file_of tag url) = display_name tag url.
Proof.
  unfold file_of, display_name, Py.or_else. simpl.
  destruct (tag_alt tag) as [[|c s]|]; simpl; try done;
    by destruct (tag_title tag) as [[|c' s']|].
Qed.

Lemma extract_tags_spec (base_url : string) (tags : list Tag) : ∀ files,
  extract_tags tags base_url = Ok files →
  ∀ f, f ∈ files ↔
       ∃ tag ref, tag ∈ tags ∧
                  Py.or_else (tag_href tag) (tag_src tag) = Some ref ∧ ref ≠ "" ∧
                  urljoin base_url ref = Ok (file_url f) ∧
                  allowed (file_url f) = true ∧
                  f = file_of tag (file_url f).
Proof.
  induction tags as [|tag tags IH]; intros files Hrun f; simpl in Hrun.
  { simplify_eq. split; [by intros ?%not_elem_of_nil |].
    by intros (? & ? & ?%not_elem_of_nil & _). }
  assert (∀ files', extract_tags tags base_url = Ok files' →
            (∀ ref url, Py.or_else (tag_href tag) (tag_src tag) = Some ref →
               ref ≠ "" → urljoin base_url ref = Ok url → allowed url = false) →
            f ∈ files' ↔
            ∃ tag0 ref, tag0 ∈ tag :: tags ∧
                        Py.or_else (tag_href tag0) (tag_src tag0) = Some ref ∧
                        ref ≠ "" ∧ urljoin base_url ref = Ok (file_url f) ∧
                        allowed (file_url f) = true ∧
                        f = file_of tag0 (file_url f)) as Hskip.
  { intros files' Hrest Hnot. rewrite (IH _ Hrest). split.
    - intros (tag0 & ref & Hin & Hrest'). exists tag0, ref. split; [by right | done].
    - intros (tag0 & ref & Hin & Href & Hne & Hjoin & Hall & Hf).
      apply elem_of_cons in Hin as [-> | Hin]; [| by eauto 10].
      rewrite (Hnot _ _ Href Hne Hjoin) in Hall. done. }
  destruct (Py.truthy (Py.or_else (tag_href tag) (tag_src tag))) eqn:Htruthy; simpl in Hrun.
  2: { apply Hskip; [done |]. intros ref url Href Hne _.
       assert (Py.truthy (Py.or_else (tag_href tag) (tag_src tag)) = true)
         by (apply truthy_spec; eauto). congruence. }
  apply truthy_spec in Htruthy as (ref & Href & Hne).
  rewrite Href in Hrun. simpl in Hrun.
  destruct (urljoin base_url ref) as [url|e] eqn:Hjoin; [| done].
  destruct (allowed url) eqn:Hall; simpl in Hrun.
  2: { apply Hskip; [done |]. intros ref' url' Href' _ Hjoin'.
       rewrite Href in Href'. simplify_eq. congruence. }
  destruct (extract_tags tags base_url) as [rest|e] eqn:Hrest; [| done].
  simplify_eq. rewrite elem_of_cons, (IH _ eq_refl). split.
  - intros [-> | (tag0 & ref0 & Hin & Hrest')].
    + exists tag, ref. simpl. repeat split; try done. by left.
    + exists tag0, ref0. split; [by right | done].
  - intros (tag0 & ref0 & Hin & Href0 & Hne0 & Hjoin0 & Hall0 & Hf).
    apply elem_of_cons in Hin as [-> | Hin]; [| right; by eauto 10].
    left. rewrite Href in Href0. simplify_eq. rewrite Hjoin in Hjoin0.
    simplify_eq. done.
Qed.

Lemma extract_tags_total (base_url : string) (tags : list Tag) :
  (∀ tag ref, tag ∈ tags → Py.or_else (tag_href tag) (tag_src tag) = Some ref →
              ∃ url, urljoin base_url ref = Ok url) →
  ∃ files, extract_tags tags base_url = Ok files.
Proof.
  induction tags as [|tag tags IH]; intros Hok; simpl; [by eexists |].
  destruct IH as [files Hfiles].
  { intros t r Hin. apply (Hok t). by right. }
  destruct (Py.truthy _) eqn:Htruthy; simpl; [| by eexists].
  apply truthy_spec in Htruthy as (ref & Href & _). rewrite Href. simpl.
  destruct (Hok tag ref) as [url ->]; [by left | done |].
  rewrite Hfiles. destruct (allowed url); simpl; by eexists.
Qed.

Lemma type_of_url_cases (url : string) :
  type_of_url url ∈ ["document"; "image"; "audio"; "video"].
Proof.
  unfold type_of_url. repeat case_match; set_solver.
Qed.

(** C5, as the code has it.  [extract_files] keeps exactly the links of the
    scanned elements whose reference, resolved against the base URL by
    [urljoin], is a URL that ends, lowercased, with an extension of the
    allow-list, which is the four lists document, image, audio and video
    put together without repetition; each file gets one of these four types
    and has as name the [alt] attribute, or else the [title] attribute, or
    else what follows the last slash of the resolved URL; and a list is
    returned whenever [urljoin] raises on no reference. *)
Theorem extract_files_keeps_allowed_suffix (html : Html) (base_url : string) :
  (∀ files, extract_files html base_url = Ok files →
     ∀ f, f ∈ files ↔
          ∃ tag, tag ∈ html ∧ refers_to base_url tag (file_url f) ∧
                 has_allowed_suffix (file_url f) ∧
                 file_name f = display_name tag (file_url f) ∧
                 file_type f = type_of_url (file_url f))
  ∧ (∀ url, type_of_url url ∈ ["document"; "image"; "audio"; "video"])
  ∧ ALLOWED_EXTS = DOCUMENT_EXTS ++ IMAGE_EXTS ++ AUDIO_EXTS ++ VIDEO_EXTS
  ∧ NoDup ALLOWED_EXTS
  ∧ ((∀ tag ref, tag ∈ html →
        Py.or_else (tag_href tag) (tag_src tag) = Some ref →
        ∃ url, urljoin base_url ref = Ok url) →
     ∃ files, extract_files html base_url = Ok files).
Proof.
  split; [| split; [apply type_of_url_cases | split; [done | split]]].
  - intros files Hrun f. unfold extract_files in Hrun.
    rewrite (extract_tags_spec _ _ _ Hrun). unfold refers_to, find_all. split.
    + intros (tag & ref & Hin & Href & Hne & Hjoin & Hall & Hf).
      apply list_elem_of_filter in Hin as [Hname Hin].
      exists tag. split; [done |]. split.
      { split; [by apply mem_elem_of, Is_true_true | eauto]. }
      split; [by apply allowed_spec |].
      rewrite Hf at 1 3. simpl. by rewrite <- file_of_name.
    + intros (tag & Hin & [Hname (ref & Href & Hne & Hjoin)] & Hall & Hn & Ht).
      exists tag, ref. split.
      { apply list_elem_of_filter. split; [| done].
        by apply Is_true_true, mem_elem_of. }
      repeat split; try done; [by apply allowed_spec |].
      destruct f as [n u t]. simpl in *. unfold file_of.
      rewrite Hn, Ht. f_equal. symmetry. apply file_of_name.
  - apply NoDup_ListNoDup. vm_compute.
    repeat (constructor; [intros Hin; simpl in Hin; intuition discriminate |]).
    constructor.
  - intros Hok. unfold extract_files. apply extract_tags_total.
    intros tag ref Hin. apply (Hok tag). unfold find_all in Hin.
    by apply list_elem_of_filter in Hin as [_ Hin].
Qed.

End Extraction.

Section CommandClaims.

Context {lib : UrlLib}.

Lemma one_job_step (w : World) (c : Command) :
  match c with
  | Track _ message =>
      ∀ url, Py.index (Py.split (message_text message)) 1 = Some url →
             ¬ collides w (chat_id message) url
  | _ => True
  end →
  one_job_per_target w → one_job_per_target (step w c).
Proof.
  destruct c as [env message | env message | env url uid]; simpl; intros Hfree.
  - by apply track_keeps_one_job.
  - apply untrack_keeps_one_job.
  - apply poll_keeps_one_job.
Qed.

(** C6, as the code has it.  An accepted track request stores, and registers
    its job with, the integer its second argument reads as; and a request
    whose second argument reads as an integer is accepted whenever nothing
    outside fails, whatever that integer is: no minimum is checked. *)
Theorem track_interval_unchecked (env : Env) (message : Message) (w : World) :
  (∀ w', track_body env message w = (Ok tt, w') →
     ∃ url interval night_mode,
       parses message url interval night_mode ∧
       lookup_tracked (user_data w') (Py.str (chat_id message)) url
       = Some (fresh_target interval night_mode) ∧
       jobs w' !! job_id_of (chat_id message) url
       = Some (job_of (chat_id message) url interval night_mode))
  ∧ (∀ url interval night_mode,
       parses message url interval night_mode →
       served env message url interval →
       ∃ w', track_body env message w = (Ok tt, w')).
Proof.
  split.
  - intros w' Hrun.
    apply track_body_accepted in Hrun as (url & interval & night & Hp & _ & ->).
    exists url, interval, night. split; [done |]. simpl. split.
    + apply lookup_tracked_store.
    + apply lookup_insert_eq.
  - intros url interval night Hp Hs. eexists.
    apply track_body_accepted. by exists url, interval, night.
Qed.

(** C7, as the code has it.  The job of a target is registered under an
    identifier computed from the chat and the URL alone; an accepted track
    request puts its job and its entry in the place of those the same chat
    and URL had, so that neither table grows when they were there; and every
    tracked target has exactly its own job, at every moment of a run from a
    state where that holds, as long as no track request names a URL whose
    identifier another tracked URL of the chat shares. *)
Theorem one_job_per_target_without_collision :
  (∀ env message w w',
     track_body env message w = (Ok tt, w') →
     ∃ url interval night_mode,
       parses message url interval night_mode ∧
       jobs w' = <[job_id_of (chat_id message) url :=
                     job_of (chat_id message) url interval night_mode]> (jobs w) ∧
       user_data w' = store_tracked (user_data w) (Py.str (chat_id message)) url
                        (fresh_target interval night_mode) ∧
       (is_Some (jobs w !! job_id_of (chat_id message) url) →
        size (jobs w') = size (jobs w)))
  ∧ (∀ cs w, one_job_per_target w → collision_free cs w →
             one_job_per_target (run cs w)).
Proof.
  split.
  - intros env message w w' Hrun.
    apply track_body_accepted in Hrun as (url & interval & night & Hp & _ & ->).
    exists url, interval, night. simpl.
    split; [done |]. split; [done |]. split; [done |].
    intros [job Hjob]. by eapply map_size_insert_Some.
  - intros cs. induction cs as [|c cs IH]; intros w Hinv Hfree; [done |].
    destruct Hfree as [Hc Hrest]. simpl. apply IH; [| done].
    by apply one_job_step.
Qed.

End CommandClaims.

Section Restart.

Context {lib : UrlLib}.

(** ** Restart *)

Lemma last_saved_app data evs d :
  last_saved data (evs ++ [SaveJson d]) = d.
Proof.
  revert data. induction evs as [|e evs IH]; intros data; simpl; [done |].
  destruct e; apply IH.
Qed.

Lemma last_saved_app_reply data evs d text :
  last_saved data (evs ++ [SaveJson d; ReplyText text]) = d.
Proof.
  revert data. induction evs as [|e evs IH]; intros data; simpl; [done |].
  destruct e; apply IH.
Qed.

Lemma track_registered (r : Registration) (w : World) :
  registered r →
  ∃ text,
    snd (track (reg_env r) (reg_message r) w)
    = add_events
        [SaveJson (user_data (tracked_world (reg_message r) (reg_url r)
                                (reg_interval r) (reg_night_mode r) w));
         ReplyText text]
        (tracked_world (reg_message r) (reg_url r) (reg_interval r)
           (reg_night_mode r) w).
Proof.
  intros [Hp Hs]. eexists. unfold track, try_except.
  assert (∃ w', track_body (reg_env r) (reg_message r) w = (Ok tt, w')) as [w' Hrun].
  { eexists. apply track_body_accepted. eauto 10. }
  rewrite Hrun. simpl.
  apply track_body_accepted in Hrun as (url & interval & night & Hp' & _ & ->).
  destruct Hp as (Hu & (a & Ha & Hi) & Hn), Hp' as (Hu' & (a' & Ha' & Hi') & Hn').
  assert (url = reg_url r) as -> by congruence.
  assert (a' = a) as -> by congruence.
  assert (interval = reg_interval r) as -> by congruence.
  assert (night = reg_night_mode r) as -> by congruence.
  reflexivity.
Qed.

Lemma registering_run (rs : list Registration) :
  Forall registered rs →
  NoDup (map reg_job_id rs) →
  let w := run (registering rs) empty_world in
  size (jobs w) = length rs ∧
  (∀ id, is_Some (jobs w !! id) → id ∈ map reg_job_id rs) ∧
  persisted w = user_data w ∧
  Forall (rearmed w) rs.
Proof.
  induction rs as [|r rs IH] using rev_ind; intros Hreg Hnodup.
  { simpl. repeat split; try done.
    intros id [job Hjob]. simpl in Hjob. by rewrite lookup_empty in Hjob. }
  apply Forall_app in Hreg as [Hreg Hr]. apply Forall_cons in Hr as [Hr _].
  rewrite map_app in Hnodup. apply NoDup_app in Hnodup as (Hnodup & Hfresh & _).
  destruct (IH Hreg Hnodup) as (Hsize & Hdom & Hsaved & Hall). clear IH.
  unfold registering, run. rewrite map_app, fold_left_app. simpl.
  fold (registering rs). fold (run (registering rs) empty_world).
  set (w := run (registering rs) empty_world) in *.
  destruct (track_registered r w Hr) as [text ->].
  set (chat := chat_id (reg_message r)).
  assert (jobs w !! reg_job_id r = None) as Hnone.
  { destruct (jobs w !! reg_job_id r) as [job|] eqn:Hjob; [| done].
    exfalso. apply (Hfresh (reg_job_id r)); [apply Hdom; by eexists |].
    simpl. by left. }
  split; [| split; [| split]].
  - simpl. rewrite map_size_insert_None by done. rewrite length_app. simpl. lia.
  - intros id [job Hjob]. simpl in Hjob. rewrite map_app.
    apply elem_of_app. destruct (decide (id = reg_job_id r)) as [->|Hne].
    + right. simpl. by left.
    + left. apply Hdom. unfold reg_job_id in Hne.
      rewrite lookup_insert_ne in Hjob by done. by eexists.
  - unfold persisted. simpl. apply last_saved_app_reply.
  - apply Forall_app. split.
    + eapply Forall_impl; [exact Hall |]. intros r' [Hjob Hlook].
      assert (reg_job_id r' ≠ reg_job_id r) as Hne.
      { intros Heq. rewrite <- Heq in Hnone. congruence. }
      split; simpl.
      * rewrite lookup_insert_ne; [done |]. intros Heq. apply Hne.
        by unfold reg_job_id.
      * rewrite lookup_tracked_store_ne; [done |]. intros Heq.
        injection Heq as Hc Hu. apply str_inj in Hc. apply Hne.
        unfold reg_job_id. by rewrite Hc, Hu.
    + apply Forall_cons. split; [| done]. split; simpl.
      * apply lookup_insert_eq.
      * apply lookup_tracked_store.
Qed.

(** C9, as the code has it.  After N accepted track requests whose job
    identifiers are all different, and a restart, there are exactly N jobs,
    each with the interval and the night mode of its request, and the store
    read back holds the N targets: no request has to be issued again. *)
Theorem restart_rearms_registered_jobs (rs : list Registration) :
  Forall registered rs →
  NoDup (map reg_job_id rs) →
  let w := restart (run (registering rs) empty_world) in
  size (jobs w) = length rs ∧ Forall (rearmed w) rs.
Proof.
  intros Hreg Hnodup w.
  destruct (registering_run rs Hreg Hnodup) as (Hsize & _ & Hsaved & Hall).
  subst w. unfold restart. split; [done |].
  eapply Forall_impl; [exact Hall |]. intros r [Hjob Hlook].
  split; [done |]. simpl. by rewrite Hsaved.
Qed.

End Restart.

(** * The properties on concrete inputs *)

Section Examples.

Existing Instance cpython.

(** ** The library ports agree with CPython on test vectors *)

Example md5_abc :
  Hashlib.md5_hexdigest "abc" = "900150983cd24fb0d6963f7d28e17f72".
Proof. vm_compute. reflexivity. Qed.

Example sha256_abc :
  Hashlib.sha256_hexdigest "abc"
  = "ba7816bf8f01cfea414140de5dae2223b00361a396177a9cb410ff61f20015ad".
Proof. vm_compute. reflexivity. Qed.

Example sha256_two_blocks :
  Hashlib.sha256_hexdigest
    "abcdbcdecdefdefgefghfghighijhijkijkljklmklmnlmnomnopnopq"
  = "248d6a61d20638b8e5c026930c3e6039a33ce45964ff2167f6ecedd419db06c1".
Proof. vm_compute. reflexivity. Qed.

Example urljoin_relative :
  Urllib.urljoin "http://h/dir/page.html" "../files/a.pdf" = "http://h/files/a.pdf".
Proof. vm_compute. reflexivity. Qed.

Example urlparse_path_query :
  Urllib.urlparse_path "http://h/download.php?file=report.pdf" = "/download.php".
Proof. vm_compute. reflexivity. Qed.

(** ** A first poll that goes well *)

Example first_poll_delivers :
  let w := tracking site never_polled in
  let w' := after_cycle env_c4 site 42 w in
  cycle_events env_c4 site 42 w
  = [HttpGet site; SaveJson (user_data w'); SessionGet D1;
     WriteFile "D1.pdf.pdf"; SendDocument 42 "D1.pdf.pdf" "D1.pdf (document)";
     RemoveFile "D1.pdf.pdf";
     SendMessage 42
       ("Website updated: http://h/" +:+ String "010" "New files:"
        +:+ String "010" "D1.pdf (document)")]
  ∧ fingerprint w' 42 site = Some (Hashlib.sha256_hexdigest "B1")
  ∧ seen w' 42 site = [D1].
Proof. vm_compute. repeat split; reflexivity. Qed.

(** ** C1 *)

(** The URL of a file whose sending raised is persisted as seen, and the
    store is written before the file is fetched and sent. *)
Lemma persisted_before_delivery_confirmed :
  let w := tracking site never_polled in
  let w' := after_cycle env_c1 site 42 w in
  cycle_events env_c1 site 42 w
  = [HttpGet site; SaveJson (user_data w'); SessionGet D1;
     WriteFile "D1.pdf.pdf"; SendDocument 42 "D1.pdf.pdf" "D1.pdf (document)";
     LogError (OtherError "FloodWait")]
  ∧ seen w 42 site = []
  ∧ seen_in (user_data w') 42 site = [D1].
Proof. vm_compute. repeat split; reflexivity. Qed.

Lemma persist_precedes_delivery_witness :
  let w := tracking site never_polled in
  let response := page "B1" [link D1] in
  let new_files := [pdf D1] in
  observes_change env_c1 site 42 w response never_polled new_files
  ∧ ∃ data rest,
      check_single_website env_c1 site 42 w
      = (Ok tt, add_events (HttpGet site :: SaveJson data :: rest)
                  (set_user_data data w)) ∧
      lookup_tracked data (Py.str 42) site
      = Some (updated response never_polled new_files) ∧
      seen_in data 42 site = map file_url new_files ∧
      Forall (fun e => match e with
                       | SaveJson _ | HttpGet _ => False
                       | _ => True
                       end) rest.
Proof.
  intros w response new_files.
  assert (observes_change env_c1 site 42 w response never_polled new_files) as H.
  { repeat split; try (vm_compute; reflexivity). vm_compute. discriminate. }
  split; [exact H |].
  exact (persist_precedes_delivery env_c1 site 42 w response never_polled new_files H).
Defined.

(** ** C2 *)

(** A URL seen before the cycle is gone after it: the new page does not
    link it. *)
Lemma seen_list_shrinks :
  let w := tracking site (polled "B1" [D1]) in
  let w' := after_cycle env_c2 site 42 w in
  seen w 42 site = [D1] ∧ seen w' 42 site = [D2] ∧ (D1 ∉ seen w' 42 site).
Proof.
  vm_compute. repeat split; try reflexivity.
  intros Hin. apply list_elem_of_In in Hin. simpl in Hin. intuition discriminate.
Qed.

Lemma seen_after_cycle_witness :
  let w := tracking site (polled "B1" [D1]) in
  let w' := after_cycle env_c2 site 42 w in
  observes_change env_c2 site 42 w (page "B2" [link D2]) (polled "B1" [D1]) [pdf D2]
  ∧ seen w' 42 site = map file_url [pdf D2].
Proof.
  intros w w'.
  assert (observes_change env_c2 site 42 w (page "B2" [link D2])
            (polled "B1" [D1]) [pdf D2]) as H.
  { repeat split; try (vm_compute; reflexivity). vm_compute. discriminate. }
  split; [exact H |].
  exact (proj1 (proj1 (seen_after_cycle env_c2 site 42 w) _ _ _ H)).
Defined.

(** ** C3 *)

(** A file over the size bound is not sent, yet its URL is stored and
    persisted as seen. *)
Lemma oversize_file_is_marked_seen :
  let w := tracking site never_polled in
  let w' := after_cycle env_c3 site 42 w in
  undeliverable env_c3 D3 (Some "D3.pdf")
  ∧ cycle_events env_c3 site 42 w
    = [HttpGet site; SaveJson (user_data w'); SessionGet D3]
  ∧ fingerprint w' 42 site = Some (Hashlib.sha256_hexdigest "B3")
  ∧ seen_in (user_data w') 42 site = [D3].
Proof.
  split.
  { right; right; left. exists (file_of_size (Some "52428800") 52428800), 52428800.
    split; [vm_compute; reflexivity |].
    split; vm_compute; reflexivity. }
  vm_compute. repeat split; reflexivity.
Qed.

(** So is a file whose download breaks after a 200 response. *)
Example broken_download_is_marked_seen :
  let w := tracking site never_polled in
  let w' := after_cycle env_broken site 42 w in
  undeliverable env_broken D3 (Some "D3.pdf")
  ∧ cycle_events env_broken site 42 w
    = [HttpGet site; SaveJson (user_data w'); SessionGet D3;
       WriteFile "D3.pdf.pdf"; LogError (OtherError "connection reset")]
  ∧ seen_in (user_data w') 42 site = [D3].
Proof.
  split.
  { left. exists (OtherError "connection reset"). right. eexists.
    split; [vm_compute; reflexivity |]. split; [reflexivity |].
    right. exists 0. split; [reflexivity |]. split; [vm_compute; discriminate |].
    right. exists "/D3.pdf". split; [vm_compute; reflexivity |].
    left. reflexivity. }
  vm_compute. repeat split; reflexivity.
Qed.

Lemma undeliverable_file_is_recorded_witness :
  let w := tracking site never_polled in
  let w' := after_cycle env_c3 site 42 w in
  observes_change env_c3 site 42 w (page "B3" [link D3]) never_polled [pdf D3]
  ∧ pdf D3 ∈ [pdf D3]
  ∧ undeliverable env_c3 (file_url (pdf D3)) (Some (file_name (pdf D3)))
  ∧ file_url (pdf D3) ∈ seen w' 42 site
  ∧ ∀ env', SessionGet (file_url (pdf D3)) ∉ cycle_events env' site 42 w'.
Proof.
  intros w w'.
  assert (observes_change env_c3 site 42 w (page "B3" [link D3]) never_polled
            [pdf D3]) as H.
  { repeat split; try (vm_compute; reflexivity). vm_compute. discriminate. }
  assert (pdf D3 ∈ [pdf D3]) as Hin by (by left).
  assert (undeliverable env_c3 (file_url (pdf D3)) (Some (file_name (pdf D3)))) as Hu.
  { right; right; left. exists (file_of_size (Some "52428800") 52428800), 52428800.
    split; [vm_compute; reflexivity |].
    split; vm_compute; reflexivity. }
  split; [exact H |]. split; [exact Hin |]. split; [exact Hu |].
  pose proof (undeliverable_file_is_recorded env_c3 site 42 w _ _ _ _ H Hin Hu)
    as (_ & _ & Hseen & _ & Hnext).
  split; [exact Hseen | exact Hnext].
Defined.

(** ** C4 *)

Lemma unchanged_cycle_is_noop_witness :
  let w := tracking site (polled "B1" [D1]) in
  requests_get env_c4 site = Ok (page "B1" [link D1])
  ∧ raise_for_status (page "B1" [link D1]) = Ok tt
  ∧ check_single_website env_c4 site 42 w = (Ok tt, add_events [HttpGet site] w).
Proof.
  intros w.
  assert (requests_get env_c4 site = Ok (page "B1" [link D1])) as H1
    by (vm_compute; reflexivity).
  assert (raise_for_status (page "B1" [link D1]) = Ok tt) as H2
    by (vm_compute; reflexivity).
  split; [exact H1 |]. split; [exact H2 |].
  apply (proj1 (unchanged_cycle_is_noop env_c4 site 42 w _ H1 H2) (polled "B1" [D1]));
    vm_compute; reflexivity.
Defined.

(** ** C5 *)

(** A link is kept for the end of its query string: the extension of its
    path is not in the allow-list, and its name is not the last segment of
    its path. *)
Lemma extract_files_tests_url_not_path :
  extract_files [link download_link] site
  = Ok [{| file_name := "download.php?file=report.pdf";
           file_url := download_link; file_type := "document" |}]
  ∧ path_extension download_link = Ok ".php"
  ∧ (".php" ∉ ALLOWED_EXTS)
  ∧ last_path_segment download_link = Ok "download.php".
Proof.
  vm_compute. repeat split; try reflexivity.
  intros Hin. apply list_elem_of_In in Hin. simpl in Hin. intuition discriminate.
Qed.

Lemma extract_files_keeps_allowed_suffix_witness :
  extract_files [link download_link] site = Ok [pdf download_link]
  ∧ has_allowed_suffix download_link.
Proof.
  assert (extract_files [link download_link] site = Ok [pdf download_link]) as H
    by (vm_compute; reflexivity).
  split; [exact H |].
  pose proof (proj1 (extract_files_keeps_allowed_suffix [link download_link] site)
                _ H (pdf download_link)) as [Hkept _].
  destruct Hkept as (tag & _ & _ & Hsuffix & _); [by left | exact Hsuffix].
Defined.

(** ** C6 *)

(** Intervals of zero and of minus five minutes are accepted, stored and
    registered. *)
Lemma track_accepts_zero_and_negative_intervals :
  let w0 := snd (track quiet (request 42 "/track http://h/ 0") empty_world) in
  let w5 := snd (track quiet (request 42 "/track http://h/ -5") empty_world) in
  trace w0 = [SaveJson (user_data w0);
              ReplyText "Now tracking http://h/ every 0 minutes"]
  ∧ tracked_interval <$> lookup_tracked (user_data w0) "42" site = Some 0
  ∧ job_trigger <$> jobs w0 !! job_id_of 42 site = Some (IntervalTrigger 0)
  ∧ trace w5 = [SaveJson (user_data w5);
                ReplyText "Now tracking http://h/ every -5 minutes"]
  ∧ tracked_interval <$> lookup_tracked (user_data w5) "42" site = Some (-5)
  ∧ job_trigger <$> jobs w5 !! job_id_of 42 site = Some (IntervalTrigger (-5)).
Proof. vm_compute. repeat split; reflexivity. Qed.

Lemma track_interval_unchecked_witness :
  let message := request 42 "/track http://h/ 30 night" in
  parses message site 30 true
  ∧ served quiet message site 30
  ∧ ∃ w', track_body quiet message empty_world = (Ok tt, w').
Proof.
  intros message.
  assert (parses message site 30 true) as Hp.
  { split; [reflexivity |]. split; [| reflexivity].
    exists "30". split; reflexivity. }
  assert (served quiet message site 30) as Hs by (repeat split; reflexivity).
  split; [exact Hp |]. split; [exact Hs |].
  exact (proj2 (track_interval_unchecked quiet message empty_world) _ _ _ Hp Hs).
Defined.

(** ** C7 *)

(** Two tracked targets of one chat whose URLs share the six digits have one
    job between them, and it polls the second. *)
Lemma colliding_targets_share_one_job :
  let w := run [Track quiet (request 42 ("/track " +:+ page3152 +:+ " 30"));
                Track quiet (request 42 ("/track " +:+ page4055 +:+ " 30"))]
               empty_world in
  page3152 ≠ page4055
  ∧ job_id_of 42 page3152 = "42_4028fc"
  ∧ job_id_of 42 page4055 = "42_4028fc"
  ∧ is_Some (lookup_tracked (user_data w) "42" page3152)
  ∧ is_Some (lookup_tracked (user_data w) "42" page4055)
  ∧ size (jobs w) = 1%nat
  ∧ job_url <$> jobs w !! job_id_of 42 page3152 = Some page4055
  ∧ ¬ one_job_per_target w.
Proof.
  intros w.
  assert (job_url <$> jobs w !! job_id_of 42 page3152 = Some page4055) as Hjob
    by (vm_compute; reflexivity).
  assert (is_Some (lookup_tracked (user_data w) "42" page3152)) as Ht
    by (vm_compute; by eexists).
  split; [vm_compute; discriminate |].
  split; [vm_compute; reflexivity |].
  split; [vm_compute; reflexivity |].
  split; [exact Ht |].
  split; [vm_compute; by eexists |].
  split; [vm_compute; reflexivity |].
  split; [exact Hjob |].
  intros [Htargets _]. destruct Ht as [t Ht].
  destruct (Htargets 42 page3152 t Ht) as (job & Hlook & Hurl & _).
  rewrite Hlook in Hjob. simpl in Hjob. rewrite Hurl in Hjob.
  vm_compute in Hjob. discriminate Hjob.
Qed.

Lemma one_job_per_target_without_collision_witness :
  let cs := [Track quiet (request 42 "/track http://h/ 30");
             Track quiet (request 7 "/track http://h/ 5 night");
             Poll env_c1 site 42;
             Untrack quiet (request 42 "/untrack http://h/")] in
  one_job_per_target empty_world
  ∧ collision_free cs empty_world
  ∧ one_job_per_target (run cs empty_world).
Proof.
  intros cs.
  assert (collision_free cs empty_world) as Hfree.
  { repeat split.
    - intros url _ (url' & t & _ & Hlook & _). vm_compute in Hlook.
      discriminate Hlook.
    - intros url _ (url' & t & _ & Hlook & _). vm_compute in Hlook.
      discriminate Hlook. }
  split; [exact empty_world_one_job |]. split; [exact Hfree |].
  exact (proj2 one_job_per_target_without_collision cs empty_world
           empty_world_one_job Hfree).
Defined.

(** ** C8 *)

(** A response with status 304, which is no success, is taken as a page:
    the cycle stores and saves a new fingerprint and file list and sends
    the file. *)
Lemma non_success_status_is_processed :
  let w := tracking site (polled "B0" []) in
  let w' := after_cycle env_c8 site 42 w in
  requests_get env_c8 site = Ok (answer 304 "B1" [link D1])
  ∧ other_status 304
  ∧ cycle_events env_c8 site 42 w
    = [HttpGet site; SaveJson (user_data w'); SessionGet D1;
       WriteFile "D1.pdf.pdf"; SendDocument 42 "D1.pdf.pdf" "D1.pdf (document)";
       RemoveFile "D1.pdf.pdf";
       SendMessage 42
         ("Website updated: http://h/" +:+ String "010" "New files:"
          +:+ String "010" "D1.pdf (document)")]
  ∧ fingerprint w 42 site = Some (Hashlib.sha256_hexdigest "B0")
  ∧ fingerprint w' 42 site = Some (Hashlib.sha256_hexdigest "B1")
  ∧ seen w 42 site = []
  ∧ seen w' 42 site = [D1].
Proof.
  intros w w'.
  split; [vm_compute; reflexivity |].
  split; [unfold other_status; lia |].
  vm_compute. repeat split; reflexivity.
Qed.

Lemma fetch_failure_is_contained_witness :
  let w := tracking site never_polled in
  fetch_fails quiet site (OtherError "connection refused")
  ∧ fetch_fails env_gone site (HTTPError 404)
  ∧ check_single_website quiet site 42 w
    = (Ok tt, add_events [HttpGet site; LogError (OtherError "connection refused")] w)
  ∧ check_single_website env_gone site 42 w
    = (Ok tt, add_events [HttpGet site; LogError (HTTPError 404)] w).
Proof.
  intros w.
  assert (fetch_fails quiet site (OtherError "connection refused")) as H
    by (left; reflexivity).
  assert (fetch_fails env_gone site (HTTPError 404)) as H'.
  { right. exists (answer 404 "Not Found" []).
    split; [vm_compute; reflexivity |]. split; [simpl; lia | reflexivity]. }
  split; [exact H |]. split; [exact H' |]. split.
  - exact (proj1 (fetch_failure_is_contained quiet site 42 w) _ H).
  - exact (proj1 (fetch_failure_is_contained env_gone site 42 w) _ H').
Defined.

(** ** C9 *)

(** Two targets registered, both read back after the restart, and one job. *)
Lemma restart_rearms_one_job_for_two_targets :
  let w := restart (run (registering colliding) empty_world) in
  length colliding = 2%nat
  ∧ is_Some (lookup_tracked (user_data w) "42" page3152)
  ∧ is_Some (lookup_tracked (user_data w) "42" page4055)
  ∧ size (jobs w) = 1%nat.
Proof.
  intros w.
  split; [reflexivity |].
  split; [vm_compute; by eexists |].
  split; [vm_compute; by eexists |].
  vm_compute; reflexivity.
Qed.

Lemma restart_rearms_registered_jobs_witness :
  let w := restart (run (registering distinct) empty_world) in
  Forall registered distinct
  ∧ NoDup (map reg_job_id distinct)
  ∧ size (jobs w) = 2%nat
  ∧ Forall (rearmed w) distinct.
Proof.
  intros w.
  assert (Forall registered distinct) as Hreg.
  { repeat constructor; try (vm_compute; reflexivity);
      eexists; split; vm_compute; reflexivity. }
  assert (NoDup (map reg_job_id distinct)) as Hnodup.
  { apply (bool_decide_unpack _). vm_compute. exact I. }
  split; [exact Hreg |]. split; [exact Hnodup |].
  exact (restart_rearms_registered_jobs distinct Hreg Hnodup).
Defined.

(** ** C10 *)

(** A file written over the cap that cannot be removed is still there when
    [download_file] answers [None]. *)
Lemma oversize_file_survives_failed_removal :
  written env_c10 D3 (Some "D3.pdf") "D3.pdf.pdf" 52428800
  ∧ 52428800 > MAX_FILE_SIZE
  ∧ os_remove_error env_c10 "D3.pdf.pdf" = Some (OtherError "permission denied")
  ∧ download_file env_c10 D3 (Some "D3.pdf") empty_world
    = (Ok None,
       add_events [SessionGet D3; WriteFile "D3.pdf.pdf"; RemoveFile "D3.pdf.pdf";
                   LogError (OtherError "permission denied")] empty_world).
Proof.
  split.
  { exists (file_of_size None 52428800), 0, "/D3.pdf", 52428800.
    vm_compute. repeat split; try reflexivity. discriminate. }
  vm_compute. repeat split; reflexivity.
Qed.

Lemma download_file_outcomes_witness :
  written env_c4 D1 (Some "D1.pdf") "D1.pdf.pdf" 10
  ∧ download_file env_c4 D1 (Some "D1.pdf") empty_world
    = (Ok (Some "D1.pdf.pdf"),
       add_events [SessionGet D1; WriteFile "D1.pdf.pdf"] empty_world)
  ∧ header_content_length (file_of_size (Some "52428800") 52428800)
    = Some "52428800"
  ∧ Py.int "52428800" = Some 52428800
  ∧ download_file env_c3 D3 (Some "D3.pdf") empty_world
    = (Ok None, add_events [SessionGet D3] empty_world).
Proof.
  assert (written env_c4 D1 (Some "D1.pdf") "D1.pdf.pdf" 10) as Hw.
  { exists (file_of_size None 10), 0, "/D1.pdf", 10.
    vm_compute. repeat split; try reflexivity. discriminate. }
  assert (Py.int "52428800" = Some 52428800) as Hint
    by (vm_compute; reflexivity).
  split; [exact Hw |]. split.
  - destruct (download_file_outcomes env_c4 D1 (Some "D1.pdf") empty_world)
      as (r & evs & Hrun & _ & _ & _ & _ & Hok & _).
    destruct (Hok _ _ Hw) as [-> ->]; [vm_compute; discriminate | exact Hrun].
  - split; [reflexivity |]. split; [exact Hint |].
    destruct (download_file_outcomes env_c3 D3 (Some "D3.pdf") empty_world)
      as (r & evs & Hrun & _ & Hlarge & _).
    destruct (Hlarge (file_of_size (Some "52428800") 52428800) "52428800"
                52428800) as [-> ->];
      [vm_compute; reflexivity | reflexivity | exact Hint
       | vm_compute; reflexivity | exact Hrun].
Defined.

End Examples.

(** * Further properties of the engine *)

Section MoreExtraction.

Context {lib : UrlLib}.

(** ** extract_files, element by element *)

Lemma extract_tags_app (base_url : string) (t1 t2 : list Tag) :
  extract_tags (t1 ++ t2) base_url
  = match extract_tags t1 base_url with
    | Ok f1 => match extract_tags t2 base_url with
               | Ok f2 => Ok (f1 ++ f2)
               | Raise e => Raise e
               end
    | Raise e => Raise e
    end.
Proof.
  induction t1 as [|tag t1 IH]; simpl.
  { by destruct (extract_tags t2 base_url). }
  destruct (Py.truthy _); simpl; [| exact IH].
  destruct (urljoin base_url _) as [url|e]; [| done].
  destruct (allowed url); simpl; [| exact IH].
  rewrite IH. destruct (extract_tags t1 base_url); [| done].
  by destruct (extract_tags t2 base_url).
Qed.

(** X1. The files of a page made of two parts are the files of the first
    part followed by those of the second: order is kept and nothing is
    merged, so a link that occurs twice is listed twice. *)
Theorem extract_files_app (h1 h2 : Html) (base_url : string)
    (f1 f2 : list File) :
  extract_files h1 base_url = Ok f1 →
  extract_files h2 base_url = Ok f2 →
  extract_files (h1 ++ h2) base_url = Ok (f1 ++ f2).
Proof.
  unfold extract_files, find_all. intros H1 H2.
  rewrite filter_app, extract_tags_app. by rewrite H1, H2.
Qed.

End MoreExtraction.

(** ** Suffixes *)

Lemma endswith_unfold (s p : string) :
  Py.endswith s p
  = if String.eqb s p then true
    else match s with
         | EmptyString => false
         | String _ r => Py.endswith r p
         end.
Proof. by destruct s. Qed.

Lemma endswith_refl (s : string) : Py.endswith s s = true.
Proof. by rewrite endswith_unfold, String.eqb_refl. Qed.

Lemma endswith_app (a b : string) : Py.endswith (a +:+ b) b = true.
Proof.
  induction a as [|c a IH]; [apply endswith_refl |].
  change (String c a +:+ b) with (String c (a +:+ b)).
  rewrite endswith_unfold, IH. by destruct (String.eqb _ _).
Qed.

Lemma lower_app (a b : string) : Py.lower (a +:+ b) = Py.lower a +:+ Py.lower b.
Proof.
  induction a as [|c a IH]; [done |].
  change (String c a +:+ b) with (String c (a +:+ b)). simpl. by rewrite IH.
Qed.

Lemma after_last_suffix (c : ascii) (s t : string) :
  Py.after_last c s = Some t → ∃ a, s = a +:+ String c t.
Proof.
  revert t. induction s as [|d s IH]; intros t; simpl; [done |].
  destruct (Py.after_last c s) as [t'|] eqn:Hrest.
  - intros [= <-]. destruct (IH _ eq_refl) as [a ->]. by exists (String d a).
  - destruct (Ascii.eqb_spec c d) as [->|]; [| done].
    intros [= <-]. by exists "".
Qed.

Lemma strip_dots_suffix (s : string) : ∃ a, s = a +:+ Py.strip_dots s.
Proof.
  induction s as [|c s [a IH]]; [by exists "" |].
  simpl. destruct (Ascii.eqb_spec c ".") as [->|Hne].
  - exists (String "." a). change (String "." a +:+ Py.strip_dots s)
      with (String "." (a +:+ Py.strip_dots s)). by rewrite <- IH.
  - exists "". destruct c as [[] [] [] [] [] [] [] []]; try done.
Qed.

Lemma app_assoc_string (a b c : string) : (a +:+ b) +:+ c = a +:+ (b +:+ c).
Proof.
  induction a as [|x a IH]; [done |].
  change ((String x a +:+ b) +:+ c) with (String x ((a +:+ b) +:+ c)).
  by rewrite IH.
Qed.

Lemma basename_suffix (p : string) : ∃ a, p = a +:+ Py.basename p.
Proof.
  unfold Py.basename. destruct (Py.after_last "/" p) as [t|] eqn:Hlast.
  - apply after_last_suffix in Hlast as [a ->]. exists (a +:+ "/").
    by rewrite app_assoc_string.
  - by exists "".
Qed.

(** The extension [os.path.splitext] gives is empty or starts with a dot,
    and the path ends with it. *)
Lemma splitext_ext_shape (p : string) :
  (Py.splitext_ext p = "" ∨ ∃ e, Py.splitext_ext p = String "." e)
  ∧ ∃ a, p = a +:+ Py.splitext_ext p.
Proof.
  unfold Py.splitext_ext, Py.ext_of_name.
  destruct (basename_suffix p) as [a Ha].
  destruct (strip_dots_suffix (Py.basename p)) as [b Hb].
  destruct (Py.after_last "." (Py.strip_dots (Py.basename p))) as [e|] eqn:Hlast.
  - split; [right; by eexists |].
    apply after_last_suffix in Hlast as [c Hc].
    exists (a +:+ b +:+ c). rewrite Ha at 1. rewrite Hb at 1. rewrite Hc.
    by rewrite !app_assoc_string.
  - split; [by left |]. exists p. clear. induction p as [|c p IH]; [done |].
    change (String c p +:+ "") with (String c (p +:+ "")). by rewrite <- IH.
Qed.

Section MoreTyping.

Context {lib : UrlLib}.

(** X2. A file typed image, audio or video has a URL that ends, in any
    letter case, with an extension of the list of that type; document is
    the type of every other kept file. *)
Theorem type_of_url_sound (url : string) :
  let ends_in exts := ∃ ext, ext ∈ exts ∧ Py.endswith (Py.lower url) ext = true in
  (type_of_url url = "image" → ends_in IMAGE_EXTS)
  ∧ (type_of_url url = "audio" → ends_in AUDIO_EXTS)
  ∧ (type_of_url url = "video" → ends_in VIDEO_EXTS)
  ∧ (type_of_url url ≠ "image" → type_of_url url ≠ "audio" →
     type_of_url url ≠ "video" → type_of_url url = "document").
Proof.
  intros ends_in.
  assert (Py.endswith (Py.lower url) (Py.lower (Py.splitext_ext url)) = true) as Hend.
  { destruct (splitext_ext_shape url) as [_ [a Ha]]. rewrite Ha at 1.
    rewrite lower_app. apply endswith_app. }
  unfold type_of_url.
  destruct (Py.mem _ IMAGE_EXTS) eqn:Hi;
    [| destruct (Py.mem _ AUDIO_EXTS) eqn:Ha;
       [| destruct (Py.mem _ VIDEO_EXTS) eqn:Hv]];
    repeat split; try done; intros _; eexists; split; try exact Hend;
    by apply mem_elem_of.
Qed.

End MoreTyping.

Section MoreDownload.

Context {lib : UrlLib}.

(** ** The name of the written file *)

Lemma sanitize_clean (c : ascii) (s : string) :
  Py.forbidden_char c = true → Py.contains_char c (Py.sanitize s) = false.
Proof.
  intros Hc. induction s as [|d s IH]; [done |]. simpl.
  destruct (Py.forbidden_char d) eqn:Hd; [done |]. simpl. rewrite IH.
  destruct (Ascii.eqb_spec c d) as [->|]; [congruence | done].
Qed.

Lemma sanitize_keeps_dot (a r : string) : Py.sanitize (a +:+ String "." r) ≠ "".
Proof.
  induction a as [|c a IH].
  - change ("" +:+ String "." r) with (String "." r). done.
  - change (String c a +:+ String "." r) with (String c (a +:+ String "." r)).
    simpl. by destruct (Py.forbidden_char c).
Qed.

Lemma lower_dot (e : string) : Py.lower (String "." e) = String "." (Py.lower e).
Proof. reflexivity. Qed.

Lemma filename_of_shape (path : string) (response : FileResponse)
    (name : option string) :
  filename_of path response name ≠ ""
  ∧ ∀ c, Py.forbidden_char c = true →
         Py.contains_char c (filename_of path response name) = false.
Proof.
  split; [| intros c Hc; by apply sanitize_clean].
  unfold filename_of.
  assert (∃ r, (if String.eqb (Py.lower (Py.splitext_ext path)) ""
                then default_ext (default "" (header_content_type response))
                else Py.lower (Py.splitext_ext path)) = String "." r) as [r ->].
  { destruct (splitext_ext_shape path) as [[-> | [e ->]] _].
    - simpl. unfold default_ext. repeat case_match; by eexists.
    - rewrite lower_dot. simpl. by eexists. }
  apply sanitize_keeps_dot.
Qed.

Lemma download_result_written env url name filename :
  download_result env url name = Some filename →
  ∃ size, written env url name filename size ∧ size <= MAX_FILE_SIZE.
Proof.
  intros Hres.
  destruct (download_body_cases env url name empty_world)
    as [(e & w' & He & _) | [(r & Hr & Hs) | [(r & n & Hr & _ & Hl & Hn)
                                             | (fn & size & Hw & _)]]].
  - destruct (download_raises_logged _ _ _ _ He) as [Hnone _]. congruence.
  - destruct (download_file_not_200 _ _ name _ Hr Hs) as [Hnone _]. congruence.
  - destruct (download_file_declared_too_large _ _ name _ _ Hr Hl Hn)
      as [Hnone _]. congruence.
  - destruct (download_file_written _ _ _ _ _ Hw) as [Hres' _].
    rewrite Hres' in Hres. destruct (Z.gtb_spec size MAX_FILE_SIZE); [done |].
    injection Hres as <-. exists size. split; [done | lia].
Qed.

Lemma download_result_nonempty env url name filename :
  download_result env url name = Some filename → filename ≠ "".
Proof.
  intros Hres.
  destruct (download_result_written _ _ _ _ Hres)
    as (size & (r & n & path & body & _ & _ & _ & _ & _ & -> & _) & _).
  apply filename_of_shape.
Qed.

Lemma downloaded_name_shape (filename : string) :
  filename ≠ "" → ∃ c r, filename = String c r.
Proof. destruct filename; [done | by eexists _, _]. Qed.

(** X3. The name under which [download_file] writes a file, and which it
    returns, is never empty and holds none of the nine characters the
    substitution removes, so no slash and no backslash: the file is written
    in the working directory. *)
Theorem downloaded_name_is_clean (env : Env) (url : string)
    (name : option string) (filename : string) :
  download_result env url name = Some filename →
  Py.truthy (Some filename) = true
  ∧ ∀ c, Py.forbidden_char c = true → Py.contains_char c filename = false.
Proof.
  intros Hres.
  destruct (download_result_written _ _ _ _ Hres)
    as (size & (r & n & path & body & _ & _ & _ & _ & _ & -> & _) & _).
  destruct (filename_of_shape path r name) as [Hne Hclean].
  split; [| done]. by destruct (filename_of path r name).
Qed.

(** X4. A Content-Length header that does not read as an integer makes
    [download_file] log the error and return [None] without writing a
    file. *)
Theorem download_file_bad_content_length (env : Env) (url : string)
    (name : option string) (w : World) (response : FileResponse) (v : string) :
  session_get env url = Ok response →
  file_status response = 200 →
  header_content_length response = Some v →
  Py.int v = None →
  download_file env url name w
  = (Ok None, add_events [SessionGet url; LogError (ValueError v)] w).
Proof.
  intros Hget Hst Hv Hint.
  unfold download_file, download_body, try_except, bind, call, emit, lift, ret,
    content_length_of. simpl.
  rewrite Hget. simpl. apply Z.eqb_eq in Hst. rewrite Hst. simpl.
  rewrite Hv, Hint. simpl. by rewrite add_events_app.
Qed.

End MoreDownload.

Section MoreCycle.

Context {lib : UrlLib}.

(** ** More on the poll cycle *)

(** X5. A cycle for a target that is not in the store (its job fired after
    the target was removed) changes nothing and sends nothing: it fetches
    the page and returns, or logs the failure of the fetch. *)
Theorem poll_of_missing_target_is_silent (env : Env) (url : string)
    (user_id : Z) (w : World) :
  lookup_tracked (user_data w) (Py.str user_id) url = None →
  let w' := after_cycle env url user_id w in
  user_data w' = user_data w ∧ jobs w' = jobs w ∧
  Forall is_quiet (cycle_events env url user_id w).
Proof.
  intros Hlook w'. subst w'. unfold after_cycle.
  destruct (check_paths env url user_id w)
    as [[e Hrun] | [Hrun | (response & tracked & new_files & Hch)]].
  - rewrite (cycle_events_of_same _ _ _ _ _ _ Hrun), Hrun.
    repeat split; by repeat constructor.
  - rewrite (cycle_events_of_same _ _ _ _ _ _ Hrun), Hrun.
    repeat split; by repeat constructor.
  - destruct Hch as (_ & _ & Hsome & _). congruence.
Qed.

(** X6. Whatever a cycle sends, it sends to the chat of its target, and it
    is a file of the page just fetched whose URL was not stored as seen. *)
Theorem cycle_sends_only_unseen_files (env : Env) (url : string) (user_id : Z)
    (w : World) (chat : Z) (filename caption : string) :
  SendDocument chat filename caption ∈ cycle_events env url user_id w →
  chat = user_id ∧
  ∃ response tracked new_files f,
    observes_change env url user_id w response tracked new_files ∧
    f ∈ new_files ∧ (file_url f ∉ seen w user_id url) ∧
    download_result env (file_url f) (Some (file_name f)) = Some filename ∧
    caption = caption_of f.
Proof.
  destruct (check_paths env url user_id w)
    as [[e Hrun] | [Hrun | (response & tracked & new_files & Hch)]].
  - rewrite (cycle_events_of_same _ _ _ _ _ _ Hrun). intros Hin.
    repeat (apply elem_of_cons in Hin as [? | Hin]; [done |]).
    by apply not_elem_of_nil in Hin.
  - rewrite (cycle_events_of_same _ _ _ _ _ _ Hrun). intros Hin.
    repeat (apply elem_of_cons in Hin as [? | Hin]; [done |]).
    by apply not_elem_of_nil in Hin.
  - destruct (check_changed _ _ _ _ _ _ _ Hch) as (rest & Hrun & Hrest).
    rewrite (cycle_events_of _ _ _ _ _ _ _ Hrun). intros Hin.
    apply elem_of_cons in Hin as [? | Hin]; [done |].
    apply elem_of_cons in Hin as [? | Hin]; [done |].
    rewrite Forall_forall in Hrest.
    apply Hrest in Hin as [-> (f & Hf & Hnew & Hres & ->)].
    split; [done |]. exists response, tracked, new_files, f.
    repeat split; try done; try apply Hch.
    unfold seen, seen_in. by destruct Hch as (_ & _ & -> & _).
Qed.


(** X8. When saving the store fails in a cycle that observes a change,
    nothing is fetched or sent; the store in memory nevertheless holds the
    new hash and the new list of files already. *)
Theorem failed_save_stops_the_cycle (env : Env) (url : string) (user_id : Z)
    (w : World) (response : Response) (tracked : Tracked)
    (new_files : list File) (e : Exn) :
  observes_change env url user_id w response tracked new_files →
  save_json_error env = Some e →
  let data := store_tracked (user_data w) (Py.str user_id) url
                (updated response tracked new_files) in
  check_single_website env url user_id w
  = (Ok tt, add_events [HttpGet url; SaveJson data; LogError e]
              (set_user_data data w)).
Proof.
  intros (Hget & Hst & Hlook & Hhash & Hex) Hsave data.
  unfold check_single_website, check_body, try_except, bind, call, emit, lift,
    ret, get_user_data, put_user_data, save_json, outcome. simpl.
  rewrite Hget; simpl. rewrite Hst; simpl. rewrite Hlook.
  apply String.eqb_neq in Hhash. rewrite Hhash, Hex. simpl.
  rewrite Hsave. simpl. by norm_world.
Qed.

End MoreCycle.

Section MoreLoop.

Context {lib : UrlLib}.

(** ** The summary message *)

Lemma documents_sent_app (a b : list Event) :
  documents_sent (a ++ b) = documents_sent a ++ documents_sent b.
Proof. unfold documents_sent. apply omap_app. Qed.

Lemma download_events_no_document env url name :
  documents_sent (download_events env url name) = []
  ∧ Forall (fun e => ¬ is_message e) (download_events env url name).
Proof.
  pose proof (download_events_shape env url name) as Hshape.
  induction Hshape as [|e evs He _ [IH1 IH2]]; [by split |].
  split.
  - unfold documents_sent in *. simpl. destruct e; try done; by rewrite IH1.
  - constructor; [| done]. destruct e; simpl in *; tauto.
Qed.

Lemma send_file_summary env uid prev summary f w :
  ∃ r evs,
    send_file env uid prev summary f w = (r, add_events evs w) ∧
    Forall (fun e => ¬ is_message e) evs ∧
    (∀ s, r = Ok s → s = summary ++ map snd (documents_sent evs)).
Proof.
  unfold send_file.
  destruct (Py.mem (file_url f) prev); simpl.
  { exists (Ok summary), []. rewrite add_events_nil, app_nil_r.
    repeat split; [done |]. by intros s [= <-]. }
  destruct (download_events_no_document env (file_url f) (Some (file_name f)))
    as [Hnone Hquiet].
  unfold bind at 1. rewrite download_file_run.
  destruct (download_result env (file_url f) (Some (file_name f))) as [fn|];
    simpl; [destruct fn as [|c fn]; simpl |].
  - do 2 eexists. split; [reflexivity |]. split; [done |].
    intros s [= <-]. by rewrite Hnone, app_nil_r.
  - unfold bind, call, emit, lift, ret, outcome. simpl.
    destruct (send_document_error env uid _ _); simpl;
      [| destruct (os_remove_error env _); simpl];
      rewrite ?add_events_app; do 2 eexists; (split; [reflexivity |]);
      (split; [rewrite ?Forall_app; repeat split; try done;
               repeat constructor; simpl; tauto |]);
      intros s Hs; try done.
    injection Hs as <-. rewrite !documents_sent_app, Hnone. done.
  - do 2 eexists. split; [reflexivity |]. split; [done |].
    intros s [= <-]. by rewrite Hnone, app_nil_r.
Qed.

Lemma send_files_summary env uid prev fs : ∀ summary w,
  ∃ r evs,
    send_files env uid prev summary fs w = (r, add_events evs w) ∧
    Forall (fun e => ¬ is_message e) evs ∧
    (∀ s, r = Ok s → s = summary ++ map snd (documents_sent evs)).
Proof.
  induction fs as [|f fs IH]; intros summary w; simpl.
  { exists (Ok summary), []. rewrite add_events_nil, app_nil_r.
    repeat split; [done |]. by intros s [= <-]. }
  destruct (send_file_summary env uid prev summary f w)
    as (r & evs & Hrun & Hquiet & Hsum).
  unfold bind. rewrite Hrun. destruct r as [summary'|e].
  2: { do 2 eexists. split; [reflexivity |]. split; [done |]. done. }
  destruct (IH summary' (add_events evs w)) as (r' & evs' & Hrun' & Hquiet' & Hsum').
  rewrite Hrun', add_events_app. do 2 eexists. split; [reflexivity |].
  split; [by apply Forall_app |].
  intros s Hs. rewrite (Hsum' s Hs), (Hsum summary' eq_refl).
  by rewrite documents_sent_app, map_app, app_assoc.
Qed.

(** X9. In a cycle that observes a change the summary message comes after
    the loop over the files, at most once, followed by nothing but the log
    of its own failure; it goes to the chat of the target, and names, in
    order, the documents sent in the cycle, of which there is at least one.
    When the loop ends without an exception and sent a document, the
    message is sent. *)
Theorem summary_message_lists_sent_documents (env : Env) (url : string)
    (user_id : Z) (w : World) (response : Response) (tracked : Tracked)
    (new_files : list File) :
  observes_change env url user_id w response tracked new_files →
  ∃ data loop final,
    cycle_events env url user_id w
    = HttpGet url :: SaveJson data :: loop ++ final ∧
    Forall (fun e => ¬ is_message e) loop ∧
    let text := summary_message url (map snd (documents_sent loop)) in
    (final = [] ∧ documents_sent loop = []
     ∨ (∃ e, final = [LogError e])
     ∨ (documents_sent loop ≠ [] ∧
        (final = [SendMessage user_id text]
         ∨ ∃ e, final = [SendMessage user_id text; LogError e]))).
Proof.
  intros (Hget & Hst & Hlook & Hhash & Hex).
  assert (∃ data loop final,
            check_single_website env url user_id w
            = (Ok tt, add_events (HttpGet url :: SaveJson data :: loop ++ final)
                        (set_user_data data w)) ∧
            Forall (fun e => ¬ is_message e) loop ∧
            let text := summary_message url (map snd (documents_sent loop)) in
            (final = [] ∧ documents_sent loop = []
             ∨ (∃ e, final = [LogError e])
             ∨ (documents_sent loop ≠ [] ∧
                (final = [SendMessage user_id text]
                 ∨ ∃ e, final = [SendMessage user_id text; LogError e]))))
    as (data & loop & final & Hrun & Hrest).
  2: { exists data, loop, final.
       by rewrite (cycle_events_of _ _ _ _ _ _ _ Hrun). }
  unfold check_single_website, check_body, try_except, bind, call, emit, lift,
    ret, get_user_data, put_user_data, save_json, outcome. simpl.
  rewrite Hget; simpl. rewrite Hst; simpl. rewrite Hlook.
  apply String.eqb_neq in Hhash. rewrite Hhash, Hex. simpl.
  destruct (save_json_error env) as [e|]; simpl.
  { eexists _, [], [LogError e]. norm_world. split; [reflexivity |].
    split; [done |]. right; left. by eexists. }
  match goal with
  | |- context [send_files ?a ?b ?c ?d ?e ?w0] =>
      destruct (send_files_summary a b c e d w0) as (r & evs & Hrun & Hquiet & Hsum);
      rewrite Hrun
  end.
  destruct r as [summary|e]; simpl.
  - pose proof (Hsum summary eq_refl) as Hs. simpl in Hs. subst summary.
    destruct (documents_sent evs) as [|d ds] eqn:Hdocs; simpl.
    + eexists _, evs, []. norm_world. rewrite app_nil_r.
      split; [reflexivity |]. split; [done |]. left. by rewrite Hdocs.
    + destruct (send_message_error env user_id _) as [e|]; simpl; norm_world.
      * eexists _, evs, [_; LogError e]. split; [reflexivity |].
        split; [done |]. rewrite Hdocs. right; right. split; [done |].
        right. by eexists.
      * eexists _, evs, [_]. split; [reflexivity |].
        split; [done |]. rewrite Hdocs. right; right. split; [done |]. by left.
  - eexists _, evs, [LogError e]. norm_world. split; [reflexivity |].
    split; [done |]. right; left. by eexists.
Qed.

End MoreLoop.

Section MoreFailures.

Context {lib : UrlLib}.

(** ** A refused document *)

Lemma send_file_passes env uid prev summary g w :
  passes env uid prev g →
  ∃ summary',
    send_file env uid prev summary g w
    = (Ok summary', add_events (round_events env uid prev g) w).
Proof.
  intros Hpass. unfold send_file, round_events.
  destruct (decide (file_url g ∈ prev)) as [Hin|Hin].
  { apply mem_elem_of in Hin. rewrite Hin. simpl.
    exists summary. by rewrite add_events_nil. }
  pose proof Hin as Hmem. apply mem_not_elem_of in Hmem. rewrite Hmem. simpl.
  unfold bind at 1. rewrite download_file_run.
  destruct Hpass as [Hseen | [Hnone | (filename & Hres & Hsend & Hrm)]];
    [done | |].
  - rewrite Hnone. simpl. exists summary. by rewrite app_nil_r.
  - rewrite Hres.
    destruct (downloaded_name_shape filename) as [c [r ->]].
    { by apply (download_result_nonempty env (file_url g) (Some (file_name g))). }
    simpl. unfold bind, call, emit, lift, ret, outcome. simpl.
    rewrite Hsend. simpl. rewrite Hrm. simpl.
    eexists. by norm_world.
Qed.

Lemma send_files_passes env uid prev (pre rest : list File) : ∀ summary w,
  Forall (passes env uid prev) pre →
  ∃ summary',
    send_files env uid prev summary (pre ++ rest) w
    = send_files env uid prev summary' rest
        (add_events (flat_map (round_events env uid prev) pre) w).
Proof.
  induction pre as [|g pre IH]; intros summary w Hpre.
  { exists summary. simpl. by rewrite add_events_nil. }
  apply Forall_cons in Hpre as [Hg Hpre].
  destruct (send_file_passes env uid prev summary g w Hg) as [summary1 Hrun].
  destruct (IH summary1 (add_events (round_events env uid prev g) w) Hpre)
    as [summary' Hrest].
  exists summary'.
  change ((g :: pre) ++ rest) with (g :: (pre ++ rest)).
  change (send_files env uid prev summary (g :: (pre ++ rest)) w)
    with (bind (send_file env uid prev summary g)
            (fun s => send_files env uid prev s (pre ++ rest)) w).
  unfold bind at 1. rewrite Hrun, Hrest.
  change (flat_map (round_events env uid prev) (g :: pre))
    with (round_events env uid prev g
          ++ flat_map (round_events env uid prev) pre).
  by rewrite add_events_app.
Qed.

(** X10. When Telegram refuses a document the cycle ends there, wherever
    the file stands on the page: the rounds before it ended without an
    exception (or the loop would not have reached it) and made their calls;
    the exception of the refusal leaves the loop and is logged, so no file
    that follows on the page is fetched and no summary is sent, although
    the URLs of those files were stored as seen before the loop began. *)
Theorem refused_document_ends_the_cycle (env : Env) (url : string)
    (user_id : Z) (w : World) (response : Response) (tracked : Tracked)
    (pre post : list File) (f : File) (filename : string) (e : Exn) :
  observes_change env url user_id w response tracked (pre ++ f :: post) →
  save_json_error env = None →
  Forall (passes env user_id (default [] (tracked_files tracked))) pre →
  file_url f ∉ default [] (tracked_files tracked) →
  download_result env (file_url f) (Some (file_name f)) = Some filename →
  send_document_error env user_id filename (caption_of f) = Some e →
  let w' := after_cycle env url user_id w in
  cycle_events env url user_id w
  = [HttpGet url; SaveJson (user_data w')]
      ++ flat_map (round_events env user_id (default [] (tracked_files tracked)))
           pre
      ++ download_events env (file_url f) (Some (file_name f))
      ++ [SendDocument user_id filename (caption_of f); LogError e]
  ∧ Forall (fun g => file_url g ∈ seen w' user_id url) post.
Proof.
  intros Hch Hsave Hpre Hnew Hres Hsend w'.
  pose proof Hch as (Hget & Hst & Hlook & Hhash & Hex).
  set (previous := default [] (tracked_files tracked)) in *.
  assert (check_single_website env url user_id w
          = (Ok tt,
             add_events
               ([HttpGet url;
                 SaveJson (store_tracked (user_data w) (Py.str user_id) url
                             (updated response tracked (pre ++ f :: post)))]
                ++ flat_map (round_events env user_id previous) pre
                ++ download_events env (file_url f) (Some (file_name f))
                ++ [SendDocument user_id filename (caption_of f); LogError e])
               (set_user_data
                  (store_tracked (user_data w) (Py.str user_id) url
                     (updated response tracked (pre ++ f :: post))) w)))
    as Hrun.
  { unfold check_single_website, check_body, try_except, bind, call, emit, lift,
      ret, get_user_data, put_user_data, save_json, outcome. simpl.
    rewrite Hget; simpl. rewrite Hst; simpl. rewrite Hlook.
    apply String.eqb_neq in Hhash. rewrite Hhash, Hex. simpl.
    rewrite Hsave. simpl. fold previous.
    match goal with
    | |- context [send_files env user_id previous [] (pre ++ f :: post) ?w0] =>
        destruct (send_files_passes env user_id previous pre (f :: post) [] w0
                    Hpre) as [summary' ->]
    end.
    simpl.
    unfold bind at 1, send_file. apply mem_not_elem_of in Hnew. rewrite Hnew.
    simpl. unfold bind at 1. rewrite download_file_run, Hres.
    destruct (downloaded_name_shape filename) as [c [r ->]].
    { by apply (download_result_nonempty env (file_url f) (Some (file_name f))). }
    simpl. unfold bind, call, emit, lift, outcome. simpl. rewrite Hsend. simpl.
    norm_world. reflexivity. }
  subst w'. unfold after_cycle.
  rewrite (cycle_events_of _ _ _ _ _ _ _ Hrun), Hrun. simpl. split; [done |].
  unfold seen, seen_in. simpl. rewrite lookup_tracked_store. simpl.
  apply Forall_forall. intros g Hg. apply list_elem_of_fmap. exists g.
  split; [done |]. apply elem_of_app. right. by right.
Qed.

End MoreFailures.

(** ** No digest is the empty string *)

Lemma sha256_round_length (W st : list Z) (t : nat) :
  length st = 8%nat → length (Hashlib.sha256_round W st t) = 8%nat.
Proof.
  destruct st as [|a [|b [|c [|d [|e [|f [|g [|h [|]]]]]]]]]; try discriminate.
  reflexivity.
Qed.

Lemma sha256_rounds_length (W st : list Z) (ts : list nat) :
  length st = 8%nat →
  length (fold_left (Hashlib.sha256_round W) ts st) = 8%nat.
Proof.
  revert st. induction ts as [|t ts IH]; intros st Hlen; [done |].
  simpl. apply IH. by apply sha256_round_length.
Qed.

Lemma sha256_block_length (st block : list Z) :
  length st = 8%nat → length (Hashlib.sha256_block st block) = 8%nat.
Proof.
  intros Hlen. unfold Hashlib.sha256_block.
  rewrite length_map, length_combine, sha256_rounds_length by done. lia.
Qed.

Lemma sha256_blocks_length (st : list Z) (blocks : list (list Z)) :
  length st = 8%nat →
  length (fold_left Hashlib.sha256_block blocks st) = 8%nat.
Proof.
  revert st. induction blocks as [|b blocks IH]; intros st Hlen; [done |].
  simpl. apply IH. by apply sha256_block_length.
Qed.

Lemma flat_map_be_bytes_length (ws : list Z) :
  length (flat_map (Hashlib.be_bytes 4) ws) = (4 * length ws)%nat.
Proof.
  induction ws as [|x ws IH]; [done |].
  change (flat_map (Hashlib.be_bytes 4) (x :: ws))
    with (Hashlib.be_bytes 4 x ++ flat_map (Hashlib.be_bytes 4) ws).
  rewrite length_app, IH. unfold Hashlib.be_bytes. rewrite length_rev. simpl. lia.
Qed.

Lemma sha256_hexdigest_length (content : string) :
  String.length (Hashlib.sha256_hexdigest content) = 64%nat.
Proof.
  unfold Hashlib.sha256_hexdigest, Hashlib.sha256_digest.
  rewrite hex_of_bytes_length, flat_map_be_bytes_length.
  by rewrite sha256_blocks_length.
Qed.

Lemma sha256_hexdigest_nonempty (content : string) :
  Hashlib.sha256_hexdigest content ≠ "".
Proof.
  intros Heq. pose proof (sha256_hexdigest_length content) as Hlen.
  by rewrite Heq in Hlen.
Qed.

Section MoreCommands.

Context {lib : UrlLib}.

Ltac step_cmd :=
  unfold track, untrack, track_body, untrack_body, save_json, reply_text,
    reply_error, add_job, remove_job, call, try_except, bind, emit, lift, ret,
    raise, get_user_data, put_user_data, get_jobs, put_jobs, outcome,
    or_raise in *;
  simpl in *.

(** ** track *)

Lemma track_served env message w url interval night_mode :
  parses message url interval night_mode →
  served env message url interval →
  track env message w
  = (Ok tt,
     add_events
       [SaveJson (user_data (tracked_world message url interval night_mode w));
        ReplyText ("Now tracking " +:+ url +:+ " every "
                   +:+ Py.str interval +:+ " minutes")]
       (tracked_world message url interval night_mode w)).
Proof.
  intros Hp Hs. unfold track, try_except.
  assert (track_body env message w
          = (Ok tt,
             add_events
               [SaveJson (user_data (tracked_world message url interval night_mode w));
                ReplyText ("Now tracking " +:+ url +:+ " every "
                           +:+ Py.str interval +:+ " minutes")]
               (tracked_world message url interval night_mode w))) as ->; [| done].
  apply track_body_accepted. by exists url, interval, night_mode.
Qed.

(** X11. An accepted track request stores the empty hash and the empty list
    of seen files, also for a target that was tracked before; no digest is
    the empty string, so the next cycle whose fetch and extraction succeed
    observes a change whatever the page holds, and takes every file of the
    page as not seen. *)
Theorem first_poll_after_track_observes_change (env env' : Env)
    (message : Message) (w : World) (url : string) (interval : Z)
    (night_mode : bool) (response : Response) (new_files : list File) :
  parses message url interval night_mode →
  served env message url interval →
  requests_get env' url = Ok response →
  raise_for_status response = Ok tt →
  extract_files (text response) url = Ok new_files →
  let w' := snd (track env message w) in
  fingerprint w' (chat_id message) url = Some ""
  ∧ seen w' (chat_id message) url = []
  ∧ observes_change env' url (chat_id message) w' response
      (fresh_target interval night_mode) new_files.
Proof.
  intros Hp Hs Hget Hst Hex w'. subst w'.
  rewrite (track_served _ _ _ _ _ _ Hp Hs). simpl.
  unfold fingerprint, seen, seen_in. simpl. rewrite lookup_tracked_store. simpl.
  repeat split; try done.
  - apply lookup_tracked_store.
  - apply sha256_hexdigest_nonempty.
Qed.

(** X12. A track request with fewer than two arguments, or whose second
    argument does not read as an integer, is answered with the error and
    changes neither the store nor the job table; nothing is saved. *)
Theorem track_rejects_malformed_request (env : Env) (message : Message)
    (w : World) :
  let args := Py.split (message_text message) in
  (Py.index args 1 = None ∨ Py.index args 2 = None →
   track env message w
   = (outcome (reply_text_error env (ReplyError IndexError)),
      add_events [ReplyError IndexError] w))
  ∧ (∀ a, Py.index args 1 ≠ None → Py.index args 2 = Some a → Py.int a = None →
     track env message w
     = (outcome (reply_text_error env (ReplyError (ValueError a))),
        add_events [ReplyError (ValueError a)] w)).
Proof.
  intros args. subst args. split.
  - intros [H1 | H2].
    + unfold track, track_body, try_except, bind, lift. rewrite H1. simpl.
      unfold reply_error, call, emit, outcome. simpl.
      by destruct (reply_text_error env _).
    + unfold track, track_body, try_except, bind, lift. rewrite H2.
      destruct (Py.index (Py.split (message_text message)) 1); simpl;
        unfold reply_error, call, emit, outcome; simpl;
        by destruct (reply_text_error env _).
  - intros a H1 H2 Hint.
    unfold track, track_body, try_except, bind, lift. rewrite H2, Hint.
    destruct (Py.index (Py.split (message_text message)) 1); [| done]. simpl.
    unfold reply_error, call, emit, outcome. simpl.
    by destruct (reply_text_error env _).
Qed.

(** X13. When the scheduler refuses the job, track changes neither the
    store nor the job table.  When the job is added and saving the store
    fails, the chat is told of an error, yet the job stays in the table and
    the target in the store in memory. *)
Theorem track_failure_paths (env : Env) (message : Message) (w : World)
    (url : string) (interval : Z) (night_mode : bool) (e : Exn) :
  parses message url interval night_mode →
  interval_trigger_error env interval = None →
  (add_job_error env (job_id_of (chat_id message) url) = Some e →
   track env message w
   = (outcome (reply_text_error env (ReplyError e)),
      add_events [ReplyError e] w))
  ∧ (add_job_error env (job_id_of (chat_id message) url) = None →
     save_json_error env = Some e →
     let w' := tracked_world message url interval night_mode w in
     track env message w
     = (outcome (reply_text_error env (ReplyError e)),
        add_events [SaveJson (user_data w'); ReplyError e] w')).
Proof.
  intros (Hu & (a & Ha & Hi) & ->) Htrig. split.
  - intros Hadd. step_cmd. rewrite Hu, Ha, Hi. simpl. rewrite Htrig. simpl.
    rewrite Hadd. simpl. by destruct (reply_text_error env _).
  - intros Hadd Hsave w'. subst w'.
    unfold tracked_world, job_of, fresh_target. step_cmd.
    rewrite Hu, Ha, Hi. simpl. rewrite Htrig. simpl. rewrite Hadd. simpl.
    rewrite Hsave. simpl. norm_world.
    destruct (reply_text_error env _); by destruct (Py.mem "night" _).
Qed.

End MoreCommands.

Section Untrack.

Context {lib : UrlLib}.

Lemma untrack_run env message w url t job :
  Py.index (Py.split (message_text message)) 1 = Some url →
  lookup_tracked (user_data w) (Py.str (chat_id message)) url = Some t →
  remove_job_error env (job_id_of (chat_id message) url) = None →
  jobs w !! job_id_of (chat_id message) url = Some job →
  save_json_error env = None →
  reply_text_error env (ReplyText ("Stopped tracking " +:+ url)) = None →
  let user_str := Py.str (chat_id message) in
  let data := <[user_str := delete url (default ∅ (user_data w !! user_str))]>
                (user_data w) in
  untrack env message w
  = (Ok tt,
     add_events [SaveJson data; ReplyText ("Stopped tracking " +:+ url)]
       (set_user_data data
          (set_jobs (delete (job_id_of (chat_id message) url) (jobs w)) w))).
Proof.
  intros Hu Hl Hrm Hjob Hsave Hreply user_str data. subst user_str data.
  unfold untrack, untrack_body, try_except, bind, get_user_data. rewrite Hu.
  simpl. rewrite Hl.
  unfold remove_job, save_json, reply_text, call, emit, lift, bind, ret,
    get_jobs, put_jobs, put_user_data, get_user_data, outcome. simpl.
  rewrite Hrm. simpl. rewrite Hjob. simpl. rewrite Hsave. simpl.
  rewrite Hreply. simpl. by norm_world.
Qed.

(** X14. When nothing outside fails, untrack after an accepted track of the
    same target leaves that target untracked and without a job, every other
    target stored as it was before the two commands, and every job under
    another identifier as it was.  The job removed is the one under the
    identifier of the target: another target of the chat whose URL has the
    same identifier stays stored and is left without a job.  Where no such
    target is stored, every other stored target has the job it had. *)
Theorem untrack_undoes_track (env env' : Env) (message message' : Message)
    (w : World) (url : string) (interval : Z) (night_mode : bool) :
  parses message url interval night_mode →
  served env message url interval →
  chat_id message' = chat_id message →
  Py.index (Py.split (message_text message')) 1 = Some url →
  remove_job_error env' (job_id_of (chat_id message) url) = None →
  save_json_error env' = None →
  reply_text_error env' (ReplyText ("Stopped tracking " +:+ url)) = None →
  let w1 := snd (track env message w) in
  let w2 := snd (untrack env' message' w1) in
  let chat := chat_id message in
  let user_str := Py.str chat in
  let job_id := job_id_of chat url in
  fst (untrack env' message' w1) = Ok tt
  ∧ lookup_tracked (user_data w2) user_str url = None
  ∧ jobs w2 !! job_id = None
  ∧ (∀ user_str' url', (user_str', url') ≠ (user_str, url) →
       lookup_tracked (user_data w2) user_str' url'
       = lookup_tracked (user_data w) user_str' url')
  ∧ (∀ job_id', job_id' ≠ job_id → jobs w2 !! job_id' = jobs w !! job_id')
  ∧ (∀ url' t, url' ≠ url →
       lookup_tracked (user_data w) user_str url' = Some t →
       job_id_of chat url' = job_id →
       lookup_tracked (user_data w2) user_str url' = Some t
       ∧ jobs w2 !! job_id_of chat url' = None)
  ∧ (¬ collides w chat url →
     ∀ chat' url' t,
       (chat', url') ≠ (chat, url) →
       lookup_tracked (user_data w) (Py.str chat') url' = Some t →
       jobs w2 !! job_id_of chat' url' = jobs w !! job_id_of chat' url').
Proof.
  intros Hp Hs Hchat Hu Hrm Hsave Hreply w1 w2 chat user_str job_id.
  assert (fst (untrack env' message' w1) = Ok tt
          ∧ lookup_tracked (user_data w2) user_str url = None
          ∧ jobs w2 !! job_id = None
          ∧ (∀ user_str' url', (user_str', url') ≠ (user_str, url) →
               lookup_tracked (user_data w2) user_str' url'
               = lookup_tracked (user_data w) user_str' url')
          ∧ (∀ job_id', job_id' ≠ job_id → jobs w2 !! job_id' = jobs w !! job_id'))
    as (Hok & Hgone & Hjob & Hothers & Hjobs).
  { subst w1 w2 chat user_str job_id.
    rewrite (track_served _ _ _ _ _ _ Hp Hs). simpl.
    erewrite untrack_run; rewrite ?Hchat; simpl; try done.
    - split; [done |]. split.
      { rewrite lookup_tracked_delete. by rewrite decide_True. }
      split; [apply lookup_delete_eq |]. split.
      + intros user_str' url' Hne.
        rewrite lookup_tracked_delete, decide_False by done.
        by apply lookup_tracked_store_ne.
      + intros job_id' Hne.
        by rewrite lookup_delete_ne, lookup_insert_ne.
    - apply lookup_tracked_store.
    - apply lookup_insert_eq. }
  split; [done |]. split; [done |]. split; [done |]. split; [done |].
  split; [done |]. split.
  - intros url' t Hne Hlook Hid. split.
    + rewrite Hothers; [done |]. intros Heq. by injection Heq.
    + by rewrite Hid.
  - intros Hfree chat' url' t Hne Hlook. apply Hjobs. intros Hid.
    pose proof (job_id_inj _ _ _ _ Hid) as ->.
    apply Hfree. exists url', t. split; [| done].
    intros ->. by apply Hne.
Qed.

(** X15. untrack of a target that is not stored answers that it is not
    tracked; untrack of a stored target whose job is not in the job table
    answers with the scheduler's lookup error.  Either way the store and the
    job table stay as they were and nothing is saved: a stored target with
    no job cannot be removed by untrack. *)
Theorem untrack_without_target_or_job (env : Env) (message : Message)
    (w : World) (url : string) :
  Py.index (Py.split (message_text message)) 1 = Some url →
  let user_str := Py.str (chat_id message) in
  let job_id := job_id_of (chat_id message) url in
  let w' := snd (untrack env message w) in
  (lookup_tracked (user_data w) user_str url = None →
   w' = add_events [ReplyText ("Not tracking " +:+ url)] w
   ∨ ∃ e, w' = add_events
                 [ReplyText ("Not tracking " +:+ url); ReplyError e] w)
  ∧ (is_Some (lookup_tracked (user_data w) user_str url) →
     jobs w !! job_id = None →
     remove_job_error env job_id = None →
     w' = add_events [ReplyError (JobLookupError job_id)] w).
Proof.
  intros Hu user_str job_id w'. subst user_str job_id w'. split.
  - intros Hl.
    unfold untrack, untrack_body, try_except, bind, get_user_data. rewrite Hu.
    simpl. rewrite Hl.
    unfold reply_text, reply_error, call, emit, outcome. simpl.
    destruct (reply_text_error env (ReplyText _)) as [e|]; simpl.
    + right. exists e. by norm_world.
    + by left.
  - intros [t Hl] Hjob Hrm.
    unfold untrack, untrack_body, try_except, bind, get_user_data. rewrite Hu.
    simpl. rewrite Hl.
    unfold remove_job, reply_error, call, emit, lift, bind, raise, get_jobs,
      outcome. simpl.
    rewrite Hrm. simpl. by rewrite Hjob.
Qed.

(** X16. track and untrack sent from one chat never change what is stored
    for a target of another chat, nor the job of a target of another
    chat. *)
Theorem commands_keep_other_chats (env : Env) (message : Message) (w : World)
    (chat' : Z) (url' : string) (command : Env → Message → M unit) :
  command = track ∨ command = untrack →
  chat' ≠ chat_id message →
  let w' := snd (command env message w) in
  lookup_tracked (user_data w') (Py.str chat') url'
  = lookup_tracked (user_data w) (Py.str chat') url'
  ∧ jobs w' !! job_id_of chat' url' = jobs w !! job_id_of chat' url'.
Proof.
  intros Hcmd Hne w'. subst w'.
  assert (∀ url, (Py.str chat', url') ≠ (Py.str (chat_id message), url))
    as Hkey.
  { intros url Heq. injection Heq as Heq _. by apply str_inj in Heq. }
  assert (∀ url, job_id_of chat' url' ≠ job_id_of (chat_id message) url)
    as Hid.
  { intros url Heq. by apply job_id_inj in Heq. }
  destruct Hcmd as [-> | ->].
  - destruct (track_state env message w)
      as [[-> ->] | (url & interval & night & _ & -> & ->)]; [done |].
    unfold tracked_world. simpl.
    rewrite lookup_tracked_store_ne by done.
    by rewrite lookup_insert_ne.
  - destruct (untrack_state env message w)
      as [[-> ->] | (url & t & job & _ & _ & -> & ->)]; [done |].
    rewrite lookup_tracked_delete, decide_False by done.
    by rewrite lookup_delete_ne.
Qed.

(** X17. A cycle changes what is stored for its own target only. *)
Theorem cycle_keeps_other_targets (env : Env) (url : string) (user_id : Z)
    (w : World) (user_str' url' : string) :
  (user_str', url') ≠ (Py.str user_id, url) →
  lookup_tracked (user_data (after_cycle env url user_id w)) user_str' url'
  = lookup_tracked (user_data w) user_str' url'.
Proof.
  intros Hne. unfold after_cycle.
  destruct (check_paths env url user_id w)
    as [[e Hrun] | [Hrun | (response & tracked & new_files & Hch)]];
    try (by rewrite Hrun).
  destruct (check_changed _ _ _ _ _ _ _ Hch) as (rest & Hrun & _).
  rewrite Hrun. simpl. by apply lookup_tracked_store_ne.
Qed.

End Untrack.

Section Documents.

Context {lib : UrlLib}.

Ltac step_doc :=
  unfold reply_text, reply_error, call, try_except, bind, emit, lift, ret,
    raise, outcome;
  simpl.

(** X18. The documents command changes neither the store nor the job
    table, and all it does outside is fetch the page and reply to the chat:
    it downloads no file, sends no document and saves nothing. *)
Theorem documents_only_fetches_and_replies (env : Env) (message : Message)
    (w : World) :
  ∃ events,
    snd (documents env message w) = add_events events w
    ∧ Forall is_fetch_or_reply events.
Proof.
  unfold documents, documents_body.
  destruct (Py.index (Py.split (message_text message)) 1) as [url|].
  - step_doc. destruct (requests_get env url) as [response|e]; simpl.
    + destruct (raise_for_status response) as [[]|e]; simpl.
      * destruct (extract_files (text response) url) as [[|f files]|e]; simpl.
        -- destruct (reply_text_error env (ReplyText _)) as [e|]; simpl;
             eexists; (split; [by norm_world | repeat constructor]).
        -- destruct (reply_text_error env (ReplyText _)) as [e|]; simpl;
             eexists; (split; [by norm_world | repeat constructor]).
        -- exists [HttpGet url; ReplyError e].
           split; [by norm_world | repeat constructor].
      * exists [HttpGet url; ReplyError e].
        split; [by norm_world | repeat constructor].
    + exists [HttpGet url; ReplyError e].
      split; [by norm_world | repeat constructor].
  - step_doc. destruct (reply_text_error env (ReplyText _)) as [e|]; simpl;
      eexists; (split; [by norm_world | repeat constructor]).
Qed.

(** X19. When the page is fetched and read, documents replies with one line
    for every file that a monitoring cycle would extract from the same
    page, in the order of the page, whether or not the chat tracks the
    target and whatever it has seen of it; a page with no file is answered
    with a fixed text. *)
Theorem documents_lists_every_file (env : Env) (message : Message) (w : World)
    (url : string) (response : Response) (files : list File) :
  Py.index (Py.split (message_text message)) 1 = Some url →
  requests_get env url = Ok response →
  raise_for_status response = Ok tt →
  extract_files (text response) url = Ok files →
  let answer :=
    if decide (files = []) then "No files found on this website."
    else "Files found:" +:+ String "010"
           (Py.join (String "010" "") (map listing_line files)) in
  reply_text_error env (ReplyText answer) = None →
  documents env message w
  = (Ok tt, add_events [HttpGet url; ReplyText answer] w).
Proof.
  intros Hu Hget Hst Hex answer Hreply. subst answer.
  unfold documents, documents_body. rewrite Hu. step_doc.
  rewrite Hget. simpl. rewrite Hst. simpl. rewrite Hex. simpl.
  destruct files as [|f files].
  - rewrite decide_True in * by done. rewrite Hreply. by norm_world.
  - rewrite decide_False in * by done. rewrite Hreply. by norm_world.
Qed.

End Documents.

(** * The access policy *)

Section Access.

Import Admin.

#[local] Arguments Py.index : simpl never.
#[local] Arguments Py.split : simpl never.

Lemma get_record (k : Kind) (c : Call) (s : State) :
  get k (record c s) = get k s.
Proof. by destruct k. Qed.

Lemma calls_set (k : Kind) (v : Json) (s : State) : calls (set k v s) = calls s.
Proof. by destruct k. Qed.

Lemma get_set (k k' : Kind) (v : Json) (s : State) :
  get k' (set k v s) = if decide (k' = k) then v else get k' s.
Proof. by destruct k, k'. Qed.

Ltac step_admin :=
  unfold reply, reply_failure, save_json, call, try_except, bind, lift, read,
    write, ret;
  simpl.

(** What [add] leaves: the lists as they were, or its argument appended to
    a list that did not hold it. *)
Lemma add_state (k : Kind) (out : Outside_world) (u : Update) (s : State) :
  let s' := snd (add k out u s) in
  (∀ k', get k' s' = get k' s)
  ∨ ∃ x items,
      from_user u = Some OWNER_ID
      ∧ Py.index (Py.split (text_of u)) 1 = Some x
      ∧ get k s = JArr items
      ∧ existsb (is_str x) items = false
      ∧ ∀ k', get k' s' = if decide (k' = k) then JArr (items ++ [JStr x])
                          else get k' s.
Proof.
  unfold add, add_body, sender.
  destruct (from_user u) as [id|]; [| left; intros k'; step_admin;
                                       by rewrite get_record].
  step_admin. destruct (Z.eqb_spec id OWNER_ID) as [->|Hne]; simpl.
  2: { left. intros k'. step_admin.
       destruct (reply_error out (Reply _)); simpl; by rewrite !get_record. }
  destruct (Py.index (Py.split (text_of u)) 1) as [x|].
  2: { left. intros k'. step_admin.
       destruct (reply_error out (Reply _)); simpl; by rewrite !get_record. }
  step_admin. destruct (get k s) as [| | | | str|items|members] eqn:Hget; simpl;
    try (left; intros k'; by rewrite get_record).
  - destruct (Py.contains x str); simpl.
    + left. intros k'.
      destruct (reply_error out (Reply _)); simpl; by rewrite !get_record.
    + left. intros k'. by rewrite get_record.
  - destruct (existsb (is_str x) items) eqn:Hin; simpl.
    + left. intros k'.
      destruct (reply_error out (Reply _)); simpl; by rewrite !get_record.
    + right. exists x, items. repeat split; try done. intros k'.
      destruct (save_error out _); simpl;
        [| destruct (reply_error out (Reply _)); simpl];
        by rewrite !get_record, get_set.
  - destruct (existsb _ members); simpl.
    + left. intros k'.
      destruct (reply_error out (Reply _)); simpl; by rewrite !get_record.
    + left. intros k'. by rewrite get_record.
Qed.

(** What [remove_entry] leaves: the lists as they were, or a list without
    the first occurrence of its argument. *)
Lemma remove_state (k : Kind) (out : Outside_world) (u : Update) (s : State) :
  let s' := snd (remove_entry k out u s) in
  (∀ k', get k' s' = get k' s)
  ∨ ∃ x items,
      from_user u = Some OWNER_ID
      ∧ Py.index (Py.split (text_of u)) 1 = Some x
      ∧ get k s = JArr items
      ∧ existsb (is_str x) items = true
      ∧ ∀ k', get k' s' = if decide (k' = k) then JArr (remove_first x items)
                          else get k' s.
Proof.
  unfold remove_entry, remove_body, sender.
  destruct (from_user u) as [id|]; [| left; intros k'; step_admin;
                                       by rewrite get_record].
  step_admin. destruct (Z.eqb_spec id OWNER_ID) as [->|Hne]; simpl.
  2: { left. intros k'. step_admin.
       destruct (reply_error out (Reply _)); simpl; by rewrite !get_record. }
  destruct (Py.index (Py.split (text_of u)) 1) as [x|].
  2: { left. intros k'. step_admin.
       destruct (reply_error out (Reply _)); simpl; by rewrite !get_record. }
  step_admin. destruct (get k s) as [| | | | str|items|members] eqn:Hget; simpl;
    try (left; intros k'; by rewrite get_record).
  - destruct (Py.contains x str); simpl.
    + left. intros k'. by rewrite get_record.
    + left. intros k'.
      destruct (reply_error out (Reply _)); simpl; by rewrite !get_record.
  - destruct (existsb (is_str x) items) eqn:Hin; simpl.
    + right. exists x, items. repeat split; try done. intros k'.
      destruct (save_error out _); simpl;
        [| destruct (reply_error out (Reply _)); simpl];
        by rewrite !get_record, get_set.
    + left. intros k'.
      destruct (reply_error out (Reply _)); simpl; by rewrite !get_record.
  - destruct (existsb _ members); simpl.
    + left. intros k'. by rewrite get_record.
    + left. intros k'.
      destruct (reply_error out (Reply _)); simpl; by rewrite !get_record.
Qed.

Lemma add_state_owner (k : Kind) (out : Outside_world) (u : Update) (s : State)
    (x : string) (items : list Json) :
  from_user u = Some OWNER_ID →
  Py.index (Py.split (text_of u)) 1 = Some x →
  get k s = JArr items →
  ∀ k', get k' (snd (add k out u s))
        = if decide (k' = k)
          then JArr (if existsb (is_str x) items then items
                     else items ++ [JStr x])
          else get k' s.
Proof.
  intros Hu Hx Hget k'. unfold add, add_body, sender. rewrite Hu, Hx.
  step_admin. rewrite Hget. simpl.
  destruct (existsb (is_str x) items); simpl.
  - destruct (reply_error out (Reply _)); simpl; rewrite !get_record;
      case_decide; by subst.
  - destruct (save_error out _); simpl;
      [| destruct (reply_error out (Reply _)); simpl];
      by rewrite !get_record, get_set.
Qed.

Lemma remove_first_absent (x : string) (items : list Json) :
  existsb (is_str x) items = false → remove_first x items = items.
Proof.
  induction items as [|v items IH]; [done |]. simpl.
  destruct (is_str x v); [done |]. simpl. intros H. by rewrite IH.
Qed.

Lemma remove_first_last (x : string) (items : list Json) :
  existsb (is_str x) items = false →
  remove_first x (items ++ [JStr x]) = items.
Proof.
  induction items as [|v items IH]; simpl.
  - by rewrite String.eqb_refl.
  - destruct (is_str x v); [done |]. simpl. intros H. by rewrite IH.
Qed.

Lemma remove_state_owner (k : Kind) (out : Outside_world) (u : Update)
    (s : State) (x : string) (items : list Json) :
  from_user u = Some OWNER_ID →
  Py.index (Py.split (text_of u)) 1 = Some x →
  get k s = JArr items →
  ∀ k', get k' (snd (remove_entry k out u s))
        = if decide (k' = k) then JArr (remove_first x items) else get k' s.
Proof.
  intros Hu Hx Hget k'. unfold remove_entry, remove_body, sender.
  rewrite Hu, Hx. step_admin. rewrite Hget. simpl.
  destruct (existsb (is_str x) items) eqn:Hin; simpl.
  - destruct (save_error out _); simpl;
      [| destruct (reply_error out (Reply _)); simpl];
      by rewrite !get_record, get_set.
  - rewrite (remove_first_absent _ _ Hin).
    destruct (reply_error out (Reply _)); simpl; rewrite !get_record;
      case_decide; by subst.
Qed.

(** [is_authorized] reads the lists only. *)
Lemma is_authorized_ext (s s' : State) (v : Update) :
  (∀ k, get k s' = get k s) → is_authorized s' v = is_authorized s v.
Proof.
  intros Hget. unfold is_authorized.
  pose proof (Hget Channels) as Hc. pose proof (Hget Supergroups) as Hg.
  pose proof (Hget Sudo) as Hs. simpl in Hc, Hg, Hs. by rewrite Hc, Hg, Hs.
Qed.

Lemma is_authorized_subject (s : State) (v : Update) (k : Kind) (c : Z) :
  subject_of v = Some (k, c) →
  is_authorized s v
  = match contains (get k s) (Py.str c) with
    | Done b => Done (b || match k with
                           | Sudo => c =? OWNER_ID
                           | _ => false
                           end)
    | Failed e => Failed e
    end.
Proof.
  unfold subject_of, is_authorized.
  destruct (chat_type v); try discriminate.
  - destruct (from_user v) as [id|]; [| discriminate]. simpl.
    intros [= <- <-]. simpl.
    by destruct (contains (sudo_users s) (Py.str id)) as [[]|].
  - intros [= <- <-]. simpl.
    destruct (contains _ _) as [b|]; [| done]. by rewrite orb_false_r.
  - intros [= <- <-]. simpl.
    destruct (contains _ _) as [b|]; [| done]. by rewrite orb_false_r.
Qed.

Lemma is_str_eq (x y : string) : is_str x (JStr y) = true ↔ x = y.
Proof. simpl. apply String.eqb_eq. Qed.

Lemma existsb_occurrences (x : string) (items : list Json) :
  existsb (is_str x) items = (0 <? occurrences x items)%nat.
Proof.
  unfold occurrences. induction items as [|v items IH]; [done |]. simpl.
  destruct (is_str x v); simpl; [done | apply IH].
Qed.

Lemma existsb_remove_first (x : string) (items : list Json) :
  existsb (is_str x) (remove_first x items) = (1 <? occurrences x items)%nat.
Proof.
  induction items as [|v items IH]; [done |]. unfold occurrences in *. simpl.
  destruct (is_str x v) eqn:Hv; simpl.
  - apply existsb_occurrences.
  - by rewrite Hv, IH.
Qed.

Lemma occurrences_app (x : string) (l1 l2 : list Json) :
  occurrences x (l1 ++ l2) = (occurrences x l1 + occurrences x l2)%nat.
Proof. unfold occurrences. by rewrite List.filter_app, length_app. Qed.

Lemma occurrences_remove_first (x y : string) (items : list Json) :
  (occurrences y (remove_first x items) ≤ occurrences y items)%nat.
Proof.
  unfold occurrences. induction items as [|v items IH]; [done |]. simpl.
  destruct (is_str x v); simpl.
  - destruct (is_str y v); simpl; lia.
  - destruct (is_str y v); simpl; lia.
Qed.

Lemma serve_state (r : Request) (s : State) :
  let s' := snd (serve r s) in
  (∀ k', get k' s' = get k' s)
  ∨ ∃ x items,
      from_user (update r) = Some OWNER_ID
      ∧ Py.index (Py.split (text_of (update r))) 1 = Some x
      ∧ get (kind r) s = JArr items
      ∧ existsb (is_str x) items = negb (adding r)
      ∧ ∀ k', get k' s'
              = if decide (k' = kind r)
                then JArr (if adding r then items ++ [JStr x]
                           else remove_first x items)
                else get k' s.
Proof.
  destruct r as [[] k out u]; unfold serve; simpl.
  - apply add_state.
  - apply remove_state.
Qed.

(** X20. A command of the owner kind sent by anyone but the owner, or in a
    post that has no sender, changes none of the three lists and saves
    nothing; the first answer is the refusal, or the error of the missing
    sender. *)
Theorem only_owner_changes_access (r : Request) (s : State) :
  from_user (update r) ≠ Some OWNER_ID →
  let s' := snd (serve r s) in
  (∀ k, get k s' = get k s)
  ∧ ∃ rest,
      calls s'
      = calls s
        ++ match from_user (update r) with
           | None => ReplyError NoSender
           | Some _ => Reply "Only the owner can use this command."
           end :: rest
      ∧ Forall (fun c => ¬ is_save c) rest.
Proof.
  intros Hne s'. subst s'. split.
  - destruct (serve_state r s) as [Hsame | (x & items & Hu & _)]; done.
  - destruct r as [b k out u]. simpl in *. unfold serve. simpl.
    assert (∀ body : Kind → Outside_world → Update → Act unit,
              body = add_body ∨ body = remove_body →
              ∃ rest,
                calls (snd (try_except (body k out u) (reply_failure out) s))
                = calls s
                  ++ match from_user u with
                     | None => ReplyError NoSender
                     | Some _ => Reply "Only the owner can use this command."
                     end :: rest
                ∧ Forall (fun c => ¬ is_save c) rest) as Hboth.
    { intros body Hbody.
      assert (body k out u
              = bind (lift (sender u))
                  (fun id => if negb (id =? OWNER_ID)
                             then reply out "Only the owner can use this command."
                             else body k out {| chat_type := chat_type u;
                                                chat := chat u;
                                                from_user := Some OWNER_ID;
                                                text_of := text_of u |}))
        as ->.
      { destruct Hbody as [-> | ->]; unfold add_body, remove_body, sender, bind,
          lift; simpl; destruct (from_user u) as [id|]; try done;
          by destruct (Z.eqb_spec id OWNER_ID). }
      unfold sender. destruct (from_user u) as [id|] eqn:Hid.
      - step_admin. destruct (Z.eqb_spec id OWNER_ID) as [->|_]; [done |].
        step_admin. destruct (reply_error out (Reply _)) as [e|]; simpl.
        + exists [ReplyError (Outside e)]. split; [| repeat constructor; auto].
          by rewrite <- app_assoc.
        + by exists [].
      - step_admin. by exists []. }
    destruct b; [apply Hboth; by left | apply Hboth; by right].
Qed.

(** X21. After the owner's add command for the identifier of a chat, or of
    a user, that chat or user is authorized, whether or not saving the list
    or replying fails. *)
Theorem add_authorizes_its_subject (k : Kind) (out : Outside_world)
    (u v : Update) (s : State) (c : Z) (items : list Json) :
  from_user u = Some OWNER_ID →
  Py.index (Py.split (text_of u)) 1 = Some (Py.str c) →
  get k s = JArr items →
  subject_of v = Some (k, c) →
  is_authorized (snd (add k out u s)) v = Done true.
Proof.
  intros Hu Hx Hget Hv.
  rewrite (is_authorized_subject _ _ _ _ Hv).
  rewrite (add_state_owner _ _ _ _ _ _ Hu Hx Hget), decide_True by done.
  simpl. destruct (existsb (is_str (Py.str c)) items) eqn:Hin.
  - by rewrite Hin.
  - rewrite existsb_app. simpl. by rewrite String.eqb_refl, orb_true_r.
Qed.

(** X22. An add command changes the answer of the authorization filter
    for no message but those of the chat or user whose identifier, written
    as Python writes the number, is the argument of the command. *)
Theorem add_authorizes_nothing_else (k : Kind) (out : Outside_world)
    (u v : Update) (s : State) :
  (∀ c, subject_of v = Some (k, c) →
        Py.index (Py.split (text_of u)) 1 ≠ Some (Py.str c)) →
  is_authorized (snd (add k out u s)) v = is_authorized s v.
Proof.
  intros Hother.
  destruct (add_state k out u s)
    as [Hsame | (x & items & _ & Hx & Hget & Hin & Hs')];
    [by apply is_authorized_ext |].
  destruct (subject_of v) as [[k' c]|] eqn:Hv.
  - rewrite !(is_authorized_subject _ _ _ _ Hv), Hs'.
    case_decide as Hk; [| done]. subst k'. rewrite Hget. simpl.
    rewrite existsb_app. simpl. rewrite orb_false_r.
    destruct (String.eqb_spec (Py.str c) x) as [<-|Hne].
    + by destruct (Hother c).
    + by rewrite orb_false_r.
  - unfold subject_of in Hv. unfold is_authorized.
    destruct (chat_type v); try done.
    by destruct (from_user v).
Qed.

(** X23. After the owner's remove command for the identifier of a chat or
    user, that chat or user is still authorized exactly when the list held
    the identifier more than once, the owner writing in private apart:
    remove takes out the first occurrence only. *)
Theorem remove_revokes_unless_listed_twice (k : Kind) (out : Outside_world)
    (u v : Update) (s : State) (c : Z) (items : list Json) :
  from_user u = Some OWNER_ID →
  Py.index (Py.split (text_of u)) 1 = Some (Py.str c) →
  get k s = JArr items →
  subject_of v = Some (k, c) →
  is_authorized (snd (remove_entry k out u s)) v
  = Done ((1 <? occurrences (Py.str c) items)%nat
          || match k with
             | Sudo => c =? OWNER_ID
             | _ => false
             end).
Proof.
  intros Hu Hx Hget Hv.
  rewrite (is_authorized_subject _ _ _ _ Hv).
  rewrite (remove_state_owner _ _ _ _ _ _ Hu Hx Hget), decide_True by done.
  simpl. by rewrite existsb_remove_first.
Qed.

(** X24. The owner's commands never put a string twice into a list: a list
    in which no string occurs twice stays such a list through any sequence
    of the six commands. *)
Theorem commands_keep_lists_duplicate_free (rs : list Request) (s : State)
    (k : Kind) :
  duplicate_free (get k s) → duplicate_free (get k (serve_all rs s)).
Proof.
  revert s. induction rs as [|r rs IH]; intros s Hfree; [done |].
  simpl. apply IH.
  destruct (serve_state r s) as [Hsame | (x & items & _ & _ & Hget & Hin & Hs')];
    [by rewrite Hsame |].
  rewrite Hs'. case_decide as Hk; [| done]. subst k.
  destruct Hfree as (items' & Heq & Hocc). rewrite Hget in Heq.
  injection Heq as <-. eexists. split; [done |]. intros y.
  destruct (adding r); simpl in Hin.
  - rewrite occurrences_app. unfold occurrences at 2. simpl.
    destruct (String.eqb_spec y x) as [->|_]; simpl.
    + rewrite existsb_occurrences in Hin.
      apply Nat.ltb_ge in Hin. lia.
    + specialize (Hocc y). lia.
  - etrans; [apply occurrences_remove_first | apply Hocc].
Qed.

(** X25. When nothing is listed twice, the owner's remove command after the
    owner's add command of an identifier that was not listed gives back
    the three lists as they were. *)
Theorem add_then_remove_restores_lists (k : Kind) (out out' : Outside_world)
    (u u' : Update) (s : State) (x : string) (items : list Json) :
  from_user u = Some OWNER_ID →
  from_user u' = Some OWNER_ID →
  Py.index (Py.split (text_of u)) 1 = Some x →
  Py.index (Py.split (text_of u')) 1 = Some x →
  get k s = JArr items →
  existsb (is_str x) items = false →
  ∀ k', get k' (snd (remove_entry k out' u' (snd (add k out u s))))
        = get k' s.
Proof.
  intros Hu Hu' Hx Hx' Hget Hin k'.
  pose proof (add_state_owner _ out _ _ _ _ Hu Hx Hget) as Hadd.
  rewrite Hin in Hadd.
  assert (get k (snd (add k out u s)) = JArr (items ++ [JStr x])) as Hget'.
  { by rewrite Hadd, decide_True. }
  rewrite (remove_state_owner _ _ _ _ _ _ Hu' Hx' Hget').
  case_decide as Hk.
  - subst k'. by rewrite Hget, remove_first_last.
  - by rewrite Hadd, decide_False.
Qed.

Lemma serve_keeps_empty_sudo (r : Request) (s : State) :
  sudo_users s = JObj [] → sudo_users (snd (serve r s)) = JObj [].
Proof.
  intros Hempty.
  destruct (serve_state r s) as [Hsame | (x & items & _ & _ & Hget & _ & Hs')].
  - pose proof (Hsame Sudo) as Hsudo. simpl in Hsudo. congruence.
  - pose proof (Hs' Sudo) as Hsudo. case_decide as Hk.
    + rewrite <- Hk in Hget. simpl in Hget. congruence.
    + simpl in Hsudo. congruence.
Qed.

(** X26. When the file of the sudo users is missing or unreadable at the
    start, the sudo users are a dictionary, not a list.  The owner's
    addsudo command then fails with the error of the missing method and
    adds nobody, and through any sequence of the six commands a private
    message is authorized exactly when the owner sent it. *)
Theorem missing_sudo_file_admits_the_owner_only (fs : string → FileState)
    (rs : list Request) :
  fs SUDO_USERS_FILE = Missing ∨ fs SUDO_USERS_FILE = Corrupt →
  let s := serve_all rs (boot fs) in
  sudo_users s = JObj []
  ∧ (∀ v id, chat_type v = PRIVATE → from_user v = Some id →
       is_authorized s v = Done (id =? OWNER_ID))
  ∧ (∀ out u x, from_user u = Some OWNER_ID →
       Py.index (Py.split (text_of u)) 1 = Some x →
       snd (addsudo out u s) = record (ReplyError NoSuchMethod) s).
Proof.
  intros Hfile s.
  assert (sudo_users s = JObj []) as Hempty.
  { subst s.
    assert (sudo_users (boot fs) = JObj []) as Hboot.
    { unfold boot, load_json. simpl. by destruct Hfile as [-> | ->]. }
    revert Hboot. generalize (boot fs).
    induction rs as [|r rs IH]; intros s0 H0; [done |].
    simpl. apply IH. by apply serve_keeps_empty_sudo. }
  split; [done |]. split.
  - intros v id Hpriv Hid. unfold is_authorized. by rewrite Hpriv, Hid, Hempty.
  - intros out u x Hu Hx. unfold addsudo, add, add_body, sender.
    rewrite Hu, Hx. step_admin. by rewrite Hempty.
Qed.

End Access.

(** * The further properties on concrete inputs *)

Section MoreExamples.

Existing Instance cpython.

Lemma extract_files_app_witness :
  extract_files [link D1] site = Ok [pdf D1]
  ∧ extract_files [link D2; link D1] site = Ok [pdf D2; pdf D1]
  ∧ extract_files ([link D1] ++ [link D2; link D1]) site
    = Ok ([pdf D1] ++ [pdf D2; pdf D1]).
Proof.
  assert (extract_files [link D1] site = Ok [pdf D1]) as H1
    by (vm_compute; reflexivity).
  assert (extract_files [link D2; link D1] site = Ok [pdf D2; pdf D1]) as H2
    by (vm_compute; reflexivity).
  split; [exact H1 |]. split; [exact H2 |].
  exact (extract_files_app _ _ _ _ _ H1 H2).
Defined.

Lemma type_of_url_sound_witness :
  type_of_url "http://h/Photo.PNG" = "image"
  ∧ ∃ ext, ext ∈ IMAGE_EXTS
           ∧ Py.endswith (Py.lower "http://h/Photo.PNG") ext = true.
Proof.
  assert (type_of_url "http://h/Photo.PNG" = "image") as H
    by (vm_compute; reflexivity).
  split; [exact H |].
  exact (proj1 (type_of_url_sound "http://h/Photo.PNG") H).
Defined.

Lemma downloaded_name_is_clean_witness :
  download_result env_c4 D1 (Some "D1.pdf") = Some "D1.pdf.pdf"
  ∧ Py.truthy (Some "D1.pdf.pdf") = true
  ∧ ∀ c, Py.forbidden_char c = true → Py.contains_char c "D1.pdf.pdf" = false.
Proof.
  assert (download_result env_c4 D1 (Some "D1.pdf") = Some "D1.pdf.pdf") as H
    by (vm_compute; reflexivity).
  split; [exact H |].
  exact (downloaded_name_is_clean env_c4 D1 (Some "D1.pdf") "D1.pdf.pdf" H).
Defined.

Lemma download_file_bad_content_length_witness :
  session_get env_bad_length D1 = Ok (file_of_size (Some "ten") 10)
  ∧ Py.int "ten" = None
  ∧ download_file env_bad_length D1 (Some "D1.pdf") empty_world
    = (Ok None,
       add_events [SessionGet D1; LogError (ValueError "ten")] empty_world).
Proof.
  assert (session_get env_bad_length D1 = Ok (file_of_size (Some "ten") 10))
    as H1 by (vm_compute; reflexivity).
  assert (Py.int "ten" = None) as H2 by (vm_compute; reflexivity).
  split; [exact H1 |]. split; [exact H2 |].
  exact (download_file_bad_content_length env_bad_length D1 (Some "D1.pdf")
           empty_world _ "ten" H1 eq_refl eq_refl H2).
Defined.

Lemma poll_of_missing_target_is_silent_witness :
  lookup_tracked (user_data empty_world) (Py.str 42) site = None
  ∧ user_data (after_cycle env_c4 site 42 empty_world) = user_data empty_world
  ∧ jobs (after_cycle env_c4 site 42 empty_world) = jobs empty_world
  ∧ Forall is_quiet (cycle_events env_c4 site 42 empty_world).
Proof.
  assert (lookup_tracked (user_data empty_world) (Py.str 42) site = None) as H
    by (vm_compute; reflexivity).
  split; [exact H |].
  exact (poll_of_missing_target_is_silent env_c4 site 42 empty_world H).
Defined.

Lemma cycle_sends_only_unseen_files_witness :
  let w := tracking site never_polled in
  SendDocument 42 "D1.pdf.pdf" "D1.pdf (document)" ∈ cycle_events env_c4 site 42 w
  ∧ ∃ response tracked new_files f,
      observes_change env_c4 site 42 w response tracked new_files ∧
      f ∈ new_files ∧ (file_url f ∉ seen w 42 site) ∧
      download_result env_c4 (file_url f) (Some (file_name f))
      = Some "D1.pdf.pdf" ∧
      "D1.pdf (document)" = caption_of f.
Proof.
  intros w.
  assert (SendDocument 42 "D1.pdf.pdf" "D1.pdf (document)"
          ∈ cycle_events env_c4 site 42 w) as H.
  { apply list_elem_of_In. vm_compute. tauto. }
  split; [exact H |].
  exact (proj2 (cycle_sends_only_unseen_files env_c4 site 42 w 42 _ _ H)).
Defined.

Lemma failed_save_stops_the_cycle_witness :
  let w := tracking site never_polled in
  let env := failing_save env_c4 in
  let data := store_tracked (user_data w) (Py.str 42) site
                (updated (page "B1" [link D1]) never_polled [pdf D1]) in
  observes_change env site 42 w (page "B1" [link D1]) never_polled [pdf D1]
  ∧ check_single_website env site 42 w
    = (Ok tt, add_events [HttpGet site; SaveJson data;
                          LogError (OtherError "disk full")]
                (set_user_data data w)).
Proof.
  intros w env data.
  assert (observes_change env site 42 w (page "B1" [link D1]) never_polled
            [pdf D1]) as H.
  { repeat split; try (vm_compute; reflexivity). vm_compute. discriminate. }
  split; [exact H |].
  exact (failed_save_stops_the_cycle env site 42 w _ _ _
           (OtherError "disk full") H eq_refl).
Defined.

Lemma summary_message_lists_sent_documents_witness :
  let w := tracking site never_polled in
  observes_change env_c4 site 42 w (page "B1" [link D1]) never_polled [pdf D1]
  ∧ ∃ data loop final,
      cycle_events env_c4 site 42 w
      = HttpGet site :: SaveJson data :: loop ++ final ∧
      Forall (fun e => ¬ is_message e) loop ∧
      let text := summary_message site (map snd (documents_sent loop)) in
      (final = [] ∧ documents_sent loop = []
       ∨ (∃ e, final = [LogError e])
       ∨ (documents_sent loop ≠ [] ∧
          (final = [SendMessage 42 text]
           ∨ ∃ e, final = [SendMessage 42 text; LogError e]))).
Proof.
  intros w.
  assert (observes_change env_c4 site 42 w (page "B1" [link D1]) never_polled
            [pdf D1]) as H.
  { repeat split; try (vm_compute; reflexivity). vm_compute. discriminate. }
  split; [exact H |].
  exact (summary_message_lists_sent_documents env_c4 site 42 w _ _ _ H).
Defined.

Lemma refused_document_ends_the_cycle_witness :
  let w := tracking site never_polled in
  let w' := after_cycle env_second_refused site 42 w in
  observes_change env_second_refused site 42 w (page "B1" [link D1; link D2; link D3])
    never_polled ([pdf D1] ++ pdf D2 :: [pdf D3])
  ∧ Forall (passes env_second_refused 42 []) [pdf D1]
  ∧ cycle_events env_second_refused site 42 w
    = [HttpGet site; SaveJson (user_data w');
       SessionGet D1; WriteFile "D1.pdf.pdf";
       SendDocument 42 "D1.pdf.pdf" "D1.pdf (document)"; RemoveFile "D1.pdf.pdf";
       SessionGet D2; WriteFile "D2.pdf.pdf";
       SendDocument 42 "D2.pdf.pdf" "D2.pdf (document)";
       LogError (OtherError "FloodWait")]
  ∧ Forall (fun g => file_url g ∈ seen w' 42 site) [pdf D3].
Proof.
  intros w w'.
  assert (observes_change env_second_refused site 42 w
            (page "B1" [link D1; link D2; link D3]) never_polled
            ([pdf D1] ++ pdf D2 :: [pdf D3])) as H.
  { repeat split; try (vm_compute; reflexivity). vm_compute. discriminate. }
  assert (Forall (passes env_second_refused 42 []) [pdf D1]) as Hpre.
  { constructor; [| constructor]. right; right. exists "D1.pdf.pdf".
    split; [vm_compute; reflexivity |]. split; vm_compute; reflexivity. }
  split; [exact H |]. split; [exact Hpre |].
  apply (refused_document_ends_the_cycle env_second_refused site 42 w _ _
           [pdf D1] [pdf D3] (pdf D2) "D2.pdf.pdf" (OtherError "FloodWait") H).
  - reflexivity.
  - exact Hpre.
  - vm_compute. intros Hin. apply list_elem_of_In in Hin. exact Hin.
  - vm_compute. reflexivity.
  - vm_compute. reflexivity.
Defined.

Lemma first_poll_after_track_observes_change_witness :
  let message := request 42 "/track http://h/ 30 night" in
  let w' := snd (track quiet message (tracking site (polled "B1" [D1]))) in
  parses message site 30 true
  ∧ served quiet message site 30
  ∧ fingerprint w' 42 site = Some ""
  ∧ seen w' 42 site = []
  ∧ observes_change env_c4 site 42 w' (page "B1" [link D1])
      (fresh_target 30 true) [pdf D1].
Proof.
  intros message w'.
  assert (parses message site 30 true) as Hp.
  { split; [reflexivity |]. split; [| reflexivity].
    exists "30". split; reflexivity. }
  assert (served quiet message site 30) as Hs by (repeat split; reflexivity).
  split; [exact Hp |]. split; [exact Hs |].
  apply (first_poll_after_track_observes_change quiet env_c4 message
           (tracking site (polled "B1" [D1])) site 30 true
           (page "B1" [link D1]) [pdf D1] Hp Hs);
    vm_compute; reflexivity.
Defined.

Lemma track_rejects_malformed_request_witness :
  let message := request 42 "/track http://h/ soon" in
  Py.index (Py.split (message_text message)) 1 ≠ None
  ∧ Py.index (Py.split (message_text message)) 2 = Some "soon"
  ∧ Py.int "soon" = None
  ∧ track quiet message empty_world
    = (Ok tt, add_events [ReplyError (ValueError "soon")] empty_world).
Proof.
  intros message.
  assert (Py.index (Py.split (message_text message)) 1 ≠ None) as H1
    by (vm_compute; discriminate).
  assert (Py.index (Py.split (message_text message)) 2 = Some "soon") as H2
    by (vm_compute; reflexivity).
  assert (Py.int "soon" = None) as H3 by (vm_compute; reflexivity).
  split; [exact H1 |]. split; [exact H2 |]. split; [exact H3 |].
  exact (proj2 (track_rejects_malformed_request quiet message empty_world)
           "soon" H1 H2 H3).
Defined.

Lemma track_failure_paths_witness :
  let message := request 42 "/track http://h/ 30" in
  let env := failing_save quiet in
  let w' := tracked_world message site 30 false empty_world in
  parses message site 30 false
  ∧ track env message empty_world
    = (Ok tt,
       add_events [SaveJson (user_data w'); ReplyError (OtherError "disk full")]
         w').
Proof.
  intros message env w'.
  assert (parses message site 30 false) as Hp.
  { split; [reflexivity |]. split; [| reflexivity].
    exists "30". split; reflexivity. }
  split; [exact Hp |].
  exact (proj2 (track_failure_paths env message empty_world site 30 false
                  (OtherError "disk full") Hp eq_refl) eq_refl eq_refl).
Defined.

Lemma untrack_undoes_track_witness :
  let message := request 42 ("/track " +:+ page4055 +:+ " 30") in
  let message' := request 42 ("/untrack " +:+ page4055) in
  let w := run [Track quiet (request 42 ("/track " +:+ page3152 +:+ " 30"));
                Track quiet (request 42 "/track http://h/ 30")] empty_world in
  let w2 := snd (untrack quiet message' (snd (track quiet message w))) in
  parses message page4055 30 false
  ∧ served quiet message page4055 30
  ∧ lookup_tracked (user_data w2) (Py.str 42) page4055 = None
  ∧ jobs w2 !! job_id_of 42 page4055 = None
  ∧ lookup_tracked (user_data w2) (Py.str 42) site
    = lookup_tracked (user_data w) (Py.str 42) site
  ∧ jobs w2 !! job_id_of 42 site = jobs w !! job_id_of 42 site
  ∧ is_Some (jobs w !! job_id_of 42 page3152)
  ∧ is_Some (lookup_tracked (user_data w2) (Py.str 42) page3152)
  ∧ jobs w2 !! job_id_of 42 page3152 = None.
Proof.
  intros message message' w w2.
  assert (parses message page4055 30 false) as Hp.
  { split; [vm_compute; reflexivity |]. split; [| vm_compute; reflexivity].
    exists "30". split; vm_compute; reflexivity. }
  assert (served quiet message page4055 30) as Hs by (repeat split; reflexivity).
  assert (∃ t, lookup_tracked (user_data w) (Py.str 42) page3152 = Some t)
    as [t Ht] by (vm_compute; by eexists).
  split; [exact Hp |]. split; [exact Hs |].
  destruct (untrack_undoes_track quiet quiet message message' w page4055 30 false
              Hp Hs eq_refl)
    as (_ & Hgone & Hjob & Hothers & Hjobs & Hshared & _);
    try (vm_compute; reflexivity).
  split; [exact Hgone |]. split; [exact Hjob |].
  split; [apply Hothers; vm_compute; discriminate |].
  split; [apply Hjobs; vm_compute; discriminate |].
  split; [vm_compute; by eexists |].
  destruct (Hshared page3152 t) as [Hkept Hlost];
    [vm_compute; discriminate | exact Ht | vm_compute; reflexivity |].
  split; [exists t; exact Hkept | exact Hlost].
Defined.

Lemma untrack_without_target_or_job_witness :
  let message := request 42 "/untrack http://h/" in
  let w := tracking site never_polled in
  Py.index (Py.split (message_text message)) 1 = Some site
  ∧ is_Some (lookup_tracked (user_data w) (Py.str 42) site)
  ∧ jobs w !! job_id_of 42 site = None
  ∧ snd (untrack quiet message w)
    = add_events [ReplyError (JobLookupError (job_id_of 42 site))] w.
Proof.
  intros message w.
  assert (Py.index (Py.split (message_text message)) 1 = Some site) as Hu
    by (vm_compute; reflexivity).
  assert (is_Some (lookup_tracked (user_data w) (Py.str 42) site)) as Ht
    by (vm_compute; by eexists).
  assert (jobs w !! job_id_of 42 site = None) as Hj by reflexivity.
  split; [exact Hu |]. split; [exact Ht |]. split; [exact Hj |].
  exact (proj2 (untrack_without_target_or_job quiet message w site Hu)
           Ht Hj eq_refl).
Defined.

Lemma commands_keep_other_chats_witness :
  let message := request 42 "/track http://h/ 30" in
  let w := run [Track quiet (request 7 "/track http://h/ 5")] empty_world in
  let w' := snd (track quiet message w) in
  7 ≠ chat_id message
  ∧ lookup_tracked (user_data w') (Py.str 7) site
    = lookup_tracked (user_data w) (Py.str 7) site
  ∧ jobs w' !! job_id_of 7 site = jobs w !! job_id_of 7 site.
Proof.
  intros message w w'.
  assert (7 ≠ chat_id message) as Hne by (vm_compute; discriminate).
  split; [exact Hne |].
  exact (commands_keep_other_chats quiet message w 7 site track
           (or_introl eq_refl) Hne).
Defined.

Lemma cycle_keeps_other_targets_witness :
  let w := tracking site never_polled in
  (Py.str 7, site) ≠ (Py.str 42, site)
  ∧ lookup_tracked (user_data (after_cycle env_c4 site 42 w)) (Py.str 7) site
    = lookup_tracked (user_data w) (Py.str 7) site.
Proof.
  intros w.
  assert ((Py.str 7, site) ≠ (Py.str 42, site)) as Hne
    by (vm_compute; discriminate).
  split; [exact Hne |].
  exact (cycle_keeps_other_targets env_c4 site 42 w _ _ Hne).
Defined.

Lemma documents_lists_every_file_witness :
  let message := request 42 "/documents http://h/" in
  extract_files [link D1] site = Ok [pdf D1]
  ∧ documents env_c4 message (tracking site (polled "B1" [D1]))
    = (Ok tt,
       add_events
         [HttpGet site;
          ReplyText ("Files found:" +:+ String "010"
                       "D1.pdf (document): http://h/D1.pdf")]
         (tracking site (polled "B1" [D1]))).
Proof.
  intros message.
  assert (extract_files [link D1] site = Ok [pdf D1]) as Hex
    by (vm_compute; reflexivity).
  split; [exact Hex |].
  exact (documents_lists_every_file env_c4 message
           (tracking site (polled "B1" [D1])) site (page "B1" [link D1])
           [pdf D1] eq_refl eq_refl eq_refl Hex eq_refl).
Defined.

(** ** The access policy *)

Lemma only_owner_changes_access_witness :
  let r := {| adding := true; kind := Admin.Channels; outside := reliable;
              update := stranger_says "/addchannel -1001" |} in
  let s := Admin.boot no_files in
  Admin.from_user (update r) ≠ Some Admin.OWNER_ID
  ∧ (∀ k, Admin.get k (snd (serve r s)) = Admin.get k s)
  ∧ ∃ rest,
      Admin.calls (snd (serve r s))
      = Admin.calls s
        ++ Admin.Reply "Only the owner can use this command." :: rest
      ∧ Forall (fun c => ¬ is_save c) rest.
Proof.
  intros r s.
  assert (Admin.from_user (update r) ≠ Some Admin.OWNER_ID) as Hne
    by (vm_compute; discriminate).
  split; [exact Hne |].
  exact (only_owner_changes_access r s Hne).
Defined.

Lemma add_authorizes_its_subject_witness :
  let u := owner_says "/addchannel -1001" in
  let v := channel_post (-1001) "/track http://h/ 30" in
  let s := Admin.boot no_files in
  Admin.is_authorized s v = Admin.Done false
  ∧ Admin.is_authorized (snd (Admin.add Admin.Channels reliable u s)) v
    = Admin.Done true.
Proof.
  intros u v s.
  split; [vm_compute; reflexivity |].
  exact (add_authorizes_its_subject Admin.Channels reliable u v s (-1001) []
           eq_refl eq_refl eq_refl eq_refl).
Defined.

Lemma add_authorizes_nothing_else_witness :
  let u := owner_says "/addchannel -1001" in
  let v := channel_post (-1002) "/track http://h/ 30" in
  let s := Admin.boot no_files in
  (∀ c, subject_of v = Some (Admin.Channels, c) →
        Py.index (Py.split (Admin.text_of u)) 1 ≠ Some (Py.str c))
  ∧ Admin.is_authorized (snd (Admin.add Admin.Channels reliable u s)) v
    = Admin.is_authorized s v.
Proof.
  intros u v s.
  assert (∀ c, subject_of v = Some (Admin.Channels, c) →
               Py.index (Py.split (Admin.text_of u)) 1 ≠ Some (Py.str c)) as H.
  { intros c Hc. injection Hc as <-. vm_compute. discriminate. }
  split; [exact H |].
  exact (add_authorizes_nothing_else Admin.Channels reliable u v s H).
Defined.

Lemma remove_revokes_unless_listed_twice_witness :
  let u := owner_says "/removechannel -1001" in
  let v := channel_post (-1001) "/track http://h/ 30" in
  let s := Admin.boot (channels_file ["-1001"; "-1001"]) in
  Admin.get Admin.Channels s = Admin.JArr [Admin.JStr "-1001"; Admin.JStr "-1001"]
  ∧ Admin.is_authorized (snd (Admin.remove_entry Admin.Channels reliable u s)) v
    = Admin.Done true.
Proof.
  intros u v s.
  assert (Admin.get Admin.Channels s
          = Admin.JArr [Admin.JStr "-1001"; Admin.JStr "-1001"]) as Hget
    by (vm_compute; reflexivity).
  split; [exact Hget |].
  exact (remove_revokes_unless_listed_twice Admin.Channels reliable u v s
           (-1001) _ eq_refl eq_refl Hget eq_refl).
Defined.

Lemma commands_keep_lists_duplicate_free_witness :
  let rs := [owner_request true Admin.Channels "/addchannel -1001";
             owner_request true Admin.Channels "/addchannel -1001";
             owner_request false Admin.Channels "/removechannel -1001";
             owner_request true Admin.Channels "/addchannel -1002"] in
  duplicate_free (Admin.get Admin.Channels (Admin.boot no_files))
  ∧ duplicate_free (Admin.get Admin.Channels (serve_all rs (Admin.boot no_files))).
Proof.
  intros rs.
  assert (duplicate_free (Admin.get Admin.Channels (Admin.boot no_files))) as H.
  { exists []. split; [reflexivity |]. intros x. unfold occurrences. simpl. lia. }
  split; [exact H |].
  exact (commands_keep_lists_duplicate_free rs (Admin.boot no_files)
           Admin.Channels H).
Defined.

Lemma add_then_remove_restores_lists_witness :
  let u := owner_says "/addchannel -1001" in
  let u' := owner_says "/removechannel -1001" in
  let s := Admin.boot (channels_file ["-1002"]) in
  Admin.get Admin.Channels s = Admin.JArr [Admin.JStr "-1002"]
  ∧ ∀ k', Admin.get k'
            (snd (Admin.remove_entry Admin.Channels reliable u'
                    (snd (Admin.add Admin.Channels reliable u s))))
          = Admin.get k' s.
Proof.
  intros u u' s.
  assert (Admin.get Admin.Channels s = Admin.JArr [Admin.JStr "-1002"]) as Hget
    by (vm_compute; reflexivity).
  split; [exact Hget |].
  exact (add_then_remove_restores_lists Admin.Channels reliable reliable u u' s
           "-1001" _ eq_refl eq_refl eq_refl eq_refl Hget eq_refl).
Defined.

Lemma missing_sudo_file_admits_the_owner_only_witness :
  let rs := [owner_request true Admin.Sudo "/addsudo 7"] in
  let s := serve_all rs (Admin.boot no_files) in
  (no_files Admin.SUDO_USERS_FILE = Admin.Missing
   ∨ no_files Admin.SUDO_USERS_FILE = Admin.Corrupt)
  ∧ Admin.is_authorized s (stranger_says "/track http://h/ 30")
    = Admin.Done false
  ∧ Admin.calls s = [Admin.ReplyError Admin.NoSuchMethod].
Proof.
  intros rs s.
  assert (no_files Admin.SUDO_USERS_FILE = Admin.Missing
          ∨ no_files Admin.SUDO_USERS_FILE = Admin.Corrupt) as H
    by (left; reflexivity).
  split; [exact H |].
  destruct (missing_sudo_file_admits_the_owner_only no_files [] H)
    as (_ & _ & Hadd).
  destruct (missing_sudo_file_admits_the_owner_only no_files rs H)
    as (_ & Hauth & _).
  split.
  - exact (Hauth (stranger_says "/track http://h/ 30") 7 eq_refl eq_refl).
  - exact (f_equal Admin.calls
             (Hadd reliable (owner_says "/addsudo 7") "7" eq_refl eq_refl)).
Defined.

End MoreExamples.
